(** * qrticket-docs crawler: the formatter, the DOM clean-up pass and the
      request handler of [src/crawler/index.ts], embedded and verified.

    Conventions of the embedding.
    - A JavaScript string is a [string] holding its text in UTF-8; the
      functions that look at single characters ([toUpperCase], [trim]) read
      it code point by code point.
    - [T | null] is [option T]; a number used as a count or as a time value
      is an integer (a heading level is 1 to 6 for the headings of a page);
      a thrown exception is the [Throw] case of [Completion].
    - [formatted += ...] is an accumulator threaded through the code, and
      [forEach] is a left fold over the array. *)

From Stdlib Require Import ZArith Lia Ascii String.
From stdpp Require Import base strings list gmap.

Local Open Scope string_scope.
Local Open Scope Z_scope.

(** ** JavaScript strings *)

Module Js.

(** The line feed and the double quote of the template literals. *)
Definition LF : string := String (ascii_of_nat 10) EmptyString.
Definition DQ : string := String (ascii_of_nat 34) EmptyString.

(** The no-break space U+00A0 and the em space U+2003. *)
Definition NBSP : string := String (ascii_of_nat 194) (String (ascii_of_nat 160) EmptyString).
Definition EMSP : string :=
  String (ascii_of_nat 226) (String (ascii_of_nat 128) (String (ascii_of_nat 131) EmptyString)).

Inductive Error := RangeError | TypeError | TimeoutError.

Inductive Completion (A : Type) :=
| Normal (a : A)
| Throw (e : Error).
Arguments Normal {A} a.
Arguments Throw {A} e.

Definition bind {A B} (c : Completion A) (k : A -> Completion B) : Completion B :=
  match c with
  | Normal a => k a
  | Throw e => Throw e
  end.

(** [if (s)] on a string: the empty string is the only falsy one. *)
Definition truthy (s : string) : bool := negb (String.eqb s "").

(** [if (o)] on a [string | null]. *)
Definition truthyOpt (o : option string) : bool :=
  match o with
  | Some s => truthy s
  | None => false
  end.

Definition upperChar (c : ascii) : ascii :=
  let n := nat_of_ascii c in
  if ((97 <=? n) && (n <=? 122))%nat then ascii_of_nat (n - 32) else c.

(** The first byte of a code point of two, three and four bytes, and a
    byte that continues one. *)
Definition lead2 (c : ascii) : bool :=
  let n := nat_of_ascii c in ((194 <=? n) && (n <=? 223))%nat.
Definition lead3 (c : ascii) : bool :=
  let n := nat_of_ascii c in ((224 <=? n) && (n <=? 239))%nat.
Definition lead4 (c : ascii) : bool :=
  let n := nat_of_ascii c in ((240 <=? n) && (n <=? 244))%nat.
Definition continuation (c : ascii) : bool :=
  let n := nat_of_ascii c in ((128 <=? n) && (n <=? 191))%nat.
Definition isAscii (c : ascii) : bool := (nat_of_ascii c <? 128)%nat.

(** A string of well-formed text: every code point has its lead byte and
    its continuation bytes. *)
Fixpoint wellFormed (s : string) : bool :=
  match s with
  | EmptyString => true
  | String a r =>
      if isAscii a then wellFormed r
      else if lead2 a then
        match r with
        | String b r2 => continuation b && wellFormed r2
        | _ => false
        end
      else if lead3 a then
        match r with
        | String b (String c r3) => continuation b && continuation c && wellFormed r3
        | _ => false
        end
      else if lead4 a then
        match r with
        | String b (String c (String d r4)) =>
            continuation b && continuation c && continuation d && wellFormed r4
        | _ => false
        end
      else false
  end.

(** The code points beyond ASCII that [toUpperCase] changes, each with what
    it becomes: the mappings without condition of the Unicode Character
    Database, version 14.0 (a later version only adds mappings for
    characters that had none). *)
Definition upperTable : list (string * string) :=
  [("µ", "Μ"); ("ß", "SS"); ("à", "À"); ("á", "Á"); ("â", "Â"); ("ã", "Ã");
   ("ä", "Ä"); ("å", "Å"); ("æ", "Æ"); ("ç", "Ç"); ("è", "È"); ("é", "É");
   ("ê", "Ê"); ("ë", "Ë"); ("ì", "Ì"); ("í", "Í"); ("î", "Î"); ("ï", "Ï");
   ("ð", "Ð"); ("ñ", "Ñ"); ("ò", "Ò"); ("ó", "Ó"); ("ô", "Ô"); ("õ", "Õ");
   ("ö", "Ö"); ("ø", "Ø"); ("ù", "Ù"); ("ú", "Ú"); ("û", "Û"); ("ü", "Ü");
   ("ý", "Ý"); ("þ", "Þ"); ("ÿ", "Ÿ"); ("ā", "Ā"); ("ă", "Ă"); ("ą", "Ą");
   ("ć", "Ć"); ("ĉ", "Ĉ"); ("ċ", "Ċ"); ("č", "Č"); ("ď", "Ď"); ("đ", "Đ");
   ("ē", "Ē"); ("ĕ", "Ĕ"); ("ė", "Ė"); ("ę", "Ę"); ("ě", "Ě"); ("ĝ", "Ĝ");
   ("ğ", "Ğ"); ("ġ", "Ġ"); ("ģ", "Ģ"); ("ĥ", "Ĥ"); ("ħ", "Ħ"); ("ĩ", "Ĩ");
   ("ī", "Ī"); ("ĭ", "Ĭ"); ("į", "Į"); ("ı", "I"); ("ĳ", "Ĳ"); ("ĵ", "Ĵ");
   ("ķ", "Ķ"); ("ĺ", "Ĺ"); ("ļ", "Ļ"); ("ľ", "Ľ"); ("ŀ", "Ŀ"); ("ł", "Ł");
   ("ń", "Ń"); ("ņ", "Ņ"); ("ň", "Ň"); ("ŉ", "ʼN"); ("ŋ", "Ŋ"); ("ō", "Ō");
   ("ŏ", "Ŏ"); ("ő", "Ő"); ("œ", "Œ"); ("ŕ", "Ŕ"); ("ŗ", "Ŗ"); ("ř", "Ř");
   ("ś", "Ś"); ("ŝ", "Ŝ"); ("ş", "Ş"); ("š", "Š"); ("ţ", "Ţ"); ("ť", "Ť");
   ("ŧ", "Ŧ"); ("ũ", "Ũ"); ("ū", "Ū"); ("ŭ", "Ŭ"); ("ů", "Ů"); ("ű", "Ű");
   ("ų", "Ų"); ("ŵ", "Ŵ"); ("ŷ", "Ŷ"); ("ź", "Ź"); ("ż", "Ż"); ("ž", "Ž");
   ("ſ", "S"); ("ƀ", "Ƀ"); ("ƃ", "Ƃ"); ("ƅ", "Ƅ"); ("ƈ", "Ƈ"); ("ƌ", "Ƌ");
   ("ƒ", "Ƒ"); ("ƕ", "Ƕ"); ("ƙ", "Ƙ"); ("ƚ", "Ƚ"); ("ƞ", "Ƞ"); ("ơ", "Ơ");
   ("ƣ", "Ƣ"); ("ƥ", "Ƥ"); ("ƨ", "Ƨ"); ("ƭ", "Ƭ"); ("ư", "Ư"); ("ƴ", "Ƴ");
   ("ƶ", "Ƶ"); ("ƹ", "Ƹ"); ("ƽ", "Ƽ"); ("ƿ", "Ƿ"); ("ǅ", "Ǆ"); ("ǆ", "Ǆ");
   ("ǈ", "Ǉ"); ("ǉ", "Ǉ"); ("ǋ", "Ǌ"); ("ǌ", "Ǌ"); ("ǎ", "Ǎ"); ("ǐ", "Ǐ");
   ("ǒ", "Ǒ"); ("ǔ", "Ǔ"); ("ǖ", "Ǖ"); ("ǘ", "Ǘ"); ("ǚ", "Ǚ"); ("ǜ", "Ǜ");
   ("ǝ", "Ǝ"); ("ǟ", "Ǟ"); ("ǡ", "Ǡ"); ("ǣ", "Ǣ"); ("ǥ", "Ǥ"); ("ǧ", "Ǧ");
   ("ǩ", "Ǩ"); ("ǫ", "Ǫ"); ("ǭ", "Ǭ"); ("ǯ", "Ǯ"); ("ǰ", "J̌"); ("ǲ", "Ǳ");
   ("ǳ", "Ǳ"); ("ǵ", "Ǵ"); ("ǹ", "Ǹ"); ("ǻ", "Ǻ"); ("ǽ", "Ǽ"); ("ǿ", "Ǿ");
   ("ȁ", "Ȁ"); ("ȃ", "Ȃ"); ("ȅ", "Ȅ"); ("ȇ", "Ȇ"); ("ȉ", "Ȉ"); ("ȋ", "Ȋ");
   ("ȍ", "Ȍ"); ("ȏ", "Ȏ"); ("ȑ", "Ȑ"); ("ȓ", "Ȓ"); ("ȕ", "Ȕ"); ("ȗ", "Ȗ");
   ("ș", "Ș"); ("ț", "Ț"); ("ȝ", "Ȝ"); ("ȟ", "Ȟ"); ("ȣ", "Ȣ"); ("ȥ", "Ȥ");
   ("ȧ", "Ȧ"); ("ȩ", "Ȩ"); ("ȫ", "Ȫ"); ("ȭ", "Ȭ"); ("ȯ", "Ȯ"); ("ȱ", "Ȱ");
   ("ȳ", "Ȳ"); ("ȼ", "Ȼ"); ("ȿ", "Ȿ"); ("ɀ", "Ɀ"); ("ɂ", "Ɂ"); ("ɇ", "Ɇ");
   ("ɉ", "Ɉ"); ("ɋ", "Ɋ"); ("ɍ", "Ɍ"); ("ɏ", "Ɏ"); ("ɐ", "Ɐ"); ("ɑ", "Ɑ");
   ("ɒ", "Ɒ"); ("ɓ", "Ɓ"); ("ɔ", "Ɔ"); ("ɖ", "Ɖ"); ("ɗ", "Ɗ"); ("ə", "Ə");
   ("ɛ", "Ɛ"); ("ɜ", "Ɜ"); ("ɠ", "Ɠ"); ("ɡ", "Ɡ"); ("ɣ", "Ɣ"); ("ɥ", "Ɥ");
   ("ɦ", "Ɦ"); ("ɨ", "Ɨ"); ("ɩ", "Ɩ"); ("ɪ", "Ɪ"); ("ɫ", "Ɫ"); ("ɬ", "Ɬ");
   ("ɯ", "Ɯ"); ("ɱ", "Ɱ"); ("ɲ", "Ɲ"); ("ɵ", "Ɵ"); ("ɽ", "Ɽ"); ("ʀ", "Ʀ");
   ("ʂ", "Ʂ"); ("ʃ", "Ʃ"); ("ʇ", "Ʇ"); ("ʈ", "Ʈ"); ("ʉ", "Ʉ"); ("ʊ", "Ʊ");
   ("ʋ", "Ʋ"); ("ʌ", "Ʌ"); ("ʒ", "Ʒ"); ("ʝ", "Ʝ"); ("ʞ", "Ʞ"); ("ͅ", "Ι");
   ("ͱ", "Ͱ"); ("ͳ", "Ͳ"); ("ͷ", "Ͷ"); ("ͻ", "Ͻ"); ("ͼ", "Ͼ"); ("ͽ", "Ͽ");
   ("ΐ", "Ϊ́"); ("ά", "Ά"); ("έ", "Έ"); ("ή", "Ή"); ("ί", "Ί"); ("ΰ", "Ϋ́");
   ("α", "Α"); ("β", "Β"); ("γ", "Γ"); ("δ", "Δ"); ("ε", "Ε"); ("ζ", "Ζ");
   ("η", "Η"); ("θ", "Θ"); ("ι", "Ι"); ("κ", "Κ"); ("λ", "Λ"); ("μ", "Μ");
   ("ν", "Ν"); ("ξ", "Ξ"); ("ο", "Ο"); ("π", "Π"); ("ρ", "Ρ"); ("ς", "Σ");
   ("σ", "Σ"); ("τ", "Τ"); ("υ", "Υ"); ("φ", "Φ"); ("χ", "Χ"); ("ψ", "Ψ");
   ("ω", "Ω"); ("ϊ", "Ϊ"); ("ϋ", "Ϋ"); ("ό", "Ό"); ("ύ", "Ύ"); ("ώ", "Ώ");
   ("ϐ", "Β"); ("ϑ", "Θ"); ("ϕ", "Φ"); ("ϖ", "Π"); ("ϗ", "Ϗ"); ("ϙ", "Ϙ");
   ("ϛ", "Ϛ"); ("ϝ", "Ϝ"); ("ϟ", "Ϟ"); ("ϡ", "Ϡ"); ("ϣ", "Ϣ"); ("ϥ", "Ϥ");
   ("ϧ", "Ϧ"); ("ϩ", "Ϩ"); ("ϫ", "Ϫ"); ("ϭ", "Ϭ"); ("ϯ", "Ϯ"); ("ϰ", "Κ");
   ("ϱ", "Ρ"); ("ϲ", "Ϲ"); ("ϳ", "Ϳ"); ("ϵ", "Ε"); ("ϸ", "Ϸ"); ("ϻ", "Ϻ");
   ("а", "А"); ("б", "Б"); ("в", "В"); ("г", "Г"); ("д", "Д"); ("е", "Е");
   ("ж", "Ж"); ("з", "З"); ("и", "И"); ("й", "Й"); ("к", "К"); ("л", "Л");
   ("м", "М"); ("н", "Н"); ("о", "О"); ("п", "П"); ("р", "Р"); ("с", "С");
   ("т", "Т"); ("у", "У"); ("ф", "Ф"); ("х", "Х"); ("ц", "Ц"); ("ч", "Ч");
   ("ш", "Ш"); ("щ", "Щ"); ("ъ", "Ъ"); ("ы", "Ы"); ("ь", "Ь"); ("э", "Э");
   ("ю", "Ю"); ("я", "Я"); ("ѐ", "Ѐ"); ("ё", "Ё"); ("ђ", "Ђ"); ("ѓ", "Ѓ");
   ("є", "Є"); ("ѕ", "Ѕ"); ("і", "І"); ("ї", "Ї"); ("ј", "Ј"); ("љ", "Љ");
   ("њ", "Њ"); ("ћ", "Ћ"); ("ќ", "Ќ"); ("ѝ", "Ѝ"); ("ў", "Ў"); ("џ", "Џ");
   ("ѡ", "Ѡ"); ("ѣ", "Ѣ"); ("ѥ", "Ѥ"); ("ѧ", "Ѧ"); ("ѩ", "Ѩ"); ("ѫ", "Ѫ");
   ("ѭ", "Ѭ"); ("ѯ", "Ѯ"); ("ѱ", "Ѱ"); ("ѳ", "Ѳ"); ("ѵ", "Ѵ"); ("ѷ", "Ѷ");
   ("ѹ", "Ѹ"); ("ѻ", "Ѻ"); ("ѽ", "Ѽ"); ("ѿ", "Ѿ"); ("ҁ", "Ҁ"); ("ҋ", "Ҋ");
   ("ҍ", "Ҍ"); ("ҏ", "Ҏ"); ("ґ", "Ґ"); ("ғ", "Ғ"); ("ҕ", "Ҕ"); ("җ", "Җ");
   ("ҙ", "Ҙ"); ("қ", "Қ"); ("ҝ", "Ҝ"); ("ҟ", "Ҟ"); ("ҡ", "Ҡ"); ("ң", "Ң");
   ("ҥ", "Ҥ"); ("ҧ", "Ҧ"); ("ҩ", "Ҩ"); ("ҫ", "Ҫ"); ("ҭ", "Ҭ"); ("ү", "Ү");
   ("ұ", "Ұ"); ("ҳ", "Ҳ"); ("ҵ", "Ҵ"); ("ҷ", "Ҷ"); ("ҹ", "Ҹ"); ("һ", "Һ");
   ("ҽ", "Ҽ"); ("ҿ", "Ҿ"); ("ӂ", "Ӂ"); ("ӄ", "Ӄ"); ("ӆ", "Ӆ"); ("ӈ", "Ӈ");
   ("ӊ", "Ӊ"); ("ӌ", "Ӌ"); ("ӎ", "Ӎ"); ("ӏ", "Ӏ"); ("ӑ", "Ӑ"); ("ӓ", "Ӓ");
   ("ӕ", "Ӕ"); ("ӗ", "Ӗ"); ("ә", "Ә"); ("ӛ", "Ӛ"); ("ӝ", "Ӝ"); ("ӟ", "Ӟ");
   ("ӡ", "Ӡ"); ("ӣ", "Ӣ"); ("ӥ", "Ӥ"); ("ӧ", "Ӧ"); ("ө", "Ө"); ("ӫ", "Ӫ");
   ("ӭ", "Ӭ"); ("ӯ", "Ӯ"); ("ӱ", "Ӱ"); ("ӳ", "Ӳ"); ("ӵ", "Ӵ"); ("ӷ", "Ӷ");
   ("ӹ", "Ӹ"); ("ӻ", "Ӻ"); ("ӽ", "Ӽ"); ("ӿ", "Ӿ"); ("ԁ", "Ԁ"); ("ԃ", "Ԃ");
   ("ԅ", "Ԅ"); ("ԇ", "Ԇ"); ("ԉ", "Ԉ"); ("ԋ", "Ԋ"); ("ԍ", "Ԍ"); ("ԏ", "Ԏ");
   ("ԑ", "Ԑ"); ("ԓ", "Ԓ"); ("ԕ", "Ԕ"); ("ԗ", "Ԗ"); ("ԙ", "Ԙ"); ("ԛ", "Ԛ");
   ("ԝ", "Ԝ"); ("ԟ", "Ԟ"); ("ԡ", "Ԡ"); ("ԣ", "Ԣ"); ("ԥ", "Ԥ"); ("ԧ", "Ԧ");
   ("ԩ", "Ԩ"); ("ԫ", "Ԫ"); ("ԭ", "Ԭ"); ("ԯ", "Ԯ"); ("ա", "Ա"); ("բ", "Բ");
   ("գ", "Գ"); ("դ", "Դ"); ("ե", "Ե"); ("զ", "Զ"); ("է", "Է"); ("ը", "Ը");
   ("թ", "Թ"); ("ժ", "Ժ"); ("ի", "Ի"); ("լ", "Լ"); ("խ", "Խ"); ("ծ", "Ծ");
   ("կ", "Կ"); ("հ", "Հ"); ("ձ", "Ձ"); ("ղ", "Ղ"); ("ճ", "Ճ"); ("մ", "Մ");
   ("յ", "Յ"); ("ն", "Ն"); ("շ", "Շ"); ("ո", "Ո"); ("չ", "Չ"); ("պ", "Պ");
   ("ջ", "Ջ"); ("ռ", "Ռ"); ("ս", "Ս"); ("վ", "Վ"); ("տ", "Տ"); ("ր", "Ր");
   ("ց", "Ց"); ("ւ", "Ւ"); ("փ", "Փ"); ("ք", "Ք"); ("օ", "Օ"); ("ֆ", "Ֆ");
   ("և", "ԵՒ"); ("ა", "Ა"); ("ბ", "Ბ"); ("გ", "Გ"); ("დ", "Დ"); ("ე", "Ე");
   ("ვ", "Ვ"); ("ზ", "Ზ"); ("თ", "Თ"); ("ი", "Ი"); ("კ", "Კ"); ("ლ", "Ლ");
   ("მ", "Მ"); ("ნ", "Ნ"); ("ო", "Ო"); ("პ", "Პ"); ("ჟ", "Ჟ"); ("რ", "Რ");
   ("ს", "Ს"); ("ტ", "Ტ"); ("უ", "Უ"); ("ფ", "Ფ"); ("ქ", "Ქ"); ("ღ", "Ღ");
   ("ყ", "Ყ"); ("შ", "Შ"); ("ჩ", "Ჩ"); ("ც", "Ც"); ("ძ", "Ძ"); ("წ", "Წ");
   ("ჭ", "Ჭ"); ("ხ", "Ხ"); ("ჯ", "Ჯ"); ("ჰ", "Ჰ"); ("ჱ", "Ჱ"); ("ჲ", "Ჲ");
   ("ჳ", "Ჳ"); ("ჴ", "Ჴ"); ("ჵ", "Ჵ"); ("ჶ", "Ჶ"); ("ჷ", "Ჷ"); ("ჸ", "Ჸ");
   ("ჹ", "Ჹ"); ("ჺ", "Ჺ"); ("ჽ", "Ჽ"); ("ჾ", "Ჾ"); ("ჿ", "Ჿ"); ("ᏸ", "Ᏸ");
   ("ᏹ", "Ᏹ"); ("ᏺ", "Ᏺ"); ("ᏻ", "Ᏻ"); ("ᏼ", "Ᏼ"); ("ᏽ", "Ᏽ"); ("ᲀ", "В");
   ("ᲁ", "Д"); ("ᲂ", "О"); ("ᲃ", "С"); ("ᲄ", "Т"); ("ᲅ", "Т"); ("ᲆ", "Ъ");
   ("ᲇ", "Ѣ"); ("ᲈ", "Ꙋ"); ("ᵹ", "Ᵹ"); ("ᵽ", "Ᵽ"); ("ᶎ", "Ᶎ"); ("ḁ", "Ḁ");
   ("ḃ", "Ḃ"); ("ḅ", "Ḅ"); ("ḇ", "Ḇ"); ("ḉ", "Ḉ"); ("ḋ", "Ḋ"); ("ḍ", "Ḍ");
   ("ḏ", "Ḏ"); ("ḑ", "Ḑ"); ("ḓ", "Ḓ"); ("ḕ", "Ḕ"); ("ḗ", "Ḗ"); ("ḙ", "Ḙ");
   ("ḛ", "Ḛ"); ("ḝ", "Ḝ"); ("ḟ", "Ḟ"); ("ḡ", "Ḡ"); ("ḣ", "Ḣ"); ("ḥ", "Ḥ");
   ("ḧ", "Ḧ"); ("ḩ", "Ḩ"); ("ḫ", "Ḫ"); ("ḭ", "Ḭ"); ("ḯ", "Ḯ"); ("ḱ", "Ḱ");
   ("ḳ", "Ḳ"); ("ḵ", "Ḵ"); ("ḷ", "Ḷ"); ("ḹ", "Ḹ"); ("ḻ", "Ḻ"); ("ḽ", "Ḽ");
   ("ḿ", "Ḿ"); ("ṁ", "Ṁ"); ("ṃ", "Ṃ"); ("ṅ", "Ṅ"); ("ṇ", "Ṇ"); ("ṉ", "Ṉ");
   ("ṋ", "Ṋ"); ("ṍ", "Ṍ"); ("ṏ", "Ṏ"); ("ṑ", "Ṑ"); ("ṓ", "Ṓ"); ("ṕ", "Ṕ");
   ("ṗ", "Ṗ"); ("ṙ", "Ṙ"); ("ṛ", "Ṛ"); ("ṝ", "Ṝ"); ("ṟ", "Ṟ"); ("ṡ", "Ṡ");
   ("ṣ", "Ṣ"); ("ṥ", "Ṥ"); ("ṧ", "Ṧ"); ("ṩ", "Ṩ"); ("ṫ", "Ṫ"); ("ṭ", "Ṭ");
   ("ṯ", "Ṯ"); ("ṱ", "Ṱ"); ("ṳ", "Ṳ"); ("ṵ", "Ṵ"); ("ṷ", "Ṷ"); ("ṹ", "Ṹ");
   ("ṻ", "Ṻ"); ("ṽ", "Ṽ"); ("ṿ", "Ṿ"); ("ẁ", "Ẁ"); ("ẃ", "Ẃ"); ("ẅ", "Ẅ");
   ("ẇ", "Ẇ"); ("ẉ", "Ẉ"); ("ẋ", "Ẋ"); ("ẍ", "Ẍ"); ("ẏ", "Ẏ"); ("ẑ", "Ẑ");
   ("ẓ", "Ẓ"); ("ẕ", "Ẕ"); ("ẖ", "H̱"); ("ẗ", "T̈"); ("ẘ", "W̊"); ("ẙ", "Y̊");
   ("ẚ", "Aʾ"); ("ẛ", "Ṡ"); ("ạ", "Ạ"); ("ả", "Ả"); ("ấ", "Ấ"); ("ầ", "Ầ");
   ("ẩ", "Ẩ"); ("ẫ", "Ẫ"); ("ậ", "Ậ"); ("ắ", "Ắ"); ("ằ", "Ằ"); ("ẳ", "Ẳ");
   ("ẵ", "Ẵ"); ("ặ", "Ặ"); ("ẹ", "Ẹ"); ("ẻ", "Ẻ"); ("ẽ", "Ẽ"); ("ế", "Ế");
   ("ề", "Ề"); ("ể", "Ể"); ("ễ", "Ễ"); ("ệ", "Ệ"); ("ỉ", "Ỉ"); ("ị", "Ị");
   ("ọ", "Ọ"); ("ỏ", "Ỏ"); ("ố", "Ố"); ("ồ", "Ồ"); ("ổ", "Ổ"); ("ỗ", "Ỗ");
   ("ộ", "Ộ"); ("ớ", "Ớ"); ("ờ", "Ờ"); ("ở", "Ở"); ("ỡ", "Ỡ"); ("ợ", "Ợ");
   ("ụ", "Ụ"); ("ủ", "Ủ"); ("ứ", "Ứ"); ("ừ", "Ừ"); ("ử", "Ử"); ("ữ", "Ữ");
   ("ự", "Ự"); ("ỳ", "Ỳ"); ("ỵ", "Ỵ"); ("ỷ", "Ỷ"); ("ỹ", "Ỹ"); ("ỻ", "Ỻ");
   ("ỽ", "Ỽ"); ("ỿ", "Ỿ"); ("ἀ", "Ἀ"); ("ἁ", "Ἁ"); ("ἂ", "Ἂ"); ("ἃ", "Ἃ");
   ("ἄ", "Ἄ"); ("ἅ", "Ἅ"); ("ἆ", "Ἆ"); ("ἇ", "Ἇ"); ("ἐ", "Ἐ"); ("ἑ", "Ἑ");
   ("ἒ", "Ἒ"); ("ἓ", "Ἓ"); ("ἔ", "Ἔ"); ("ἕ", "Ἕ"); ("ἠ", "Ἠ"); ("ἡ", "Ἡ");
   ("ἢ", "Ἢ"); ("ἣ", "Ἣ"); ("ἤ", "Ἤ"); ("ἥ", "Ἥ"); ("ἦ", "Ἦ"); ("ἧ", "Ἧ");
   ("ἰ", "Ἰ"); ("ἱ", "Ἱ"); ("ἲ", "Ἲ"); ("ἳ", "Ἳ"); ("ἴ", "Ἴ"); ("ἵ", "Ἵ");
   ("ἶ", "Ἶ"); ("ἷ", "Ἷ"); ("ὀ", "Ὀ"); ("ὁ", "Ὁ"); ("ὂ", "Ὂ"); ("ὃ", "Ὃ");
   ("ὄ", "Ὄ"); ("ὅ", "Ὅ"); ("ὐ", "Υ̓"); ("ὑ", "Ὑ"); ("ὒ", "Υ̓̀"); ("ὓ", "Ὓ");
   ("ὔ", "Υ̓́"); ("ὕ", "Ὕ"); ("ὖ", "Υ̓͂"); ("ὗ", "Ὗ"); ("ὠ", "Ὠ"); ("ὡ", "Ὡ");
   ("ὢ", "Ὢ"); ("ὣ", "Ὣ"); ("ὤ", "Ὤ"); ("ὥ", "Ὥ"); ("ὦ", "Ὦ"); ("ὧ", "Ὧ");
   ("ὰ", "Ὰ"); ("ά", "Ά"); ("ὲ", "Ὲ"); ("έ", "Έ"); ("ὴ", "Ὴ"); ("ή", "Ή");
   ("ὶ", "Ὶ"); ("ί", "Ί"); ("ὸ", "Ὸ"); ("ό", "Ό"); ("ὺ", "Ὺ"); ("ύ", "Ύ");
   ("ὼ", "Ὼ"); ("ώ", "Ώ"); ("ᾀ", "ἈΙ"); ("ᾁ", "ἉΙ"); ("ᾂ", "ἊΙ"); ("ᾃ", "ἋΙ");
   ("ᾄ", "ἌΙ"); ("ᾅ", "ἍΙ"); ("ᾆ", "ἎΙ"); ("ᾇ", "ἏΙ"); ("ᾈ", "ἈΙ"); ("ᾉ", "ἉΙ");
   ("ᾊ", "ἊΙ"); ("ᾋ", "ἋΙ"); ("ᾌ", "ἌΙ"); ("ᾍ", "ἍΙ"); ("ᾎ", "ἎΙ"); ("ᾏ", "ἏΙ");
   ("ᾐ", "ἨΙ"); ("ᾑ", "ἩΙ"); ("ᾒ", "ἪΙ"); ("ᾓ", "ἫΙ"); ("ᾔ", "ἬΙ"); ("ᾕ", "ἭΙ");
   ("ᾖ", "ἮΙ"); ("ᾗ", "ἯΙ"); ("ᾘ", "ἨΙ"); ("ᾙ", "ἩΙ"); ("ᾚ", "ἪΙ"); ("ᾛ", "ἫΙ");
   ("ᾜ", "ἬΙ"); ("ᾝ", "ἭΙ"); ("ᾞ", "ἮΙ"); ("ᾟ", "ἯΙ"); ("ᾠ", "ὨΙ"); ("ᾡ", "ὩΙ");
   ("ᾢ", "ὪΙ"); ("ᾣ", "ὫΙ"); ("ᾤ", "ὬΙ"); ("ᾥ", "ὭΙ"); ("ᾦ", "ὮΙ"); ("ᾧ", "ὯΙ");
   ("ᾨ", "ὨΙ"); ("ᾩ", "ὩΙ"); ("ᾪ", "ὪΙ"); ("ᾫ", "ὫΙ"); ("ᾬ", "ὬΙ"); ("ᾭ", "ὭΙ");
   ("ᾮ", "ὮΙ"); ("ᾯ", "ὯΙ"); ("ᾰ", "Ᾰ"); ("ᾱ", "Ᾱ"); ("ᾲ", "ᾺΙ"); ("ᾳ", "ΑΙ");
   ("ᾴ", "ΆΙ"); ("ᾶ", "Α͂"); ("ᾷ", "Α͂Ι"); ("ᾼ", "ΑΙ"); ("ι", "Ι"); ("ῂ", "ῊΙ");
   ("ῃ", "ΗΙ"); ("ῄ", "ΉΙ"); ("ῆ", "Η͂"); ("ῇ", "Η͂Ι"); ("ῌ", "ΗΙ"); ("ῐ", "Ῐ");
   ("ῑ", "Ῑ"); ("ῒ", "Ϊ̀"); ("ΐ", "Ϊ́"); ("ῖ", "Ι͂"); ("ῗ", "Ϊ͂"); ("ῠ", "Ῠ");
   ("ῡ", "Ῡ"); ("ῢ", "Ϋ̀"); ("ΰ", "Ϋ́"); ("ῤ", "Ρ̓"); ("ῥ", "Ῥ"); ("ῦ", "Υ͂");
   ("ῧ", "Ϋ͂"); ("ῲ", "ῺΙ"); ("ῳ", "ΩΙ"); ("ῴ", "ΏΙ"); ("ῶ", "Ω͂"); ("ῷ", "Ω͂Ι");
   ("ῼ", "ΩΙ"); ("ⅎ", "Ⅎ"); ("ⅰ", "Ⅰ"); ("ⅱ", "Ⅱ"); ("ⅲ", "Ⅲ"); ("ⅳ", "Ⅳ");
   ("ⅴ", "Ⅴ"); ("ⅵ", "Ⅵ"); ("ⅶ", "Ⅶ"); ("ⅷ", "Ⅷ"); ("ⅸ", "Ⅸ"); ("ⅹ", "Ⅹ");
   ("ⅺ", "Ⅺ"); ("ⅻ", "Ⅻ"); ("ⅼ", "Ⅼ"); ("ⅽ", "Ⅽ"); ("ⅾ", "Ⅾ"); ("ⅿ", "Ⅿ");
   ("ↄ", "Ↄ"); ("ⓐ", "Ⓐ"); ("ⓑ", "Ⓑ"); ("ⓒ", "Ⓒ"); ("ⓓ", "Ⓓ"); ("ⓔ", "Ⓔ");
   ("ⓕ", "Ⓕ"); ("ⓖ", "Ⓖ"); ("ⓗ", "Ⓗ"); ("ⓘ", "Ⓘ"); ("ⓙ", "Ⓙ"); ("ⓚ", "Ⓚ");
   ("ⓛ", "Ⓛ"); ("ⓜ", "Ⓜ"); ("ⓝ", "Ⓝ"); ("ⓞ", "Ⓞ"); ("ⓟ", "Ⓟ"); ("ⓠ", "Ⓠ");
   ("ⓡ", "Ⓡ"); ("ⓢ", "Ⓢ"); ("ⓣ", "Ⓣ"); ("ⓤ", "Ⓤ"); ("ⓥ", "Ⓥ"); ("ⓦ", "Ⓦ");
   ("ⓧ", "Ⓧ"); ("ⓨ", "Ⓨ"); ("ⓩ", "Ⓩ"); ("ⰰ", "Ⰰ"); ("ⰱ", "Ⰱ"); ("ⰲ", "Ⰲ");
   ("ⰳ", "Ⰳ"); ("ⰴ", "Ⰴ"); ("ⰵ", "Ⰵ"); ("ⰶ", "Ⰶ"); ("ⰷ", "Ⰷ"); ("ⰸ", "Ⰸ");
   ("ⰹ", "Ⰹ"); ("ⰺ", "Ⰺ"); ("ⰻ", "Ⰻ"); ("ⰼ", "Ⰼ"); ("ⰽ", "Ⰽ"); ("ⰾ", "Ⰾ");
   ("ⰿ", "Ⰿ"); ("ⱀ", "Ⱀ"); ("ⱁ", "Ⱁ"); ("ⱂ", "Ⱂ"); ("ⱃ", "Ⱃ"); ("ⱄ", "Ⱄ");
   ("ⱅ", "Ⱅ"); ("ⱆ", "Ⱆ"); ("ⱇ", "Ⱇ"); ("ⱈ", "Ⱈ"); ("ⱉ", "Ⱉ"); ("ⱊ", "Ⱊ");
   ("ⱋ", "Ⱋ"); ("ⱌ", "Ⱌ"); ("ⱍ", "Ⱍ"); ("ⱎ", "Ⱎ"); ("ⱏ", "Ⱏ"); ("ⱐ", "Ⱐ");
   ("ⱑ", "Ⱑ"); ("ⱒ", "Ⱒ"); ("ⱓ", "Ⱓ"); ("ⱔ", "Ⱔ"); ("ⱕ", "Ⱕ"); ("ⱖ", "Ⱖ");
   ("ⱗ", "Ⱗ"); ("ⱘ", "Ⱘ"); ("ⱙ", "Ⱙ"); ("ⱚ", "Ⱚ"); ("ⱛ", "Ⱛ"); ("ⱜ", "Ⱜ");
   ("ⱝ", "Ⱝ"); ("ⱞ", "Ⱞ"); ("ⱟ", "Ⱟ"); ("ⱡ", "Ⱡ"); ("ⱥ", "Ⱥ"); ("ⱦ", "Ⱦ");
   ("ⱨ", "Ⱨ"); ("ⱪ", "Ⱪ"); ("ⱬ", "Ⱬ"); ("ⱳ", "Ⱳ"); ("ⱶ", "Ⱶ"); ("ⲁ", "Ⲁ");
   ("ⲃ", "Ⲃ"); ("ⲅ", "Ⲅ"); ("ⲇ", "Ⲇ"); ("ⲉ", "Ⲉ"); ("ⲋ", "Ⲋ"); ("ⲍ", "Ⲍ");
   ("ⲏ", "Ⲏ"); ("ⲑ", "Ⲑ"); ("ⲓ", "Ⲓ"); ("ⲕ", "Ⲕ"); ("ⲗ", "Ⲗ"); ("ⲙ", "Ⲙ");
   ("ⲛ", "Ⲛ"); ("ⲝ", "Ⲝ"); ("ⲟ", "Ⲟ"); ("ⲡ", "Ⲡ"); ("ⲣ", "Ⲣ"); ("ⲥ", "Ⲥ");
   ("ⲧ", "Ⲧ"); ("ⲩ", "Ⲩ"); ("ⲫ", "Ⲫ"); ("ⲭ", "Ⲭ"); ("ⲯ", "Ⲯ"); ("ⲱ", "Ⲱ");
   ("ⲳ", "Ⲳ"); ("ⲵ", "Ⲵ"); ("ⲷ", "Ⲷ"); ("ⲹ", "Ⲹ"); ("ⲻ", "Ⲻ"); ("ⲽ", "Ⲽ");
   ("ⲿ", "Ⲿ"); ("ⳁ", "Ⳁ"); ("ⳃ", "Ⳃ"); ("ⳅ", "Ⳅ"); ("ⳇ", "Ⳇ"); ("ⳉ", "Ⳉ");
   ("ⳋ", "Ⳋ"); ("ⳍ", "Ⳍ"); ("ⳏ", "Ⳏ"); ("ⳑ", "Ⳑ"); ("ⳓ", "Ⳓ"); ("ⳕ", "Ⳕ");
   ("ⳗ", "Ⳗ"); ("ⳙ", "Ⳙ"); ("ⳛ", "Ⳛ"); ("ⳝ", "Ⳝ"); ("ⳟ", "Ⳟ"); ("ⳡ", "Ⳡ");
   ("ⳣ", "Ⳣ"); ("ⳬ", "Ⳬ"); ("ⳮ", "Ⳮ"); ("ⳳ", "Ⳳ"); ("ⴀ", "Ⴀ"); ("ⴁ", "Ⴁ");
   ("ⴂ", "Ⴂ"); ("ⴃ", "Ⴃ"); ("ⴄ", "Ⴄ"); ("ⴅ", "Ⴅ"); ("ⴆ", "Ⴆ"); ("ⴇ", "Ⴇ");
   ("ⴈ", "Ⴈ"); ("ⴉ", "Ⴉ"); ("ⴊ", "Ⴊ"); ("ⴋ", "Ⴋ"); ("ⴌ", "Ⴌ"); ("ⴍ", "Ⴍ");
   ("ⴎ", "Ⴎ"); ("ⴏ", "Ⴏ"); ("ⴐ", "Ⴐ"); ("ⴑ", "Ⴑ"); ("ⴒ", "Ⴒ"); ("ⴓ", "Ⴓ");
   ("ⴔ", "Ⴔ"); ("ⴕ", "Ⴕ"); ("ⴖ", "Ⴖ"); ("ⴗ", "Ⴗ"); ("ⴘ", "Ⴘ"); ("ⴙ", "Ⴙ");
   ("ⴚ", "Ⴚ"); ("ⴛ", "Ⴛ"); ("ⴜ", "Ⴜ"); ("ⴝ", "Ⴝ"); ("ⴞ", "Ⴞ"); ("ⴟ", "Ⴟ");
   ("ⴠ", "Ⴠ"); ("ⴡ", "Ⴡ"); ("ⴢ", "Ⴢ"); ("ⴣ", "Ⴣ"); ("ⴤ", "Ⴤ"); ("ⴥ", "Ⴥ");
   ("ⴧ", "Ⴧ"); ("ⴭ", "Ⴭ"); ("ꙁ", "Ꙁ"); ("ꙃ", "Ꙃ"); ("ꙅ", "Ꙅ"); ("ꙇ", "Ꙇ");
   ("ꙉ", "Ꙉ"); ("ꙋ", "Ꙋ"); ("ꙍ", "Ꙍ"); ("ꙏ", "Ꙏ"); ("ꙑ", "Ꙑ"); ("ꙓ", "Ꙓ");
   ("ꙕ", "Ꙕ"); ("ꙗ", "Ꙗ"); ("ꙙ", "Ꙙ"); ("ꙛ", "Ꙛ"); ("ꙝ", "Ꙝ"); ("ꙟ", "Ꙟ");
   ("ꙡ", "Ꙡ"); ("ꙣ", "Ꙣ"); ("ꙥ", "Ꙥ"); ("ꙧ", "Ꙧ"); ("ꙩ", "Ꙩ"); ("ꙫ", "Ꙫ");
   ("ꙭ", "Ꙭ"); ("ꚁ", "Ꚁ"); ("ꚃ", "Ꚃ"); ("ꚅ", "Ꚅ"); ("ꚇ", "Ꚇ"); ("ꚉ", "Ꚉ");
   ("ꚋ", "Ꚋ"); ("ꚍ", "Ꚍ"); ("ꚏ", "Ꚏ"); ("ꚑ", "Ꚑ"); ("ꚓ", "Ꚓ"); ("ꚕ", "Ꚕ");
   ("ꚗ", "Ꚗ"); ("ꚙ", "Ꚙ"); ("ꚛ", "Ꚛ"); ("ꜣ", "Ꜣ"); ("ꜥ", "Ꜥ"); ("ꜧ", "Ꜧ");
   ("ꜩ", "Ꜩ"); ("ꜫ", "Ꜫ"); ("ꜭ", "Ꜭ"); ("ꜯ", "Ꜯ"); ("ꜳ", "Ꜳ"); ("ꜵ", "Ꜵ");
   ("ꜷ", "Ꜷ"); ("ꜹ", "Ꜹ"); ("ꜻ", "Ꜻ"); ("ꜽ", "Ꜽ"); ("ꜿ", "Ꜿ"); ("ꝁ", "Ꝁ");
   ("ꝃ", "Ꝃ"); ("ꝅ", "Ꝅ"); ("ꝇ", "Ꝇ"); ("ꝉ", "Ꝉ"); ("ꝋ", "Ꝋ"); ("ꝍ", "Ꝍ");
   ("ꝏ", "Ꝏ"); ("ꝑ", "Ꝑ"); ("ꝓ", "Ꝓ"); ("ꝕ", "Ꝕ"); ("ꝗ", "Ꝗ"); ("ꝙ", "Ꝙ");
   ("ꝛ", "Ꝛ"); ("ꝝ", "Ꝝ"); ("ꝟ", "Ꝟ"); ("ꝡ", "Ꝡ"); ("ꝣ", "Ꝣ"); ("ꝥ", "Ꝥ");
   ("ꝧ", "Ꝧ"); ("ꝩ", "Ꝩ"); ("ꝫ", "Ꝫ"); ("ꝭ", "Ꝭ"); ("ꝯ", "Ꝯ"); ("ꝺ", "Ꝺ");
   ("ꝼ", "Ꝼ"); ("ꝿ", "Ꝿ"); ("ꞁ", "Ꞁ"); ("ꞃ", "Ꞃ"); ("ꞅ", "Ꞅ"); ("ꞇ", "Ꞇ");
   ("ꞌ", "Ꞌ"); ("ꞑ", "Ꞑ"); ("ꞓ", "Ꞓ"); ("ꞔ", "Ꞔ"); ("ꞗ", "Ꞗ"); ("ꞙ", "Ꞙ");
   ("ꞛ", "Ꞛ"); ("ꞝ", "Ꞝ"); ("ꞟ", "Ꞟ"); ("ꞡ", "Ꞡ"); ("ꞣ", "Ꞣ"); ("ꞥ", "Ꞥ");
   ("ꞧ", "Ꞧ"); ("ꞩ", "Ꞩ"); ("ꞵ", "Ꞵ"); ("ꞷ", "Ꞷ"); ("ꞹ", "Ꞹ"); ("ꞻ", "Ꞻ");
   ("ꞽ", "Ꞽ"); ("ꞿ", "Ꞿ"); ("ꟁ", "Ꟁ"); ("ꟃ", "Ꟃ"); ("ꟈ", "Ꟈ"); ("ꟊ", "Ꟊ");
   ("ꟑ", "Ꟑ"); ("ꟗ", "Ꟗ"); ("ꟙ", "Ꟙ"); ("ꟶ", "Ꟶ"); ("ꭓ", "Ꭓ"); ("ꭰ", "Ꭰ");
   ("ꭱ", "Ꭱ"); ("ꭲ", "Ꭲ"); ("ꭳ", "Ꭳ"); ("ꭴ", "Ꭴ"); ("ꭵ", "Ꭵ"); ("ꭶ", "Ꭶ");
   ("ꭷ", "Ꭷ"); ("ꭸ", "Ꭸ"); ("ꭹ", "Ꭹ"); ("ꭺ", "Ꭺ"); ("ꭻ", "Ꭻ"); ("ꭼ", "Ꭼ");
   ("ꭽ", "Ꭽ"); ("ꭾ", "Ꭾ"); ("ꭿ", "Ꭿ"); ("ꮀ", "Ꮀ"); ("ꮁ", "Ꮁ"); ("ꮂ", "Ꮂ");
   ("ꮃ", "Ꮃ"); ("ꮄ", "Ꮄ"); ("ꮅ", "Ꮅ"); ("ꮆ", "Ꮆ"); ("ꮇ", "Ꮇ"); ("ꮈ", "Ꮈ");
   ("ꮉ", "Ꮉ"); ("ꮊ", "Ꮊ"); ("ꮋ", "Ꮋ"); ("ꮌ", "Ꮌ"); ("ꮍ", "Ꮍ"); ("ꮎ", "Ꮎ");
   ("ꮏ", "Ꮏ"); ("ꮐ", "Ꮐ"); ("ꮑ", "Ꮑ"); ("ꮒ", "Ꮒ"); ("ꮓ", "Ꮓ"); ("ꮔ", "Ꮔ");
   ("ꮕ", "Ꮕ"); ("ꮖ", "Ꮖ"); ("ꮗ", "Ꮗ"); ("ꮘ", "Ꮘ"); ("ꮙ", "Ꮙ"); ("ꮚ", "Ꮚ");
   ("ꮛ", "Ꮛ"); ("ꮜ", "Ꮜ"); ("ꮝ", "Ꮝ"); ("ꮞ", "Ꮞ"); ("ꮟ", "Ꮟ"); ("ꮠ", "Ꮠ");
   ("ꮡ", "Ꮡ"); ("ꮢ", "Ꮢ"); ("ꮣ", "Ꮣ"); ("ꮤ", "Ꮤ"); ("ꮥ", "Ꮥ"); ("ꮦ", "Ꮦ");
   ("ꮧ", "Ꮧ"); ("ꮨ", "Ꮨ"); ("ꮩ", "Ꮩ"); ("ꮪ", "Ꮪ"); ("ꮫ", "Ꮫ"); ("ꮬ", "Ꮬ");
   ("ꮭ", "Ꮭ"); ("ꮮ", "Ꮮ"); ("ꮯ", "Ꮯ"); ("ꮰ", "Ꮰ"); ("ꮱ", "Ꮱ"); ("ꮲ", "Ꮲ");
   ("ꮳ", "Ꮳ"); ("ꮴ", "Ꮴ"); ("ꮵ", "Ꮵ"); ("ꮶ", "Ꮶ"); ("ꮷ", "Ꮷ"); ("ꮸ", "Ꮸ");
   ("ꮹ", "Ꮹ"); ("ꮺ", "Ꮺ"); ("ꮻ", "Ꮻ"); ("ꮼ", "Ꮼ"); ("ꮽ", "Ꮽ"); ("ꮾ", "Ꮾ");
   ("ꮿ", "Ꮿ"); ("ﬀ", "FF"); ("ﬁ", "FI"); ("ﬂ", "FL"); ("ﬃ", "FFI"); ("ﬄ", "FFL");
   ("ﬅ", "ST"); ("ﬆ", "ST"); ("ﬓ", "ՄՆ"); ("ﬔ", "ՄԵ"); ("ﬕ", "ՄԻ"); ("ﬖ", "ՎՆ");
   ("ﬗ", "ՄԽ"); ("ａ", "Ａ"); ("ｂ", "Ｂ"); ("ｃ", "Ｃ"); ("ｄ", "Ｄ"); ("ｅ", "Ｅ");
   ("ｆ", "Ｆ"); ("ｇ", "Ｇ"); ("ｈ", "Ｈ"); ("ｉ", "Ｉ"); ("ｊ", "Ｊ"); ("ｋ", "Ｋ");
   ("ｌ", "Ｌ"); ("ｍ", "Ｍ"); ("ｎ", "Ｎ"); ("ｏ", "Ｏ"); ("ｐ", "Ｐ"); ("ｑ", "Ｑ");
   ("ｒ", "Ｒ"); ("ｓ", "Ｓ"); ("ｔ", "Ｔ"); ("ｕ", "Ｕ"); ("ｖ", "Ｖ"); ("ｗ", "Ｗ");
   ("ｘ", "Ｘ"); ("ｙ", "Ｙ"); ("ｚ", "Ｚ"); ("𐐨", "𐐀"); ("𐐩", "𐐁"); ("𐐪", "𐐂");
   ("𐐫", "𐐃"); ("𐐬", "𐐄"); ("𐐭", "𐐅"); ("𐐮", "𐐆"); ("𐐯", "𐐇"); ("𐐰", "𐐈");
   ("𐐱", "𐐉"); ("𐐲", "𐐊"); ("𐐳", "𐐋"); ("𐐴", "𐐌"); ("𐐵", "𐐍"); ("𐐶", "𐐎");
   ("𐐷", "𐐏"); ("𐐸", "𐐐"); ("𐐹", "𐐑"); ("𐐺", "𐐒"); ("𐐻", "𐐓"); ("𐐼", "𐐔");
   ("𐐽", "𐐕"); ("𐐾", "𐐖"); ("𐐿", "𐐗"); ("𐑀", "𐐘"); ("𐑁", "𐐙"); ("𐑂", "𐐚");
   ("𐑃", "𐐛"); ("𐑄", "𐐜"); ("𐑅", "𐐝"); ("𐑆", "𐐞"); ("𐑇", "𐐟"); ("𐑈", "𐐠");
   ("𐑉", "𐐡"); ("𐑊", "𐐢"); ("𐑋", "𐐣"); ("𐑌", "𐐤"); ("𐑍", "𐐥"); ("𐑎", "𐐦");
   ("𐑏", "𐐧"); ("𐓘", "𐒰"); ("𐓙", "𐒱"); ("𐓚", "𐒲"); ("𐓛", "𐒳"); ("𐓜", "𐒴");
   ("𐓝", "𐒵"); ("𐓞", "𐒶"); ("𐓟", "𐒷"); ("𐓠", "𐒸"); ("𐓡", "𐒹"); ("𐓢", "𐒺");
   ("𐓣", "𐒻"); ("𐓤", "𐒼"); ("𐓥", "𐒽"); ("𐓦", "𐒾"); ("𐓧", "𐒿"); ("𐓨", "𐓀");
   ("𐓩", "𐓁"); ("𐓪", "𐓂"); ("𐓫", "𐓃"); ("𐓬", "𐓄"); ("𐓭", "𐓅"); ("𐓮", "𐓆");
   ("𐓯", "𐓇"); ("𐓰", "𐓈"); ("𐓱", "𐓉"); ("𐓲", "𐓊"); ("𐓳", "𐓋"); ("𐓴", "𐓌");
   ("𐓵", "𐓍"); ("𐓶", "𐓎"); ("𐓷", "𐓏"); ("𐓸", "𐓐"); ("𐓹", "𐓑"); ("𐓺", "𐓒");
   ("𐓻", "𐓓"); ("𐖗", "𐕰"); ("𐖘", "𐕱"); ("𐖙", "𐕲"); ("𐖚", "𐕳"); ("𐖛", "𐕴");
   ("𐖜", "𐕵"); ("𐖝", "𐕶"); ("𐖞", "𐕷"); ("𐖟", "𐕸"); ("𐖠", "𐕹"); ("𐖡", "𐕺");
   ("𐖣", "𐕼"); ("𐖤", "𐕽"); ("𐖥", "𐕾"); ("𐖦", "𐕿"); ("𐖧", "𐖀"); ("𐖨", "𐖁");
   ("𐖩", "𐖂"); ("𐖪", "𐖃"); ("𐖫", "𐖄"); ("𐖬", "𐖅"); ("𐖭", "𐖆"); ("𐖮", "𐖇");
   ("𐖯", "𐖈"); ("𐖰", "𐖉"); ("𐖱", "𐖊"); ("𐖳", "𐖌"); ("𐖴", "𐖍"); ("𐖵", "𐖎");
   ("𐖶", "𐖏"); ("𐖷", "𐖐"); ("𐖸", "𐖑"); ("𐖹", "𐖒"); ("𐖻", "𐖔"); ("𐖼", "𐖕");
   ("𐳀", "𐲀"); ("𐳁", "𐲁"); ("𐳂", "𐲂"); ("𐳃", "𐲃"); ("𐳄", "𐲄"); ("𐳅", "𐲅");
   ("𐳆", "𐲆"); ("𐳇", "𐲇"); ("𐳈", "𐲈"); ("𐳉", "𐲉"); ("𐳊", "𐲊"); ("𐳋", "𐲋");
   ("𐳌", "𐲌"); ("𐳍", "𐲍"); ("𐳎", "𐲎"); ("𐳏", "𐲏"); ("𐳐", "𐲐"); ("𐳑", "𐲑");
   ("𐳒", "𐲒"); ("𐳓", "𐲓"); ("𐳔", "𐲔"); ("𐳕", "𐲕"); ("𐳖", "𐲖"); ("𐳗", "𐲗");
   ("𐳘", "𐲘"); ("𐳙", "𐲙"); ("𐳚", "𐲚"); ("𐳛", "𐲛"); ("𐳜", "𐲜"); ("𐳝", "𐲝");
   ("𐳞", "𐲞"); ("𐳟", "𐲟"); ("𐳠", "𐲠"); ("𐳡", "𐲡"); ("𐳢", "𐲢"); ("𐳣", "𐲣");
   ("𐳤", "𐲤"); ("𐳥", "𐲥"); ("𐳦", "𐲦"); ("𐳧", "𐲧"); ("𐳨", "𐲨"); ("𐳩", "𐲩");
   ("𐳪", "𐲪"); ("𐳫", "𐲫"); ("𐳬", "𐲬"); ("𐳭", "𐲭"); ("𐳮", "𐲮"); ("𐳯", "𐲯");
   ("𐳰", "𐲰"); ("𐳱", "𐲱"); ("𐳲", "𐲲"); ("𑣀", "𑢠"); ("𑣁", "𑢡"); ("𑣂", "𑢢");
   ("𑣃", "𑢣"); ("𑣄", "𑢤"); ("𑣅", "𑢥"); ("𑣆", "𑢦"); ("𑣇", "𑢧"); ("𑣈", "𑢨");
   ("𑣉", "𑢩"); ("𑣊", "𑢪"); ("𑣋", "𑢫"); ("𑣌", "𑢬"); ("𑣍", "𑢭"); ("𑣎", "𑢮");
   ("𑣏", "𑢯"); ("𑣐", "𑢰"); ("𑣑", "𑢱"); ("𑣒", "𑢲"); ("𑣓", "𑢳"); ("𑣔", "𑢴");
   ("𑣕", "𑢵"); ("𑣖", "𑢶"); ("𑣗", "𑢷"); ("𑣘", "𑢸"); ("𑣙", "𑢹"); ("𑣚", "𑢺");
   ("𑣛", "𑢻"); ("𑣜", "𑢼"); ("𑣝", "𑢽"); ("𑣞", "𑢾"); ("𑣟", "𑢿"); ("𖹠", "𖹀");
   ("𖹡", "𖹁"); ("𖹢", "𖹂"); ("𖹣", "𖹃"); ("𖹤", "𖹄"); ("𖹥", "𖹅"); ("𖹦", "𖹆");
   ("𖹧", "𖹇"); ("𖹨", "𖹈"); ("𖹩", "𖹉"); ("𖹪", "𖹊"); ("𖹫", "𖹋"); ("𖹬", "𖹌");
   ("𖹭", "𖹍"); ("𖹮", "𖹎"); ("𖹯", "𖹏"); ("𖹰", "𖹐"); ("𖹱", "𖹑"); ("𖹲", "𖹒");
   ("𖹳", "𖹓"); ("𖹴", "𖹔"); ("𖹵", "𖹕"); ("𖹶", "𖹖"); ("𖹷", "𖹗"); ("𖹸", "𖹘");
   ("𖹹", "𖹙"); ("𖹺", "𖹚"); ("𖹻", "𖹛"); ("𖹼", "𖹜"); ("𖹽", "𖹝"); ("𖹾", "𖹞");
   ("𖹿", "𖹟"); ("𞤢", "𞤀"); ("𞤣", "𞤁"); ("𞤤", "𞤂"); ("𞤥", "𞤃"); ("𞤦", "𞤄");
   ("𞤧", "𞤅"); ("𞤨", "𞤆"); ("𞤩", "𞤇"); ("𞤪", "𞤈"); ("𞤫", "𞤉"); ("𞤬", "𞤊");
   ("𞤭", "𞤋"); ("𞤮", "𞤌"); ("𞤯", "𞤍"); ("𞤰", "𞤎"); ("𞤱", "𞤏"); ("𞤲", "𞤐");
   ("𞤳", "𞤑"); ("𞤴", "𞤒"); ("𞤵", "𞤓"); ("𞤶", "𞤔"); ("𞤷", "𞤕"); ("𞤸", "𞤖");
   ("𞤹", "𞤗"); ("𞤺", "𞤘"); ("𞤻", "𞤙"); ("𞤼", "𞤚"); ("𞤽", "𞤛"); ("𞤾", "𞤜");
   ("𞤿", "𞤝"); ("𞥀", "𞤞"); ("𞥁", "𞤟"); ("𞥂", "𞤠"); ("𞥃", "𞤡")].

Definition upperCodePoint (cp : string) : string :=
  match List.find (fun entry => String.eqb (fst entry) cp) upperTable with
  | Some entry => snd entry
  | None => cp
  end.

(** [s.toUpperCase()]: code point by code point; a byte that starts no
    well-formed code point is left as it is. *)
Fixpoint toUpperCase (s : string) : string :=
  match s with
  | EmptyString => EmptyString
  | String a r =>
      if isAscii a then String (upperChar a) (toUpperCase r)
      else
        match r with
        | String b r2 =>
            if lead2 a && continuation b
            then upperCodePoint (String a (String b "")) +:+ toUpperCase r2
            else
              match r2 with
              | String c r3 =>
                  if lead3 a && continuation b && continuation c
                  then upperCodePoint (String a (String b (String c ""))) +:+ toUpperCase r3
                  else
                    match r3 with
                    | String d r4 =>
                        if lead4 a && continuation b && continuation c && continuation d
                        then upperCodePoint (String a (String b (String c (String d ""))))
                             +:+ toUpperCase r4
                        else String a (toUpperCase r)
                    | EmptyString => String a (toUpperCase r)
                    end
              | EmptyString => String a (toUpperCase r)
              end
        | EmptyString => String a EmptyString
        end
  end.

Fixpoint times (s : string) (n : nat) : string :=
  match n with
  | O => ""
  | S k => s +:+ times s k
  end.

(** [s.repeat(count)] for an integer [count], as the language defines it:
    a negative count throws.  An engine throws the same exception when the
    result is longer than the strings it can hold, which takes a count far
    beyond the level of any heading. *)
Definition repeat (s : string) (count : Z) : Completion string :=
  if count <? 0 then Throw RangeError else Normal (times s (Z.to_nat count)).

(** [s.startsWith(p)] and [s.includes(p)]. *)
Definition startsWith (s p : string) : bool := String.prefix p s.

Fixpoint includes (s p : string) : bool :=
  String.prefix p s ||
  match s with
  | EmptyString => false
  | String _ r => includes r p
  end.

(** White space and line terminators, as [trim] sees them.  Of one byte:
    TAB, LF, VT, FF, CR and SP.  Of two bytes: the no-break space U+00A0.
    Of three bytes: U+1680, U+2000 to U+200A, U+2028, U+2029, U+202F,
    U+205F, U+3000 and U+FEFF. *)
Definition isSpace (c : ascii) : bool :=
  let n := nat_of_ascii c in
  ((9 <=? n) && (n <=? 13) || (n =? 32))%nat.

Definition isSpace2 (a b : ascii) : bool :=
  ((nat_of_ascii a =? 194) && (nat_of_ascii b =? 160))%nat.

Definition isSpace3 (a b c : ascii) : bool :=
  let x := nat_of_ascii a in
  let y := nat_of_ascii b in
  let z := nat_of_ascii c in
  ((x =? 225) && (y =? 154) && (z =? 128)
   || (x =? 226) && (y =? 128)
      && ((128 <=? z) && (z <=? 138) || (z =? 168) || (z =? 169) || (z =? 175))
   || (x =? 226) && (y =? 129) && (z =? 159)
   || (x =? 227) && (y =? 128) && (z =? 128)
   || (x =? 239) && (y =? 187) && (z =? 191))%nat.

(** A string of white space only. *)
Fixpoint allSpaces (s : string) : bool :=
  match s with
  | EmptyString => true
  | String a r =>
      if isSpace a then allSpaces r
      else
        match r with
        | String b r2 =>
            if isSpace2 a b then allSpaces r2
            else
              match r2 with
              | String c r3 => isSpace3 a b c && allSpaces r3
              | EmptyString => false
              end
        | EmptyString => false
        end
  end.

Fixpoint trimStart (s : string) : string :=
  match s with
  | EmptyString => EmptyString
  | String a r =>
      if isSpace a then trimStart r
      else
        match r with
        | String b r2 =>
            if isSpace2 a b then trimStart r2
            else
              match r2 with
              | String c r3 => if isSpace3 a b c then trimStart r3 else s
              | EmptyString => s
              end
        | EmptyString => s
        end
  end.

(** The end of the string goes as far back as what follows is white
    space. *)
Fixpoint trimEnd (s : string) : string :=
  if allSpaces s then EmptyString
  else
    match s with
    | EmptyString => EmptyString
    | String a r => String a (trimEnd r)
    end.

Definition trim (s : string) : string := trimEnd (trimStart s).

(** [array.forEach] with a callback that updates one captured variable. *)
Definition forEach {A S : Type} (xs : list A) (body : S -> A -> S) (s : S) : S :=
  fold_left body xs s.

(** The same with a callback that may throw: the first exception ends the
    loop and propagates. *)
Fixpoint forEachC {A S : Type} (xs : list A) (body : S -> A -> Completion S)
    (s : S) : Completion S :=
  match xs with
  | [] => Normal s
  | x :: r => bind (body s x) (forEachC r body)
  end.

End Js.

Import Js.

#[global] Instance Completion_bind : MBind Completion := fun A B k c => Js.bind c k.
#[global] Instance Completion_ret : MRet Completion := fun A a => Normal a.

(** ** The page record of the formatter: [interface PageData] *)

Module Heading.
Record t := mk { level : Z; text : string; id : option string }.
End Heading.

Module LinkElement.
Record t := mk { text : string; href : string }.
End LinkElement.

Module InputElement.
Record t := mk { type : string; text : string; placeholder : option string }.
End InputElement.

Module ButtonElement.
Record t := mk { type : string; text : string }.
End ButtonElement.

Module FormElement.
Record t := mk { type : string; text : string }.
End FormElement.

Module InteractiveElement.
Record t := mk { type : string; text : string; id : option string }.
End InteractiveElement.

Record PageData := {
  title : string;
  url : string;
  textContent : string;
  headings : list Heading.t;
  linkElements : list LinkElement.t;
  inputElements : list InputElement.t;
  buttonElements : list ButtonElement.t;
  formElements : list FormElement.t;
  interactiveElements : list InteractiveElement.t
}.

(** ** [formatForLLM]

    One definition per block of the function; each takes the value of
    [formatted] before the block and returns its value after it. *)

Module Format.

Definition nonEmpty {A} (xs : list A) : bool := (0 <? length xs)%nat.

Definition addHeader (data : PageData) : string :=
  let formatted := "# " +:+ title data +:+ LF +:+ LF in
  formatted +:+ ("**URL:** " +:+ url data +:+ LF +:+ LF).

Definition addHeading (formatted : string) (heading : Heading.t) : Completion string :=
  indent ← Js.repeat "  " (Heading.level heading - 1);
  Normal (formatted +:+ (indent +:+ "- " +:+ Heading.text heading +:+ LF)).

Definition addPageStructure (data : PageData) (formatted : string) : Completion string :=
  if nonEmpty (headings data) then
    let formatted := formatted +:+ ("## Page Structure" +:+ LF +:+ LF) in
    formatted ← forEachC (headings data) addHeading formatted;
    Normal (formatted +:+ LF)
  else Normal formatted.

Definition addNav (formatted : string) (nav : LinkElement.t) : string :=
  if truthy (LinkElement.text nav) then
    formatted +:+ ("- " +:+ LinkElement.text nav +:+ ": " +:+ LinkElement.href nav +:+ LF)
  else formatted.

Definition addNavigation (data : PageData) (formatted : string) : string :=
  if nonEmpty (linkElements data) then
    let formatted := formatted +:+ ("## Available Navigation" +:+ LF +:+ LF) in
    let formatted := forEach (linkElements data) addNav formatted in
    formatted +:+ LF
  else formatted.

Definition addElement (formatted : string) (element : InteractiveElement.t) : string :=
  if truthy (InteractiveElement.text element) then
    let formatted :=
      formatted +:+ ("- **" +:+ toUpperCase (InteractiveElement.type element) +:+ "**: "
                     +:+ DQ +:+ InteractiveElement.text element +:+ DQ) in
    let formatted :=
      if truthyOpt (InteractiveElement.id element)
      then formatted +:+ (" (ID: " +:+ default "" (InteractiveElement.id element) +:+ ")")
      else formatted in
    formatted +:+ LF
  else formatted.

Definition addInteractive (data : PageData) (formatted : string) : string :=
  if nonEmpty (interactiveElements data) then
    let formatted := formatted +:+ ("## Interactive Elements" +:+ LF +:+ LF) in
    let formatted := forEach (interactiveElements data) addElement formatted in
    formatted +:+ LF
  else formatted.

Definition addInput (formatted : string) (inputElement : InputElement.t) : string :=
  formatted +:+ ("- **" +:+ toUpperCase (InputElement.type inputElement) +:+ "**: " +:+ DQ
    +:+ (if truthyOpt (InputElement.placeholder inputElement)
         then DQ +:+ default "" (InputElement.placeholder inputElement) +:+ DQ
         else "")
    +:+ " " +:+ InputElement.text inputElement +:+ DQ +:+ LF).

Definition addInputs (data : PageData) (formatted : string) : string :=
  if nonEmpty (inputElements data) then
    let formatted := formatted +:+ ("## Input Elements" +:+ LF +:+ LF) in
    forEach (inputElements data) addInput formatted
  else formatted.

Definition addButton (formatted : string) (buttonElement : ButtonElement.t) : string :=
  formatted +:+ ("- **" +:+ toUpperCase (ButtonElement.type buttonElement) +:+ "**: " +:+ DQ
    +:+ ButtonElement.text buttonElement +:+ DQ +:+ LF).

Definition addButtons (data : PageData) (formatted : string) : string :=
  if nonEmpty (buttonElements data) then
    let formatted := formatted +:+ ("## Button Elements" +:+ LF +:+ LF) in
    forEach (buttonElements data) addButton formatted
  else formatted.

Definition addForm (formatted : string) (formElement : FormElement.t) : string :=
  formatted +:+ ("- **" +:+ toUpperCase (FormElement.type formElement) +:+ "**: " +:+ DQ
    +:+ FormElement.text formElement +:+ DQ +:+ LF).

Definition addForms (data : PageData) (formatted : string) : string :=
  if nonEmpty (formElements data) then
    let formatted := formatted +:+ ("## Form Elements" +:+ LF +:+ LF) in
    forEach (formElements data) addForm formatted
  else formatted.

Definition addContent (data : PageData) (formatted : string) : string :=
  let formatted := formatted +:+ ("## Page Content" +:+ LF +:+ LF) in
  formatted +:+ textContent data.

Definition formatForLLM (data : PageData) : Completion string :=
  let formatted := addHeader data in
  formatted ← addPageStructure data formatted;
  let formatted := addNavigation data formatted in
  let formatted := addInteractive data formatted in
  let formatted := addInputs data formatted in
  let formatted := addButtons data formatted in
  let formatted := addForms data formatted in
  Normal (addContent data formatted).

End Format.

(** ** The rendering, section by section

    The text that [formatForLLM] is shown below to produce, written as a
    concatenation of lines. *)

Module Rendering.
Import Format.

(** What each loop body appends to [formatted]. *)
Definition headingLine (h : Heading.t) : string :=
  times "  " (Z.to_nat (Heading.level h - 1)) +:+ "- " +:+ Heading.text h +:+ LF.

Definition navLine (nav : LinkElement.t) : string :=
  "- " +:+ LinkElement.text nav +:+ ": " +:+ LinkElement.href nav +:+ LF.

Definition elementLine (e : InteractiveElement.t) : string :=
  "- **" +:+ toUpperCase (InteractiveElement.type e) +:+ "**: "
  +:+ DQ +:+ InteractiveElement.text e +:+ DQ
  +:+ match InteractiveElement.id e with
      | Some i => if truthy i then " (ID: " +:+ i +:+ ")" else ""
      | None => ""
      end
  +:+ LF.

Definition inputLine (i : InputElement.t) : string :=
  "- **" +:+ toUpperCase (InputElement.type i) +:+ "**: " +:+ DQ
  +:+ match InputElement.placeholder i with
      | Some p => if truthy p then DQ +:+ p +:+ DQ else ""
      | None => ""
      end
  +:+ " " +:+ InputElement.text i +:+ DQ +:+ LF.

Definition buttonLine (b : ButtonElement.t) : string :=
  "- **" +:+ toUpperCase (ButtonElement.type b) +:+ "**: " +:+ DQ
  +:+ ButtonElement.text b +:+ DQ +:+ LF.

Definition formLine (f : FormElement.t) : string :=
  "- **" +:+ toUpperCase (FormElement.type f) +:+ "**: " +:+ DQ
  +:+ FormElement.text f +:+ DQ +:+ LF.

Definition hasText (l : LinkElement.t) : bool := truthy (LinkElement.text l).
Definition hasLabel (e : InteractiveElement.t) : bool := truthy (InteractiveElement.text e).

Definition lines {A} (line : A -> string) (xs : list A) : string :=
  String.concat "" (map line xs).

(** The text of each section: nothing for an empty array; otherwise the
    heading, a blank line, the lines and, for the first three sections
    only, a closing line feed. *)
Definition structureText (hs : list Heading.t) : string :=
  if nonEmpty hs
  then "## Page Structure" +:+ LF +:+ LF +:+ lines headingLine hs +:+ LF
  else "".

Definition navigationText (ls : list LinkElement.t) : string :=
  if nonEmpty ls
  then "## Available Navigation" +:+ LF +:+ LF +:+ lines navLine (List.filter hasText ls) +:+ LF
  else "".

Definition interactiveText (es : list InteractiveElement.t) : string :=
  if nonEmpty es
  then "## Interactive Elements" +:+ LF +:+ LF +:+ lines elementLine (List.filter hasLabel es) +:+ LF
  else "".

Definition inputsText (els : list InputElement.t) : string :=
  if nonEmpty els then "## Input Elements" +:+ LF +:+ LF +:+ lines inputLine els else "".

Definition buttonsText (bs : list ButtonElement.t) : string :=
  if nonEmpty bs then "## Button Elements" +:+ LF +:+ LF +:+ lines buttonLine bs else "".

Definition formsText (fs : list FormElement.t) : string :=
  if nonEmpty fs then "## Form Elements" +:+ LF +:+ LF +:+ lines formLine fs else "".

Definition contentText (data : PageData) : string :=
  "## Page Content" +:+ LF +:+ LF +:+ textContent data.

Definition headerText (data : PageData) : string :=
  "# " +:+ title data +:+ LF +:+ LF +:+ "**URL:** " +:+ url data +:+ LF +:+ LF.

End Rendering.

(** ** Records used as examples *)

Module Samples.

Definition sampleRecord : PageData :=
  {| title := "Events"; url := "https://qrticket.app/dashboard"; textContent := "Welcome";
     headings := [Heading.mk 1 "Events" None; Heading.mk 2 "Upcoming" (Some "up")];
     linkElements := [LinkElement.mk "" "/hidden"; LinkElement.mk "Home" "/"];
     inputElements := [InputElement.mk "text" "Name" None];
     buttonElements := [ButtonElement.mk "submit" "Go"];
     formElements := [];
     interactiveElements :=
       [InteractiveElement.mk "button" "" (Some "save"); InteractiveElement.mk "a" "Help" (Some "help")] |}.

Definition hiddenLink : PageData :=
  {| title := "T"; url := "u"; textContent := "";
     headings := []; linkElements := [LinkElement.mk "" "/hidden"];
     inputElements := []; buttonElements := []; formElements := [];
     interactiveElements := [] |}.

Definition unlabelled : InteractiveElement.t := InteractiveElement.mk "button" "" (Some "save").

Definition unlabelledRecord : PageData :=
  {| title := "T"; url := "u"; textContent := "";
     headings := []; linkElements := [];
     inputElements := []; buttonElements := []; formElements := [];
     interactiveElements := [unlabelled] |}.

Definition inputsAndButtons : PageData :=
  {| title := "T"; url := "u"; textContent := "body";
     headings := []; linkElements := [];
     inputElements := [InputElement.mk "text" "Name" None];
     buttonElements := [ButtonElement.mk "submit" "Go"];
     formElements := [FormElement.mk "form" "Login"];
     interactiveElements := [] |}.

(** A record with a heading of level zero, and one whose links and
    interactive elements all lack a text. *)
Definition levelZero : PageData :=
  {| title := "T"; url := "u"; textContent := "body";
     headings := [Heading.mk 1 "Top" None; Heading.mk 0 "Odd" None; Heading.mk 2 "Sub" None];
     linkElements := [LinkElement.mk "Home" "/"];
     inputElements := []; buttonElements := []; formElements := [];
     interactiveElements := [] |}.

Definition iconsOnly : PageData :=
  {| title := "T"; url := "u"; textContent := "";
     headings := [];
     linkElements := [LinkElement.mk "" "/a"; LinkElement.mk "" "/b"];
     inputElements := []; buttonElements := []; formElements := [];
     interactiveElements := [InteractiveElement.mk "button" "" None] |}.

End Samples.


(** ** The document, as the page-side script sees it

    A node is an element, a template element, a text node or a comment.
    Names are local names as the HTML parser produces them (ASCII lower
    case); [tagName] is the upper-cased name that [child.tagName] returns.
    An element's attributes are an ordered list of name/value pairs.

    A template element has no child nodes: what the markup holds between
    its tags is its content, a fragment that is not part of the tree.
    [querySelectorAll], the tree walker, [children] and [textContent] do
    not enter it; [innerHTML] writes it out. *)

Module Dom.

Definition Attr : Type := string * string.

#[local] Unset Elimination Schemes.
Inductive Node :=
| Element (localName : string) (attributes : list Attr) (childNodes : list Node)
| Template (attributes : list Attr) (content : list Node)
| Text (data : string)
| Comment (data : string).
#[local] Set Elimination Schemes.

Definition inList (x : string) (l : list string) : bool := existsb (String.eqb x) l.

(** [el.tagName] of an HTML element: the name with its ASCII letters in
    upper case, the other characters as they are. *)
Fixpoint tagName (localName : string) : string :=
  match localName with
  | EmptyString => EmptyString
  | String c r => String (upperChar c) (tagName r)
  end.

Definition named (name : string) (a : Attr) : bool := String.eqb (fst a) name.

Definition hasAttribute (attrs : list Attr) (name : string) : bool :=
  existsb (named name) attrs.

Definition getAttribute (attrs : list Attr) (name : string) : option string :=
  snd <$> List.find (named name) attrs.

(** [el.id]: the value of the id attribute, or the empty string. *)
Definition idOf (attrs : list Attr) : string := default "" (getAttribute attrs "id").

(** [el.removeAttribute(name)] removes the first attribute of that name. *)
Fixpoint removeAttribute (attrs : list Attr) (name : string) : list Attr :=
  match attrs with
  | [] => []
  | a :: r => if named name a then r else a :: removeAttribute r name
  end.

(** [node.textContent]: the data of the text nodes below, in tree order. *)
Fixpoint textContent (n : Node) : string :=
  match n with
  | Element _ _ c => String.concat "" (map textContent c)
  | Template _ _ => ""
  | Text d => d
  | Comment _ => ""
  end.

Definition isElement (n : Node) : bool :=
  match n with
  | Element _ _ _ => true
  | Template _ _ => true
  | _ => false
  end.

(** [el.children]: the child nodes that are elements. *)
Definition children (c : list Node) : list Node := List.filter isElement c.

(** [list.forEach(el => el.remove())] over the static list of the nodes of
    the tree that satisfy [drop]: a dropped node leaves with its subtree,
    and whether a node is in the list was decided on the tree as it was
    before the loop. *)
Fixpoint removeWhere (drop : Node -> bool) (n : Node) : list Node :=
  if drop n then []
  else
    match n with
    | Element t a c => [Element t a (flat_map (removeWhere drop) c)]
    | _ => [n]
    end.

Definition removeAll (drop : Node -> bool) (nodes : list Node) : list Node :=
  flat_map (removeWhere drop) nodes.

(** [everyNode P n]: [P] holds of [n] and of every node below it in the
    tree (the content of a template is not below it). *)
Fixpoint everyNode (P : Node -> bool) (n : Node) : bool :=
  P n &&
  match n with
  | Element _ _ c => forallb (everyNode P) c
  | _ => true
  end.

Definition isTemplate (n : Node) : bool :=
  match n with
  | Template _ _ => true
  | _ => false
  end.

(** [written P n]: [P] holds of [n] or of a node that the serialisation of
    [n] writes out, in the content of a template as well. *)
Fixpoint written (P : Node -> bool) (n : Node) : bool :=
  P n ||
  match n with
  | Element _ _ c => existsb (written P) c
  | Template _ c => existsb (written P) c
  | _ => false
  end.

(** An element with one of the given names. *)
Definition isOneOf (names : list string) (n : Node) : bool :=
  match n with
  | Element t _ _ => inList t names
  | Template _ _ => inList "template" names
  | _ => false
  end.

(** An element with an attribute whose name starts with the data prefix. *)
Definition isDataAttr (a : Attr) : bool := startsWith (fst a) "data-".

Definition carriesData (n : Node) : bool :=
  match n with
  | Element _ a _ => existsb isDataAttr a
  | Template a _ => existsb isDataAttr a
  | _ => false
  end.

(** A predicate that does not look at the children of an element, or
    neither at its children nor at its attributes. *)
Definition childBlind (P : Node -> bool) : Prop :=
  forall t a c c', P (Element t a c) = P (Element t a c').

Definition nameOnly (P : Node -> bool) : Prop :=
  (forall t a a' c c', P (Element t a c) = P (Element t a' c'))
  /\ (forall a a' c c', P (Template a c) = P (Template a' c')).

(** How many attributes of a list have a given name. *)
Definition occurrences (name : string) (attrs : list Attr) : nat :=
  length (List.filter (named name) attrs).

(** The data of the text nodes of a tree, in tree order, and those of
    them that hold a character other than white space. *)
Fixpoint texts (n : Node) : list string :=
  match n with
  | Element _ _ c => flat_map texts c
  | Template _ _ => []
  | Text d => [d]
  | Comment _ => []
  end.

Definition visible (d : string) : bool := negb (allSpaces d).

Definition visibleTexts (nodes : list Node) : list string :=
  List.filter visible (flat_map texts nodes).

(** Induction on a node, with the hypothesis for every child. *)
Section NodeInduction.
Variable P : Node -> Prop.
Hypothesis onElement : forall t a c, Forall P c -> P (Element t a c).
Hypothesis onTemplate : forall a c, P (Template a c).
Hypothesis onText : forall d, P (Text d).
Hypothesis onComment : forall d, P (Comment d).

Fixpoint Node_ind (n : Node) : P n :=
  match n with
  | Element t a c =>
      onElement t a c
        ((fix all (l : list Node) : Forall P l :=
            match l with
            | [] => List.Forall_nil P
            | x :: r => List.Forall_cons P x r (Node_ind x) (all r)
            end) c)
  | Template a c => onTemplate a c
  | Text d => onText d
  | Comment d => onComment d
  end.
End NodeInduction.

(** *** Serialisation: [document.body.innerHTML] *)

Definition voidElements : list string :=
  ["area"; "base"; "basefont"; "bgsound"; "br"; "col"; "embed"; "frame"; "hr";
   "img"; "input"; "keygen"; "link"; "meta"; "param"; "source"; "track"; "wbr"].

(** Elements whose text children are written out as they are; scripting is
    on in the crawled page, so noscript is one of them. *)
Definition rawTextElements : list string :=
  ["style"; "script"; "xmp"; "iframe"; "noembed"; "noframes"; "plaintext"; "noscript"].

Definition isChar (n : nat) (c : ascii) : bool := (nat_of_ascii c =? n)%nat.

(** Escaping of text and attribute values, as the HTML standard has had
    it since 2025 and current browsers do it: the ampersand, the no-break
    space and the angle brackets are escaped in both modes (before that,
    the angle brackets of an attribute value were written as they are),
    the double quote in an attribute value only.  The no-break space
    U+00A0 is the byte pair 194, 160. *)
Fixpoint escapeString (attributeMode : bool) (s : string) : string :=
  match s with
  | EmptyString => EmptyString
  | String c r =>
      if isChar 38 c then "&amp;" +:+ escapeString attributeMode r
      else if attributeMode && isChar 34 c then "&quot;" +:+ escapeString attributeMode r
      else if isChar 60 c then "&lt;" +:+ escapeString attributeMode r
      else if isChar 62 c then "&gt;" +:+ escapeString attributeMode r
      else
        match r with
        | String d r' =>
            if isChar 194 c && isChar 160 d
            then "&nbsp;" +:+ escapeString attributeMode r'
            else String c (escapeString attributeMode r)
        | EmptyString => String c EmptyString
        end
  end.

Definition serializeAttr (a : Attr) : string :=
  " " +:+ fst a +:+ "=" +:+ DQ +:+ escapeString true (snd a) +:+ DQ.

Fixpoint serialize (parent : string) (n : Node) : string :=
  match n with
  | Element t a c =>
      "<" +:+ t +:+ String.concat "" (map serializeAttr a) +:+ ">"
      +:+ (if inList t voidElements then ""
           else String.concat "" (map (serialize t) c) +:+ "</" +:+ t +:+ ">")
  | Template a c =>
      "<template" +:+ String.concat "" (map serializeAttr a) +:+ ">"
      +:+ String.concat "" (map (serialize "template") c) +:+ "</template>"
  | Text d => if inList parent rawTextElements then d else escapeString false d
  | Comment d => "<!--" +:+ d +:+ "-->"
  end.

Definition innerHTML (localName : string) (c : list Node) : string :=
  String.concat "" (map (serialize localName) c).

(** A document, for this script, is the child nodes of [document.body];
    [None] stands for a document without a body element.  The passes run
    over the whole document, and only what they do below the body shows in
    what the script returns. *)
Record Document := { body : option (list Node) }.

End Dom.

(** ** The page-side script of [page.evaluate] *)

Module Sanitizer.
Import Dom.

(** Remove non-semantic elements. *)
Definition elementsToRemove : list string :=
  ["script"; "style"; "noscript"; "svg"; "img"; "br"; "hr"; "canvas"; "video";
   "audio"; "picture"; "source"; "next-route-announcer"].

Definition isNonSemantic (n : Node) : bool := isOneOf elementsToRemove n.

Definition removeNonSemantic : list Node -> list Node := removeAll isNonSemantic.

(** Remove HTML comments: the tree walker collects every comment below the
    body, then each one is taken out of its parent. *)
Definition isComment (n : Node) : bool :=
  match n with
  | Comment _ => true
  | _ => false
  end.

Definition removeComments : list Node -> list Node := removeAll isComment.

(** Clean attributes.  The first loop runs over a copy of the attribute
    list and calls [removeAttribute] once per attribute whose name starts
    with the data prefix; the second calls it once per name of the fixed
    list. *)
Definition removeDataAttributes (attrs : list Attr) : list Attr :=
  forEach attrs
    (fun el attr => if isDataAttr attr then removeAttribute el (fst attr) else el)
    attrs.

Definition attributesToRemove : list string :=
  ["class"; "style"; "tabindex"; "aria-expanded"; "aria-selected"; "aria-haspopup";
   "aria-atomic"; "aria-live"; "aria-relevant"; "target"; "rel"; "spellcheck";
   "draggable"; "contenteditable"; "aria-label"].

Definition removePresentation (attrs : list Attr) : list Attr :=
  forEach attributesToRemove removeAttribute attrs.

Fixpoint cleanElement (n : Node) : Node :=
  match n with
  | Element t a c => Element t (removePresentation (removeDataAttributes a)) (map cleanElement c)
  | Template a c => Template (removePresentation (removeDataAttributes a)) c
  | _ => n
  end.

Definition cleanAttributes : list Node -> list Node := map cleanElement.

(** Remove empty elements.  The [:empty] pseudo-class holds of an element
    whose child nodes are comments or text nodes without data. *)
Definition emptyPseudo (c : list Node) : bool :=
  forallb (fun k => match k with
                    | Element _ _ _ => false
                    | Template _ _ => false
                    | Text d => String.eqb d ""
                    | Comment _ => true
                    end) c.

Definition isEmptyElement (n : Node) : bool :=
  match n with
  | Element t a c =>
      inList t ["div"; "span"; "p"] && emptyPseudo c
      && negb (truthy (idOf a)) && negb (hasAttribute a "href") && negb (hasAttribute a "type")
  | _ => false
  end.

Definition removeEmptyElements : list Node -> list Node := removeAll isEmptyElement.

(** Simplify nested empty containers.  The containers are visited in
    document order, so a container is judged before anything below it has
    been taken out, and what is taken out above it takes it along. *)
Definition blank (s : string) : bool := String.eqb (trim s) "".

Definition emptyChild (child : Node) : bool :=
  match child with
  | Element t a _ =>
      (String.eqb (tagName t) "DIV" || String.eqb (tagName t) "SPAN")
      && blank (textContent child)
      && negb (hasAttribute a "href") && negb (hasAttribute a "type")
  | _ => false
  end.

Definition hasOnlyEmptyChildren (c : list Node) : bool := forallb emptyChild (children c).

Definition isEmptyContainer (n : Node) : bool :=
  match n with
  | Element t _ c =>
      inList t ["div"; "span"] && hasOnlyEmptyChildren c && blank (textContent n)
  | _ => false
  end.

Definition simplifyContainers : list Node -> list Node := removeAll isEmptyContainer.

(** The tree left in the body after the five passes. *)
Definition sanitizeBody (nodes : list Node) : list Node :=
  simplifyContainers
    (removeEmptyElements
       (cleanAttributes
          (removeComments
             (removeNonSemantic nodes)))).

(** The fragment of the example: a div with an empty span, a paragraph of
    two spaces and a link. *)
Definition exampleFragment : list Node :=
  [Element "div" []
     [Element "span" [] [];
      Element "p" [] [Text "  "];
      Element "a" [("href", "/x")] [Text "Go"]]].

(** Eight of the names that the first pass removes. *)
Definition claimedNames : list string :=
  ["script"; "style"; "noscript"; "svg"; "img"; "canvas"; "video"; "audio"].

(** A body with a comment, a script, an image, a drawing, data
    attributes and an empty wrapper. *)
Definition clutteredBody : list Node :=
  [Comment "build 42";
   Element "div" [("data-testid", "root"); ("class", "app"); ("id", "main")]
     [Element "script" [] [Text "track()"];
      Element "h1" [("data-x", "1"); ("style", "color:red")] [Text "Events"; Comment "title"];
      Element "img" [("src", "logo.png")] [];
      Element "svg" [] [Element "path" [] []];
      Element "div" [] [Element "span" [] [Text " "]]]].

(** A body with a heading and a template whose content holds a comment, a
    script and an image with a data attribute; and the same nodes without
    the template around them. *)
Definition templateContent : list Node :=
  [Comment "row"; Element "script" [] [Text "x"]; Element "img" [("data-x", "1")] []].

Definition templateBody : list Node :=
  [Element "h1" [] [Text "Events"]; Template [("id", "row")] templateContent].

Definition unwrappedBody : list Node :=
  Element "h1" [] [Text "Events"] :: templateContent.

(** An attribute that neither loop of the attribute pass asks to remove. *)
Definition keptAttr (a : Attr) : bool :=
  negb (isDataAttr a) && negb (inList (fst a) attributesToRemove).

(** A child that is a comment or a text node of white space only. *)
Definition blankLeaf (k : Node) : bool :=
  match k with
  | Element _ _ _ => false
  | Template _ _ => false
  | Text d => allSpaces d
  | Comment _ => true
  end.

(** A text node of white space only. *)
Definition blankText (k : Node) : bool :=
  match k with
  | Text d => allSpaces d
  | _ => false
  end.

(** Whether one of the data attributes of the copy has the name of [a]. *)
Definition hit (copy : list Attr) (a : Attr) : bool :=
  existsb (fun c => isDataAttr c && String.eqb (fst a) (fst c)) copy.

(** A node that no pass takes out: neither a comment nor an element that
    is a div, a span, a paragraph or of one of the removed names. *)
Definition stable (n : Node) : bool :=
  negb (isComment n) && negb (isOneOf (elementsToRemove ++ ["div"; "span"; "p"]) n).

(** A body with wrappers that hold white space beyond ASCII. *)
Definition spacedBody : list Node :=
  [Element "div" [] [Text "Café"; Element "span" [] [Text NBSP]];
   Element "div" [] [Text (" " +:+ EMSP); Element "span" [] [Text NBSP]];
   Element "p" [] [Text (NBSP +:+ "x")]].

Record PageResult := { html : string }.

(** The callback of [page.evaluate].  Without a body the tree walker
    cannot be created and the script throws. *)
Definition evaluate (document : Document) : Completion PageResult :=
  match body document with
  | None => Throw TypeError
  | Some nodes => Normal {| html := innerHTML "body" (sanitizeBody nodes) |}
  end.

End Sanitizer.


(** ** [Date.prototype.toISOString] *)

Module Date.

Definition msPerDay : Z := 86400000.

(** Year, month and day of the month of a day number counted from
    1970-01-01, in the proleptic Gregorian calendar. *)
Definition civil (day : Z) : Z * Z * Z :=
  let z := day + 719468 in
  let era := z / 146097 in
  let doe := z - era * 146097 in
  let yoe := (doe - doe / 1460 + doe / 36524 - doe / 146096) / 365 in
  let doy := doe - (365 * yoe + yoe / 4 - yoe / 100) in
  let mp := (5 * doy + 2) / 153 in
  let d := doy - (153 * mp + 2) / 5 + 1 in
  let m := if mp <? 10 then mp + 3 else mp - 9 in
  let y := yoe + era * 400 + (if m <=? 2 then 1 else 0) in
  (y, m, d).

Definition digit (n : Z) : string :=
  String (ascii_of_nat (48 + Z.to_nat (n mod 10))) EmptyString.

Fixpoint padded (width : nat) (n : Z) : string :=
  match width with
  | O => ""
  | S w => padded w (n / 10) +:+ digit n
  end.

Definition yearString (y : Z) : string :=
  if (0 <=? y) && (y <=? 9999) then padded 4 y
  else (if y <? 0 then "-" else "+") +:+ padded 6 (Z.abs y).

(** The ISO-8601 rendering, in UTC, of a time value in milliseconds since
    the epoch. *)
Definition toISOString (t : Z) : string :=
  let '(y, m, d) := civil (t / msPerDay) in
  let ms := t mod msPerDay in
  yearString y +:+ "-" +:+ padded 2 m +:+ "-" +:+ padded 2 d +:+ "T"
  +:+ padded 2 (ms / 3600000) +:+ ":" +:+ padded 2 (ms / 60000 mod 60) +:+ ":"
  +:+ padded 2 (ms / 1000 mod 60) +:+ "." +:+ padded 3 (ms mod 1000) +:+ "Z".

End Date.

(** ** The request handler and the crawl around it *)

Module DatasetRecord.
Record t := mk { title : string; url : option string; timestamp : string; html : string }.
End DatasetRecord.

Module Crawler.
Import Dom.

(** What the crawling context holds when the handler runs: the URL the
    navigation ended on, the title of the page, whether the page reaches
    network idle before the wait times out, its document, and the absolute
    URLs that [enqueueLinks] finds on the page and that its same-host
    strategy lets through. *)
Record Page := {
  loadedUrl : option string;
  pageTitle : string;
  networkidle : bool;
  document : Document;
  links : list string
}.

Inductive Effect :=
| LogInfo (message : string)
| PushData (record : DatasetRecord.t)
| EnqueueLinks (urls : list string).

(** The strings that an effect carries out of the handler. *)
Definition payload (e : Effect) : list string :=
  match e with
  | LogInfo m => [m]
  | PushData r =>
      [DatasetRecord.title r; default "" (DatasetRecord.url r);
       DatasetRecord.timestamp r; DatasetRecord.html r]
  | EnqueueLinks urls => urls
  end.

(** The records that a list of effects pushes and the URLs it enqueues. *)
Definition pushed (es : list Effect) : list DatasetRecord.t :=
  flat_map (fun e => match e with PushData r => [r] | _ => [] end) es.

Definition enqueued (es : list Effect) : list string :=
  flat_map (fun e => match e with EnqueueLinks urls => urls | _ => [] end) es.

(** A template literal prints a missing value as the word undefined. *)
Definition shown (o : option string) : string := default "undefined" o.

(** [request.loadedUrl && request.loadedUrl.includes("/e/")] *)
Definition isEventPage (page : Page) : bool :=
  match loadedUrl page with
  | Some u => truthy u && includes u "/e/"
  | None => false
  end.

(** The [exclude] option holds one regular expression, a literal text
    without anchors: it matches a URL that contains that text. *)
Definition excludePattern : string := "https://qrticket.app/e/".

Definition excluded (u : string) : bool := includes u excludePattern.

Definition enqueueLinks (page : Page) : list string :=
  List.filter (fun u => negb (excluded u)) (links page).

(** The handler, as the list of its effects and its completion; [now] is
    the time value of [new Date()]. *)
Definition requestHandler (now : Z) (page : Page) : list Effect * Completion unit :=
  if isEventPage page then
    ([LogInfo ("Skipping event page: " +:+ shown (loadedUrl page))], Normal ())
  else
    let title := pageTitle page in
    let log := LogInfo ("Title of " +:+ shown (loadedUrl page) +:+ " is '" +:+ title +:+ "'") in
    if negb (networkidle page) then ([log], Throw TimeoutError)
    else
      match Sanitizer.evaluate (document page) with
      | Throw e => ([log], Throw e)
      | Normal pageData =>
          ([log;
            PushData {| DatasetRecord.title := title;
                        DatasetRecord.url := loadedUrl page;
                        DatasetRecord.timestamp := Date.toISOString now;
                        DatasetRecord.html := Sanitizer.html pageData |};
            EnqueueLinks (enqueueLinks page)],
           Normal ())
      end.

(** *** The crawl

    The source configures the crawler of the library and hands it the
    handler, the budget and the seed; the loop that drives the handler is
    the library's and is not in the repository.  The definitions from
    [Crawl] to [run] follow the control flow that the specification gives
    for it, one request at a time.  [navigate] and [clock] stand for the site
    and the time of day. *)
Definition maxRequestsPerCrawl : nat := 100.

Definition seed : string := "https://qrticket.app/dashboard".

(** Modelled from the spec: the state of the frontier, which the library
    keeps.  The queue of pending URLs, the set of the URLs ever queued (no
    URL is visited twice within a run), the number of tasks taken up, the
    records that reached the sink and the lines logged. *)
Record Crawl := {
  queue : list string;
  known : gset string;
  handled : nat;
  dataset : list DatasetRecord.t;
  infoLog : list string
}.

(** Modelled from the spec: the enqueue operation of the library.  A URL
    already visited or already queued is discarded, the others join the
    end of the queue. *)
Definition addRequest (st : Crawl) (u : string) : Crawl :=
  if decide (u ∈ known st) then st
  else {| queue := queue st ++ [u]; known := {[u]} ∪ known st; handled := handled st;
          dataset := dataset st; infoLog := infoLog st |}.

(** Modelled from the spec: what the library does with an effect of the
    handler.  A log line is logged, a record is sent to the sink, and the
    links that the handler lets through are enqueued. *)
Definition perform (st : Crawl) (e : Effect) : Crawl :=
  match e with
  | LogInfo m =>
      {| queue := queue st; known := known st; handled := handled st;
         dataset := dataset st; infoLog := infoLog st ++ [m] |}
  | PushData r =>
      {| queue := queue st; known := known st; handled := handled st;
         dataset := dataset st ++ [r]; infoLog := infoLog st |}
  | EnqueueLinks urls => fold_left addRequest urls st
  end.

Section Run.
Variable navigate : string -> option Page.
Variable clock : nat -> Z.

(** Modelled from the spec: one turn of the loop of the library.  The
    controller dequeues a URL, navigates and hands the loaded page to the
    handler, until the queue is empty or the budget is exhausted; a
    request whose navigation or handler fails is not retried. *)
Definition step (st : Crawl) : option Crawl :=
  if (maxRequestsPerCrawl <=? handled st)%nat then None
  else
    match queue st with
    | [] => None
    | u :: rest =>
        let st' := {| queue := rest; known := known st; handled := S (handled st);
                      dataset := dataset st; infoLog := infoLog st |} in
        match navigate u with
        | None => Some st'
        | Some page => Some (fold_left perform (fst (requestHandler (clock (handled st)) page)) st')
        end
    end.

(** Modelled from the spec: the loop of the library, for at most [fuel]
    turns. *)
Fixpoint run (fuel : nat) (st : Crawl) : Crawl :=
  match fuel with
  | O => st
  | S f =>
      match step st with
      | None => st
      | Some st' => run f st'
      end
  end.

End Run.

(** [crawler.run([seed])]: the crawl starts with the seed in the queue. *)
Definition start : Crawl :=
  addRequest {| queue := []; known := ∅; handled := 0; dataset := []; infoLog := [] |} seed.

(** What the handler may do: push a record whose URL lacks the event
    segment, and enqueue URLs that the exclude pattern does not match. *)
Definition allowed (e : Effect) : Prop :=
  match e with
  | LogInfo _ => True
  | PushData r => forall u, DatasetRecord.url r = Some u -> includes u "/e/" = false
  | EnqueueLinks urls => forall u, In u urls -> excluded u = false
  end.

(** The invariant of the crawl. *)
Definition clean (st : Crawl) : Prop :=
  (forall r u, In r (dataset st) -> DatasetRecord.url r = Some u -> includes u "/e/" = false)
  /\ (forall u, In u (queue st) -> excluded u = false).

Section Provenance.
Variable navigate : string -> option Page.
Variable clock : nat -> Z.

(** A record that the handler pushed for a page of the site, at one of
    the requests handled so far. *)
Definition served (st : Crawl) (r : DatasetRecord.t) : Prop :=
  exists u page k nodes,
    navigate u = Some page /\ (k < handled st)%nat
    /\ isEventPage page = false /\ networkidle page = true
    /\ body (document page) = Some nodes
    /\ r = {| DatasetRecord.title := pageTitle page;
              DatasetRecord.url := loadedUrl page;
              DatasetRecord.timestamp := Date.toISOString (clock k);
              DatasetRecord.html := innerHTML "body" (Sanitizer.sanitizeBody nodes) |}.

(** Where a URL of the queue comes from: it is the seed, or a link of an
    extracted page that the exclude pattern does not match. *)
Definition found (u : string) : Prop :=
  u = seed
  \/ exists v page nodes,
       navigate v = Some page /\ isEventPage page = false /\ networkidle page = true
       /\ body (document page) = Some nodes
       /\ In u (links page) /\ excluded u = false.

Definition traced (st : Crawl) : Prop :=
  forall u, In u (queue st) \/ u ∈ known st -> found u.

End Provenance.

(** A small site: the dashboard links to an event page, to a page of
    events, to a page with the event segment deeper in its path and to a
    page that redirects to an event page. *)
Definition dashboard : Page :=
  {| loadedUrl := Some "https://qrticket.app/dashboard";
     pageTitle := "Dashboard"; networkidle := true;
     document := {| body := Some Sanitizer.exampleFragment |};
     links := ["https://qrticket.app/e/123"; "https://qrticket.app/dashboard/events";
               "https://qrticket.app/dashboard/e/7"; "https://qrticket.app/latest";
               "https://qrticket.app/dashboard"] |}.

Definition sampleSite (u : string) : option Page :=
  if String.eqb u "https://qrticket.app/dashboard" then Some dashboard
  else if String.eqb u "https://qrticket.app/dashboard/events" then
    Some {| loadedUrl := Some u; pageTitle := "Events"; networkidle := true;
            document := {| body := Some [Element "h1" [] [Text "Events"]] |};
            links := ["https://qrticket.app/dashboard"] |}
  else if String.eqb u "https://qrticket.app/dashboard/e/7" then
    Some {| loadedUrl := Some u; pageTitle := "Seven"; networkidle := true;
            document := {| body := Some [] |}; links := [] |}
  else if String.eqb u "https://qrticket.app/latest" then
    Some {| loadedUrl := Some "https://qrticket.app/e/9"; pageTitle := "Nine";
            networkidle := true;
            document := {| body := Some [] |}; links := [] |}
  else None.

End Crawler.


(** * Properties *)

(** ** Strings *)

Section StringFacts.

Lemma append_nil_l (s : string) : "" +:+ s = s.
Proof. reflexivity. Qed.

Lemma append_cons (c : ascii) (s t : string) : String c s +:+ t = String c (s +:+ t).
Proof. reflexivity. Qed.

Lemma append_nil_r (s : string) : s +:+ "" = s.
Proof. induction s as [|c s IH]; [done | by rewrite append_cons, IH]. Qed.

Lemma append_assoc (a b c : string) : a +:+ (b +:+ c) = (a +:+ b) +:+ c.
Proof. induction a as [|x a IH]; [done | by rewrite !append_cons, IH]. Qed.

Lemma append_length (a b : string) :
  String.length (a +:+ b) = (String.length a + String.length b)%nat.
Proof. induction a as [|c a IH]; [done | rewrite append_cons; simpl; by rewrite IH]. Qed.

Lemma concat_cons (x : string) (xs : list string) :
  String.concat "" (x :: xs) = x +:+ String.concat "" xs.
Proof. destruct xs as [|y ys]; simpl; [by rewrite append_nil_r | done]. Qed.

Lemma concat_app (xs ys : list string) :
  String.concat "" (xs ++ ys) = String.concat "" xs +:+ String.concat "" ys.
Proof.
  induction xs as [|x xs IH]; [done |].
  rewrite <- app_comm_cons, !concat_cons, IH. apply append_assoc.
Qed.

Lemma prefix_app (p s : string) : String.prefix p (p +:+ s) = true.
Proof.
  induction p as [|c p IH]; [by destruct s |].
  rewrite append_cons. simpl. destruct (ascii_dec c c); [done | congruence].
Qed.

Lemma prefix_split (p s : string) :
  String.prefix p s = true -> exists r, s = p +:+ r.
Proof.
  revert s. induction p as [|c p IH]; intros s H.
  - by exists s.
  - destruct s as [|d s]; simpl in H; [done |].
    destruct (ascii_dec c d) as [->|]; [| done].
    destruct (IH s H) as [r ->]. by exists r.
Qed.

Lemma includes_here (s p : string) : String.prefix p s = true -> includes s p = true.
Proof. intros H. destruct s; cbn [includes]; rewrite H; done. Qed.

Lemma includes_intro (a p b : string) : includes (a +:+ p +:+ b) p = true.
Proof.
  induction a as [|c a IH].
  - rewrite append_nil_l. apply includes_here, prefix_app.
  - rewrite append_cons. cbn [includes]. rewrite IH. apply orb_true_r.
Qed.

Lemma includes_split (s p : string) :
  includes s p = true -> exists a b, s = a +:+ p +:+ b.
Proof.
  induction s as [|c s IH]; cbn [includes]; intros H.
  - rewrite orb_false_r in H. destruct (prefix_split _ _ H) as [r Hr].
    by exists "", r.
  - apply orb_true_iff in H as [H|H].
    + destruct (prefix_split _ _ H) as [r Hr]. by exists "", r.
    + destruct (IH H) as (a & b & ->). by exists (String c a), b.
Qed.

Lemma includes_iff (s p : string) :
  includes s p = true <-> exists a b, s = a +:+ p +:+ b.
Proof.
  split; [apply includes_split | intros (a & b & ->); apply includes_intro].
Qed.

Lemma truthy_iff (s : string) : truthy s = true <-> s <> "".
Proof.
  unfold truthy. rewrite negb_true_iff. apply String.eqb_neq.
Qed.

Lemma string_length_ind (P : string -> Prop) :
  (forall s, (forall t, (String.length t < String.length s)%nat -> P t) -> P s) ->
  forall s, P s.
Proof.
  intros H s. remember (String.length s) as n eqn:E.
  revert s E. induction (lt_wf n) as [n _ IH]. intros s ->.
  apply H. intros t Ht. by apply (IH (String.length t)).
Qed.

Lemma trimEnd_empty (s : string) : trimEnd s = "" <-> allSpaces s = true.
Proof.
  destruct s as [|a r]; [done |].
  cbn [trimEnd]. destruct (allSpaces (String a r)); split; done.
Qed.

Lemma allSpaces_trimStart (s : string) : allSpaces (trimStart s) = allSpaces s.
Proof.
  induction s as [s IH] using string_length_ind.
  destruct s as [|a r]; [done |]. cbn [trimStart allSpaces].
  destruct (isSpace a) eqn:E1; [apply IH; simpl; lia |].
  destruct r as [|b r2]; [cbn [allSpaces]; by rewrite E1 |].
  destruct (isSpace2 a b) eqn:E2; [apply IH; simpl; lia |].
  destruct r2 as [|c r3]; [cbn [allSpaces]; by rewrite E1, E2 |].
  destruct (isSpace3 a b c) eqn:E3; [apply IH; simpl; lia |].
  cbn [allSpaces]. by rewrite E1, E2, E3.
Qed.

(** A string trims to nothing exactly when it is made of white space. *)
Lemma trim_empty (s : string) : String.eqb (trim s) "" = allSpaces s.
Proof.
  unfold trim. rewrite <- (allSpaces_trimStart s).
  destruct (allSpaces (trimStart s)) eqn:E.
  - apply String.eqb_eq. by apply trimEnd_empty.
  - apply String.eqb_neq. intros H. apply trimEnd_empty in H. congruence.
Qed.

(** How [allSpaces] reads the front of a string. *)
Lemma allSpaces_one (a : ascii) (x : string) :
  isSpace a = true -> allSpaces (String a x) = allSpaces x.
Proof. intros H. cbn [allSpaces]. by rewrite H. Qed.

Lemma allSpaces_two (a b : ascii) (x : string) :
  isSpace a = false -> (forall c, isSpace3 a b c = false) ->
  allSpaces (String a (String b x)) = isSpace2 a b && allSpaces x.
Proof.
  intros H1 H3. cbn [allSpaces]. rewrite H1. destruct (isSpace2 a b); [done |].
  destruct x as [|c x]; [done |]. by rewrite H3.
Qed.

Lemma allSpaces_three (a b c : ascii) (x : string) :
  isSpace a = false -> isSpace2 a b = false ->
  allSpaces (String a (String b (String c x))) = isSpace3 a b c && allSpaces x.
Proof. intros H1 H2. cbn [allSpaces]. by rewrite H1, H2. Qed.

Lemma allSpaces_none (a : ascii) (x : string) :
  isSpace a = false -> (forall b, isSpace2 a b = false) ->
  (forall b c, isSpace3 a b c = false) ->
  allSpaces (String a x) = false.
Proof.
  intros H1 H2 H3. cbn [allSpaces]. rewrite H1.
  destruct x as [|b x]; [done |]. rewrite H2.
  destruct x as [|c x]; [done |]. by rewrite H3.
Qed.

Ltac not_byte x k :=
  replace (x =? k)%nat with false by (symmetry; apply Nat.eqb_neq; lia).

(** The first byte tells the length of a code point, so the white space of
    one, two and three bytes cannot be taken for one another. *)
Lemma isSpace_ascii (a : ascii) : isAscii a = false -> isSpace a = false.
Proof.
  unfold isAscii, isSpace. intros H. apply Nat.ltb_ge in H.
  not_byte (nat_of_ascii a) 32%nat.
  replace (nat_of_ascii a <=? 13)%nat with false by (symmetry; apply Nat.leb_gt; lia).
  by rewrite andb_false_r.
Qed.

Lemma isSpace2_lead (a b : ascii) : lead2 a = false -> isSpace2 a b = false.
Proof.
  unfold lead2, isSpace2. intros H.
  destruct (Nat.eqb_spec (nat_of_ascii a) 194) as [E|]; [| done].
  by rewrite E in H.
Qed.

Lemma isSpace3_lead (a b c : ascii) : lead3 a = false -> isSpace3 a b c = false.
Proof.
  unfold lead3, isSpace3. intros H.
  assert (Hn : (nat_of_ascii a < 224 \/ 239 < nat_of_ascii a)%nat).
  { apply andb_false_iff in H as [H|H]; [apply Nat.leb_gt in H | apply Nat.leb_gt in H]; lia. }
  not_byte (nat_of_ascii a) 225%nat. not_byte (nat_of_ascii a) 226%nat.
  not_byte (nat_of_ascii a) 227%nat. not_byte (nat_of_ascii a) 239%nat.
  done.
Qed.

Lemma lead_classes (a : ascii) :
  (isAscii a = true -> lead2 a = false /\ lead3 a = false)
  /\ (lead2 a = true -> lead3 a = false)
  /\ (lead4 a = true -> lead2 a = false /\ lead3 a = false).
Proof.
  unfold isAscii, lead2, lead3, lead4.
  split; [intros H0; split | split; [intros H0 | intros H0; split]];
    repeat match goal with
           | H : _ && _ = true |- _ => apply andb_true_iff in H as [? ?]
           | H : (_ <=? _)%nat = true |- _ => apply Nat.leb_le in H
           | H : (_ <? _)%nat = true |- _ => apply Nat.ltb_lt in H
           end;
    apply andb_false_iff; (left; apply Nat.leb_gt; lia) || (right; apply Nat.leb_gt; lia).
Qed.

(** White space joined to white space is white space. *)
Lemma allSpaces_app_intro (a b : string) :
  allSpaces a = true -> allSpaces b = true -> allSpaces (a +:+ b) = true.
Proof.
  intros Ha Hb. induction a as [a IH] using string_length_ind.
  destruct a as [|a0 r]; [done |]. rewrite append_cons. cbn [allSpaces] in Ha |- *.
  destruct (isSpace a0); [apply IH; [simpl; lia | done] |].
  destruct r as [|b1 r2]; [done |]. rewrite append_cons.
  destruct (isSpace2 a0 b1); [apply IH; [simpl; lia | done] |].
  destruct r2 as [|c1 r3]; [done |]. rewrite append_cons.
  apply andb_true_iff in Ha as [-> Ha]. apply IH; [simpl; lia | done].
Qed.

(** For well-formed text the converse holds too: white space cannot be
    made of two strings that are not. *)
Lemma allSpaces_app (a b : string) :
  wellFormed a = true -> allSpaces (a +:+ b) = allSpaces a && allSpaces b.
Proof.
  induction a as [a IH] using string_length_ind. intros Hw.
  destruct a as [|a0 r]; [done |]. rewrite append_cons. cbn [wellFormed] in Hw.
  destruct (lead_classes a0) as (Hc1 & Hc2 & Hc4).
  destruct (isAscii a0) eqn:EA.
  - destruct (Hc1 eq_refl) as [E2 E3].
    destruct (isSpace a0) eqn:ES.
    + rewrite !(allSpaces_one a0) by done. apply IH; [simpl; lia | done].
    + rewrite !(allSpaces_none a0); try done.
      * intros; by apply isSpace2_lead.
      * intros; by apply isSpace3_lead.
      * intros; by apply isSpace2_lead.
      * intros; by apply isSpace3_lead.
  - pose proof (isSpace_ascii a0 EA) as ES.
    destruct (lead2 a0) eqn:E2.
    + destruct r as [|b1 r2]; [done |]. apply andb_true_iff in Hw as [_ Hw].
      rewrite append_cons.
      rewrite !(allSpaces_two a0 b1) by (done || intros; apply isSpace3_lead; auto).
      rewrite IH by (done || simpl; lia). apply andb_assoc.
    + destruct (lead3 a0) eqn:E3.
      * destruct r as [|b1 [|c1 r3]]; [done | done |].
        apply andb_true_iff in Hw as [_ Hw]. rewrite !append_cons.
        rewrite !(allSpaces_three a0 b1 c1) by (done || by apply isSpace2_lead).
        rewrite IH by (done || simpl; lia). apply andb_assoc.
      * destruct (lead4 a0); [| done].
        destruct r as [|b1 [|c1 [|d1 r4]]]; [done | done | done |].
        rewrite !append_cons.
        rewrite !(allSpaces_three a0 b1 c1) by (done || by apply isSpace2_lead).
        by rewrite (isSpace3_lead a0 b1 c1 E3).
Qed.

Lemma allSpaces_concat_intro (l : list string) :
  forallb allSpaces l = true -> allSpaces (String.concat "" l) = true.
Proof.
  induction l as [|x l IH]; [done |]. cbn [forallb]. rewrite andb_true_iff.
  intros [Hx Hl]. rewrite concat_cons. apply allSpaces_app_intro; auto.
Qed.

Lemma allSpaces_concat (l : list string) :
  forallb wellFormed l = true ->
  allSpaces (String.concat "" l) = forallb allSpaces l.
Proof.
  induction l as [|x l IH]; [done |]. cbn [forallb]. rewrite andb_true_iff.
  intros [Hx Hl]. by rewrite concat_cons, (allSpaces_app x _ Hx), (IH Hl).
Qed.

Lemma trim_examples :
  trim ("  a b" +:+ LF) = "a b" /\ trim "   " = "" /\ trim "" = "" /\ trim "x" = "x"
  /\ trim (NBSP +:+ " café " +:+ EMSP) = "café" /\ trim (NBSP +:+ EMSP) = ""
  /\ toUpperCase "button-2z" = "BUTTON-2Z".
Proof. repeat split. Qed.

(** Upper case beyond ASCII: a letter with an accent, a letter that
    becomes two, a ligature, Greek and Cyrillic letters; what has no upper
    case stays. *)
Lemma toUpperCase_examples :
  toUpperCase "café" = "CAFÉ"
  /\ toUpperCase "straße" = "STRASSE"
  /\ toUpperCase "ﬁeld" = "FIELD"
  /\ toUpperCase "αβς" = "ΑΒΣ"
  /\ toUpperCase "кнопка" = "КНОПКА"
  /\ toUpperCase "按钮 1" = "按钮 1"
  /\ String.length "café" = 5%nat.
Proof. repeat split. Qed.

End StringFacts.

(** ** The formatter *)

Module FormatFacts.
Import Format Rendering Samples.

(** A loop whose body appends [line x] to the accumulator appends the
    lines of the whole array, in order. *)
Lemma forEach_appends {A} (body : string -> A -> string) (line : A -> string) :
  (forall acc x, body acc x = acc +:+ line x) ->
  forall xs acc, forEach xs body acc = acc +:+ lines line xs.
Proof.
  intros Hbody xs. unfold forEach, lines.
  induction xs as [|x xs IH]; intros acc; simpl fold_left.
  - simpl. by rewrite append_nil_r.
  - rewrite IH, Hbody, map_cons. by rewrite concat_cons, append_assoc.
Qed.

(** The same for a body that appends a line for some elements only. *)
Lemma forEach_appends_if {A} (body : string -> A -> string) (keep : A -> bool)
    (line : A -> string) :
  (forall acc x, body acc x = if keep x then acc +:+ line x else acc) ->
  forall xs acc, forEach xs body acc = acc +:+ lines line (List.filter keep xs).
Proof.
  intros Hbody xs. unfold forEach, lines.
  induction xs as [|x xs IH]; intros acc; simpl fold_left.
  - simpl. by rewrite append_nil_r.
  - rewrite IH, Hbody. simpl List.filter. destruct (keep x); [| done].
    by rewrite map_cons, concat_cons, append_assoc.
Qed.

Lemma nonEmpty_true {A} (xs : list A) : xs <> [] -> nonEmpty xs = true.
Proof. by destruct xs. Qed.

Lemma addHeading_line (formatted : string) (h : Heading.t) :
  1 <= Heading.level h -> addHeading formatted h = Normal (formatted +:+ headingLine h).
Proof.
  intros Hl. unfold addHeading, Js.repeat, headingLine.
  destruct (Z.ltb_spec (Heading.level h - 1) 0) as [Hneg|_]; [lia |].
  done.
Qed.

Lemma addHeading_throws (formatted : string) (h : Heading.t) :
  Heading.level h < 1 -> addHeading formatted h = Throw RangeError.
Proof.
  intros Hl. unfold addHeading, Js.repeat.
  destruct (Z.ltb_spec (Heading.level h - 1) 0) as [_|Hpos]; [done | lia].
Qed.

Lemma forEachC_headings (hs : list Heading.t) (formatted : string) :
  Forall (fun h => 1 <= Heading.level h) hs ->
  forEachC hs addHeading formatted = Normal (formatted +:+ lines headingLine hs).
Proof.
  intros H. revert formatted. unfold lines.
  induction H as [|h hs Hh _ IH]; intros formatted; cbn [forEachC].
  - simpl. by rewrite append_nil_r.
  - rewrite (addHeading_line _ _ Hh). cbn [Js.bind].
    by rewrite IH, map_cons, concat_cons, append_assoc.
Qed.

Lemma addNav_line (formatted : string) (nav : LinkElement.t) :
  addNav formatted nav = if hasText nav then formatted +:+ navLine nav else formatted.
Proof. done. Qed.

Lemma addElement_line (formatted : string) (e : InteractiveElement.t) :
  addElement formatted e = if hasLabel e then formatted +:+ elementLine e else formatted.
Proof.
  unfold addElement, hasLabel, elementLine.
  destruct (truthy (InteractiveElement.text e)); [| done].
  destruct (InteractiveElement.id e) as [i|]; simpl.
  - destruct (truthy i); simpl; by rewrite <- ?append_assoc.
  - by rewrite <- ?append_assoc.
Qed.

Lemma addInput_line (formatted : string) (i : InputElement.t) :
  addInput formatted i = formatted +:+ inputLine i.
Proof.
  unfold addInput, inputLine.
  destruct (InputElement.placeholder i) as [p|]; simpl; [destruct (truthy p) |]; done.
Qed.

Lemma lines_includes {A} (line : A -> string) (xs : list A) (x : A) :
  In x xs -> exists a b, lines line xs = a +:+ line x +:+ b.
Proof.
  intros Hin. destruct (in_split _ _ Hin) as (l1 & l2 & ->).
  exists (lines line l1), (lines line l2). unfold lines.
  by rewrite map_app, concat_app, map_cons, concat_cons.
Qed.

Lemma times_length (s : string) (n : nat) :
  String.length (times s n) = (n * String.length s)%nat.
Proof.
  induction n as [|n IH]; [done |].
  cbn [times]. rewrite append_length, IH. lia.
Qed.

Lemma filter_drops_one {A} (keep : A -> bool) (pre post : list A) (x : A) :
  keep x = false -> List.filter keep (pre ++ x :: post) = List.filter keep (pre ++ post).
Proof.
  intros Hx. rewrite !List.filter_app. simpl. by rewrite Hx.
Qed.

Lemma addHeader_text (data : PageData) : addHeader data = headerText data.
Proof. unfold addHeader, headerText. by rewrite <- !append_assoc. Qed.

Lemma addPageStructure_text (data : PageData) (formatted : string) :
  Forall (fun h => 1 <= Heading.level h) (headings data) ->
  addPageStructure data formatted = Normal (formatted +:+ structureText (headings data)).
Proof.
  intros Hl. unfold addPageStructure, structureText.
  destruct (nonEmpty (headings data)); [| by rewrite append_nil_r].
  rewrite (forEachC_headings _ _ Hl). simpl. by rewrite <- !append_assoc.
Qed.

Lemma addNavigation_text (data : PageData) (formatted : string) :
  addNavigation data formatted = formatted +:+ navigationText (linkElements data).
Proof.
  unfold addNavigation, navigationText.
  destruct (nonEmpty (linkElements data)); [| by rewrite append_nil_r].
  rewrite (forEach_appends_if addNav hasText navLine addNav_line).
  by rewrite <- !append_assoc.
Qed.

Lemma addInteractive_text (data : PageData) (formatted : string) :
  addInteractive data formatted = formatted +:+ interactiveText (interactiveElements data).
Proof.
  unfold addInteractive, interactiveText.
  destruct (nonEmpty (interactiveElements data)); [| by rewrite append_nil_r].
  rewrite (forEach_appends_if addElement hasLabel elementLine addElement_line).
  by rewrite <- !append_assoc.
Qed.

Lemma addInputs_text (data : PageData) (formatted : string) :
  addInputs data formatted = formatted +:+ inputsText (inputElements data).
Proof.
  unfold addInputs, inputsText.
  destruct (nonEmpty (inputElements data)); [| by rewrite append_nil_r].
  rewrite (forEach_appends addInput inputLine addInput_line).
  by rewrite <- !append_assoc.
Qed.

Lemma addButtons_text (data : PageData) (formatted : string) :
  addButtons data formatted = formatted +:+ buttonsText (buttonElements data).
Proof.
  unfold addButtons, buttonsText.
  destruct (nonEmpty (buttonElements data)); [| by rewrite append_nil_r].
  rewrite (forEach_appends addButton buttonLine); [| done].
  by rewrite <- !append_assoc.
Qed.

Lemma addForms_text (data : PageData) (formatted : string) :
  addForms data formatted = formatted +:+ formsText (formElements data).
Proof.
  unfold addForms, formsText.
  destruct (nonEmpty (formElements data)); [| by rewrite append_nil_r].
  rewrite (forEach_appends addForm formLine); [| done].
  by rewrite <- !append_assoc.
Qed.

Lemma addContent_text (data : PageData) (formatted : string) :
  addContent data formatted = formatted +:+ contentText data.
Proof. unfold addContent, contentText. by rewrite <- !append_assoc. Qed.

(** The whole rendering, when no heading has a level below one. *)
Lemma formatForLLM_text (data : PageData) :
  Forall (fun h => 1 <= Heading.level h) (headings data) ->
  formatForLLM data =
    Normal (headerText data +:+ structureText (headings data)
            +:+ navigationText (linkElements data)
            +:+ interactiveText (interactiveElements data)
            +:+ inputsText (inputElements data)
            +:+ buttonsText (buttonElements data)
            +:+ formsText (formElements data)
            +:+ contentText data).
Proof.
  intros Hl. unfold formatForLLM.
  rewrite (addPageStructure_text _ _ Hl). simpl.
  rewrite addContent_text, addForms_text, addButtons_text, addInputs_text,
    addInteractive_text, addNavigation_text, addHeader_text.
  by rewrite <- !append_assoc.
Qed.

(** What a throwing loop has appended so far is kept in front. *)
Lemma forEachC_extends (hs : list Heading.t) (formatted s : string) :
  forEachC hs addHeading formatted = Normal s -> exists x, s = formatted +:+ x.
Proof.
  revert formatted. induction hs as [|h hs IH]; intros formatted; cbn [forEachC].
  - intros [= <-]. exists "". by rewrite append_nil_r.
  - unfold addHeading at 1. destruct (Js.repeat "  " (Heading.level h - 1)) as [i|e]; [| done].
    simpl. intros H. destruct (IH _ H) as [x ->].
    eexists. by rewrite <- !append_assoc.
Qed.

(** Every rendering starts with the title line. *)
Lemma formatForLLM_starts (data : PageData) (s : string) :
  formatForLLM data = Normal s -> String.prefix "# " s = true.
Proof.
  unfold formatForLLM, addPageStructure.
  destruct (nonEmpty (headings data)).
  - destruct (forEachC _ _ _) as [f|e] eqn:E; [| done].
    destruct (forEachC_extends _ _ _ E) as [x ->]. simpl. intros [= <-].
    rewrite addContent_text, addForms_text, addButtons_text, addInputs_text,
      addInteractive_text, addNavigation_text, addHeader_text.
    unfold headerText. rewrite <- !append_assoc. apply prefix_app.
  - simpl. intros [= <-].
    rewrite addContent_text, addForms_text, addButtons_text, addInputs_text,
      addInteractive_text, addNavigation_text, addHeader_text.
    unfold headerText. rewrite <- !append_assoc. apply prefix_app.
Qed.

(** *** Determinism *)

(** C3: the formatter is a function of the record alone: on two records
    that are structurally the same it gives the same completion, and so the
    same string byte for byte (or the same exception). *)
Theorem formatForLLM_deterministic (r1 r2 : PageData) :
  r1 = r2 -> formatForLLM r1 = formatForLLM r2.
Proof. intros ->. reflexivity. Qed.

Lemma formatForLLM_deterministic_witness :
  formatForLLM sampleRecord =
  formatForLLM
    {| title := "Events"; url := "https://qrticket.app/dashboard"; textContent := "Welcome";
       headings := headings sampleRecord;
       linkElements := linkElements sampleRecord;
       inputElements := inputElements sampleRecord;
       buttonElements := buttonElements sampleRecord;
       formElements := formElements sampleRecord;
       interactiveElements := interactiveElements sampleRecord |}.
Proof. apply formatForLLM_deterministic. reflexivity. Defined.

(** *** Page structure *)

(** C9: with the headings Events (level 1) and Upcoming (level 2), whatever
    their anchor ids, the page-structure block appends exactly the heading
    line, a blank line, the line of Events, the line of Upcoming indented by
    two spaces, and a closing line feed; the whole rendering is the header,
    this section, and the later blocks applied to it.  In general a heading
    of level at least one is indented by [level - 1] copies of two spaces. *)
Theorem page_structure_example (data : PageData) (id1 id2 : option string) :
  headings data = [Heading.mk 1 "Events" id1; Heading.mk 2 "Upcoming" id2] ->
  let section :=
    "## Page Structure" +:+ LF +:+ LF +:+ "- Events" +:+ LF +:+ "  - Upcoming" +:+ LF +:+ LF in
  (forall formatted, addPageStructure data formatted = Normal (formatted +:+ section))
  /\ formatForLLM data =
       Normal (addContent data (addForms data (addButtons data (addInputs data
         (addInteractive data (addNavigation data (addHeader data +:+ section)))))))
  /\ (forall (h : Heading.t) formatted, 1 <= Heading.level h ->
        addHeading formatted h =
          Normal (formatted +:+ times "  " (Z.to_nat (Heading.level h - 1)) +:+ "- "
                  +:+ Heading.text h +:+ LF)
        /\ Z.of_nat (String.length (times "  " (Z.to_nat (Heading.level h - 1))))
           = 2 * (Heading.level h - 1)).
Proof.
  intros Hh section.
  assert (Hs : forall formatted, addPageStructure data formatted = Normal (formatted +:+ section)).
  { intros formatted. rewrite addPageStructure_text.
    - rewrite Hh. reflexivity.
    - rewrite Hh. repeat constructor; simpl; lia. }
  split; [exact Hs |]. split.
  - unfold formatForLLM. rewrite Hs. reflexivity.
  - intros h formatted Hl. split.
    + apply (addHeading_line formatted h Hl).
    + rewrite times_length. simpl String.length. lia.
Qed.

Lemma page_structure_example_witness :
  formatForLLM sampleRecord =
    Normal (addContent sampleRecord (addForms sampleRecord (addButtons sampleRecord
      (addInputs sampleRecord (addInteractive sampleRecord (addNavigation sampleRecord
        (addHeader sampleRecord +:+ "## Page Structure" +:+ LF +:+ LF +:+ "- Events" +:+ LF
         +:+ "  - Upcoming" +:+ LF +:+ LF))))))).
Proof.
  exact (proj1 (proj2 (page_structure_example sampleRecord None (Some "up") eq_refl))).
Defined.

(** *** Navigation *)

(** C6: the navigation block reads the links and leaves the record as it
    is; for a record with links it appends the heading, a blank line, one
    line [- text: href] per link whose text is not empty, in order, and a
    closing line feed.  A link with empty text adds nothing: the section is
    the same as if that link were not in the list.  The rendering that
    [formatForLLM] returns is what the blocks before have built, then this
    section, then the later blocks applied to it; when the page-structure
    block throws, so does [formatForLLM]. *)
Theorem navigation_skips_links_without_text (data : PageData) (formatted : string) :
  linkElements data <> [] ->
  addNavigation data formatted =
    formatted +:+ "## Available Navigation" +:+ LF +:+ LF
    +:+ lines navLine (List.filter hasText (linkElements data)) +:+ LF
  /\ (forall l, In l (List.filter hasText (linkElements data)) <->
                In l (linkElements data) /\ LinkElement.text l <> "")
  /\ (forall l, navLine l =
                "- " +:+ LinkElement.text l +:+ ": " +:+ LinkElement.href l +:+ LF)
  /\ (forall pre post href,
        linkElements data = (pre ++ LinkElement.mk "" href :: post)%list ->
        lines navLine (List.filter hasText (linkElements data)) =
        lines navLine (List.filter hasText (pre ++ post)%list))
  /\ (forall before,
        addPageStructure data (addHeader data) = Normal before ->
        formatForLLM data =
          Normal (addContent data (addForms data (addButtons data (addInputs data
            (addInteractive data
               (before +:+ "## Available Navigation" +:+ LF +:+ LF
                +:+ lines navLine (List.filter hasText (linkElements data)) +:+ LF)))))))
  /\ (forall e,
        addPageStructure data (addHeader data) = Throw e -> formatForLLM data = Throw e).
Proof.
  intros Hne.
  assert (Hs : forall before, addNavigation data before =
    before +:+ "## Available Navigation" +:+ LF +:+ LF
    +:+ lines navLine (List.filter hasText (linkElements data)) +:+ LF).
  { intros before. rewrite addNavigation_text. unfold navigationText.
    by rewrite (nonEmpty_true _ Hne). }
  split; [apply Hs |]. split; [| split; [| split; [| split]]].
  - intros l. rewrite List.filter_In. unfold hasText. by rewrite truthy_iff.
  - done.
  - intros pre post href ->. by rewrite filter_drops_one.
  - intros before Hb. unfold formatForLLM. rewrite Hb. cbn [mbind Completion_bind Js.bind].
    by rewrite Hs.
  - intros e He. unfold formatForLLM. by rewrite He.
Qed.

Lemma navigation_skips_links_without_text_witness :
  In (LinkElement.mk "" "/hidden") (linkElements hiddenLink)
  /\ addNavigation hiddenLink "" = "## Available Navigation" +:+ LF +:+ LF +:+ LF
  /\ formatForLLM hiddenLink =
       Normal ("# T" +:+ LF +:+ LF +:+ "**URL:** u" +:+ LF +:+ LF
               +:+ "## Available Navigation" +:+ LF +:+ LF +:+ LF
               +:+ "## Page Content" +:+ LF +:+ LF)
  /\ (forall s, formatForLLM hiddenLink = Normal s -> includes s "/hidden" = false).
Proof.
  split; [by left |].
  assert (Hne : linkElements hiddenLink <> []) by done.
  destruct (navigation_skips_links_without_text hiddenLink "" Hne)
    as (Hs & _ & _ & _ & Hf & _).
  assert (Hr : formatForLLM hiddenLink =
       Normal ("# T" +:+ LF +:+ LF +:+ "**URL:** u" +:+ LF +:+ LF
               +:+ "## Available Navigation" +:+ LF +:+ LF +:+ LF
               +:+ "## Page Content" +:+ LF +:+ LF)).
  { rewrite (Hf (addHeader hiddenLink) eq_refl). reflexivity. }
  split; [rewrite Hs; reflexivity |]. split; [exact Hr |].
  intros s. rewrite Hr. intros [= <-]. reflexivity.
Defined.

(** *** Interactive elements *)

(** C7, as stated, fails: an element with an empty label is in the array
    and nothing of it is rendered, neither its line nor its kind or id. *)
Lemma unlabelled_element_not_rendered :
  In unlabelled (interactiveElements unlabelledRecord)
  /\ addInteractive unlabelledRecord "" = "## Interactive Elements" +:+ LF +:+ LF +:+ LF
  /\ includes (addInteractive unlabelledRecord "") (elementLine unlabelled) = false
  /\ includes (addInteractive unlabelledRecord "") "BUTTON" = false
  /\ includes (addInteractive unlabelledRecord "") "save" = false.
Proof. split; [by left | repeat split; reflexivity]. Qed.

(** C7, amended: for a record with interactive elements the block appends
    the heading, a blank line, one line per element whose label is not
    empty, in order, and a closing line feed; the line holds the kind in
    upper case, the label between double quotes and, when the id is neither
    null nor empty, the id in parentheses.  Every element with a label has
    its line in the section.  The rendering that [formatForLLM] returns is
    what the blocks before have built, then this section, then the later
    blocks applied to it, and it holds the line of every element with a
    label. *)
Theorem interactive_renders_labelled_elements (data : PageData) (formatted : string) :
  interactiveElements data <> [] ->
  addInteractive data formatted =
    formatted +:+ "## Interactive Elements" +:+ LF +:+ LF
    +:+ lines elementLine (List.filter hasLabel (interactiveElements data)) +:+ LF
  /\ (forall e, In e (interactiveElements data) -> InteractiveElement.text e <> "" ->
        exists before after,
          addInteractive data formatted = before +:+ elementLine e +:+ after)
  /\ (forall e, elementLine e =
        "- **" +:+ toUpperCase (InteractiveElement.type e) +:+ "**: "
        +:+ DQ +:+ InteractiveElement.text e +:+ DQ
        +:+ match InteractiveElement.id e with
            | Some i => if truthy i then " (ID: " +:+ i +:+ ")" else ""
            | None => ""
            end
        +:+ LF)
  /\ (forall before,
        addPageStructure data (addHeader data) = Normal before ->
        formatForLLM data =
          Normal (addContent data (addForms data (addButtons data (addInputs data
            (addNavigation data before +:+ "## Interactive Elements" +:+ LF +:+ LF
             +:+ lines elementLine (List.filter hasLabel (interactiveElements data))
             +:+ LF))))))
  /\ (forall e out, In e (interactiveElements data) -> InteractiveElement.text e <> "" ->
        formatForLLM data = Normal out ->
        exists before after, out = before +:+ elementLine e +:+ after).
Proof.
  intros Hne.
  assert (Hs : forall before, addInteractive data before =
    before +:+ "## Interactive Elements" +:+ LF +:+ LF
    +:+ lines elementLine (List.filter hasLabel (interactiveElements data)) +:+ LF).
  { intros before. rewrite addInteractive_text. unfold interactiveText.
    by rewrite (nonEmpty_true _ Hne). }
  assert (Hin : forall e before, In e (interactiveElements data) ->
    InteractiveElement.text e <> "" ->
    exists a b, addInteractive data before = a +:+ elementLine e +:+ b).
  { intros e before Hin Ht. rewrite Hs.
    destruct (lines_includes elementLine (List.filter hasLabel (interactiveElements data)) e)
      as (a & b & ->).
    { apply List.filter_In. split; [done |]. by apply truthy_iff. }
    exists (before +:+ "## Interactive Elements" +:+ LF +:+ LF +:+ a), (b +:+ LF).
    by rewrite <- !append_assoc. }
  split; [apply Hs |]. split; [intros e He Ht; by apply Hin |]. split; [done |]. split.
  - intros before Hb. unfold formatForLLM. rewrite Hb. cbn [mbind Completion_bind Js.bind].
    by rewrite Hs.
  - intros e out He Ht. unfold formatForLLM.
    destruct (addPageStructure data (addHeader data)) as [before|err]; [| done].
    cbn [mbind Completion_bind Js.bind]. intros [= <-].
    destruct (Hin e (addNavigation data before) He Ht) as (a & b & ->).
    rewrite addContent_text, addForms_text, addButtons_text, addInputs_text.
    exists a, (b +:+ inputsText (inputElements data) +:+ buttonsText (buttonElements data)
               +:+ formsText (formElements data) +:+ contentText data).
    by rewrite <- !append_assoc.
Qed.

Lemma interactive_renders_labelled_elements_witness :
  addInteractive sampleRecord "" =
    "## Interactive Elements" +:+ LF +:+ LF
    +:+ "- **A**: " +:+ DQ +:+ "Help" +:+ DQ +:+ " (ID: help)" +:+ LF +:+ LF
  /\ formatForLLM sampleRecord =
       Normal ("# Events" +:+ LF +:+ LF
               +:+ "**URL:** https://qrticket.app/dashboard" +:+ LF +:+ LF
               +:+ "## Page Structure" +:+ LF +:+ LF
               +:+ "- Events" +:+ LF +:+ "  - Upcoming" +:+ LF +:+ LF
               +:+ "## Available Navigation" +:+ LF +:+ LF +:+ "- Home: /" +:+ LF +:+ LF
               +:+ "## Interactive Elements" +:+ LF +:+ LF
               +:+ "- **A**: " +:+ DQ +:+ "Help" +:+ DQ +:+ " (ID: help)" +:+ LF +:+ LF
               +:+ "## Input Elements" +:+ LF +:+ LF
               +:+ "- **TEXT**: " +:+ DQ +:+ " Name" +:+ DQ +:+ LF
               +:+ "## Button Elements" +:+ LF +:+ LF
               +:+ "- **SUBMIT**: " +:+ DQ +:+ "Go" +:+ DQ +:+ LF
               +:+ "## Page Content" +:+ LF +:+ LF +:+ "Welcome").
Proof.
  assert (Hne : interactiveElements sampleRecord <> []) by done.
  destruct (interactive_renders_labelled_elements sampleRecord "" Hne)
    as (Hs & _ & _ & Hf & _).
  split; [rewrite Hs; reflexivity |].
  rewrite (Hf _ eq_refl). reflexivity.
Defined.

(** *** Blank lines between sections *)

(** C5, on a record with one input, one button and one form: the headings
    of the button section, of the form section and of the page content
    follow the last line of the section before them without a blank line
    in between. *)
Theorem input_button_form_sections_run_together :
  formatForLLM inputsAndButtons =
    Normal ("# T" +:+ LF +:+ LF +:+ "**URL:** u" +:+ LF +:+ LF
            +:+ "## Input Elements" +:+ LF +:+ LF
            +:+ "- **TEXT**: " +:+ DQ +:+ " Name" +:+ DQ +:+ LF
            +:+ "## Button Elements" +:+ LF +:+ LF
            +:+ "- **SUBMIT**: " +:+ DQ +:+ "Go" +:+ DQ +:+ LF
            +:+ "## Form Elements" +:+ LF +:+ LF
            +:+ "- **FORM**: " +:+ DQ +:+ "Login" +:+ DQ +:+ LF
            +:+ "## Page Content" +:+ LF +:+ LF +:+ "body").
Proof. reflexivity. Qed.

End FormatFacts.

(** ** The clean-up pass *)

Module SanitizerFacts.
Import Dom Sanitizer.

Lemma nameOnly_childBlind (P : Node -> bool) : nameOnly P -> childBlind P.
Proof. intros [H _] t a c c'. apply H. Qed.

Lemma forallb_flat_map {A B} (p : A -> bool) (q : B -> bool) (f : A -> list B) (l : list A) :
  Forall (fun x => p x = true -> forallb q (f x) = true) l ->
  forallb p l = true -> forallb q (flat_map f l) = true.
Proof.
  induction 1 as [|x l Hx _ IH]; [done |].
  simpl. rewrite andb_true_iff, forallb_app. intros [Hp Hl].
  by rewrite (Hx Hp), (IH Hl).
Qed.

Lemma forallb_flat_map_all {A B} (q : B -> bool) (f : A -> list B) (l : list A) :
  Forall (fun x => forallb q (f x) = true) l -> forallb q (flat_map f l) = true.
Proof.
  induction 1 as [|x l Hx _ IH]; [done |].
  simpl. by rewrite forallb_app, Hx, IH.
Qed.

(** Taking nodes out keeps what held of every node. *)
Lemma removeWhere_keeps (P drop : Node -> bool) (n : Node) :
  childBlind P -> everyNode P n = true -> forallb (everyNode P) (removeWhere drop n) = true.
Proof.
  intros HP. induction n as [t a c IH|ta tc|d|d] using Node_ind; intros Hn.
  - cbn [removeWhere]. destruct (drop _); [done |].
    cbn [everyNode] in Hn. apply andb_true_iff in Hn as [Hhere Hbelow].
    cbn [forallb everyNode]. rewrite (HP t a _ c), Hhere.
    rewrite (forallb_flat_map (everyNode P) (everyNode P)); done.
  - cbn [removeWhere]. destruct (drop _); [done |]. cbn [forallb]. by rewrite Hn.
  - cbn [removeWhere]. destruct (drop _); [done |]. cbn [forallb]. by rewrite Hn.
  - cbn [removeWhere]. destruct (drop _); [done |]. cbn [forallb]. by rewrite Hn.
Qed.

Lemma removeAll_keeps (P drop : Node -> bool) (nodes : list Node) :
  childBlind P ->
  forallb (everyNode P) nodes = true -> forallb (everyNode P) (removeAll drop nodes) = true.
Proof.
  intros HP. apply forallb_flat_map. apply Forall_forall.
  intros n _. by apply removeWhere_keeps.
Qed.

(** Taking out the nodes that satisfy [drop] leaves none of them. *)
Lemma removeWhere_removes (drop : Node -> bool) (n : Node) :
  childBlind drop -> forallb (everyNode (fun k => negb (drop k))) (removeWhere drop n) = true.
Proof.
  intros Hd. induction n as [t a c IH|ta tc|d|d] using Node_ind.
  - cbn [removeWhere]. destruct (drop (Element t a c)) eqn:E; [done |].
    cbn [forallb everyNode]. rewrite (Hd t a _ c), E.
    by rewrite forallb_flat_map_all.
  - cbn [removeWhere]. destruct (drop (Template ta tc)) eqn:E; [done |].
    cbn [forallb everyNode]. by rewrite E.
  - cbn [removeWhere]. destruct (drop (Text d)) eqn:E; [done |].
    cbn [forallb everyNode]. by rewrite E.
  - cbn [removeWhere]. destruct (drop (Comment d)) eqn:E; [done |].
    cbn [forallb everyNode]. by rewrite E.
Qed.

Lemma removeAll_removes (drop : Node -> bool) (nodes : list Node) :
  childBlind drop -> forallb (everyNode (fun k => negb (drop k))) (removeAll drop nodes) = true.
Proof.
  intros Hd. apply forallb_flat_map_all, Forall_forall.
  intros n _. by apply removeWhere_removes.
Qed.

(** *** Attributes *)

Lemma occurrences_cons (name : string) (a : Attr) (r : list Attr) :
  occurrences name (a :: r) =
  if named name a then S (occurrences name r) else occurrences name r.
Proof. unfold occurrences. cbn [List.filter]. by destruct (named name a). Qed.

Lemma removeAttribute_same (name : string) (attrs : list Attr) :
  occurrences name (removeAttribute attrs name) = pred (occurrences name attrs).
Proof.
  unfold occurrences. induction attrs as [|a r IH]; [done |].
  cbn [removeAttribute List.filter]. destruct (named name a) eqn:E; [done |].
  cbn [List.filter]. by rewrite E.
Qed.

Lemma removeAttribute_other (name other : string) (attrs : list Attr) :
  other <> name ->
  occurrences name (removeAttribute attrs other) = occurrences name attrs.
Proof.
  intros Hne. unfold occurrences. induction attrs as [|a r IH]; [done |].
  cbn [removeAttribute List.filter]. destruct (named other a) eqn:E.
  - unfold named in *. apply String.eqb_eq in E.
    destruct (String.eqb_spec (fst a) name) as [E'|]; [congruence | done].
  - cbn [List.filter]. destruct (named name a); cbn [length]; by rewrite IH.
Qed.

Lemma removeAttribute_subset (name : string) (attrs : list Attr) (a : Attr) :
  In a (removeAttribute attrs name) -> In a attrs.
Proof.
  induction attrs as [|b r IH]; [done |].
  cbn [removeAttribute]. destruct (named name b); [by right |].
  intros [->|H]; [by left | right; auto].
Qed.

Lemma occurrences_In (a : Attr) (attrs : list Attr) :
  In a attrs -> (0 < occurrences (fst a) attrs)%nat.
Proof.
  unfold occurrences. induction attrs as [|b r IH]; [done |].
  intros [->|H]; cbn [List.filter].
  - unfold named at 1. rewrite String.eqb_refl. simpl. lia.
  - destruct (named (fst a) b); simpl; auto with lia.
Qed.

(** The loop over the copy: as long as the element holds no more
    attributes of a data name than the rest of the copy does, none is left
    at the end. *)
Lemma data_loop (copy el : list Attr) :
  (forall name, startsWith name "data-" = true ->
                (occurrences name el <= occurrences name copy)%nat) ->
  forall name, startsWith name "data-" = true ->
    occurrences name
      (forEach copy
         (fun el attr => if isDataAttr attr then removeAttribute el (fst attr) else el) el) = 0%nat.
Proof.
  unfold forEach. revert el. induction copy as [|a r IH]; intros el Hle name Hname.
  - specialize (Hle name Hname). cbn [fold_left]. change (occurrences name []) with 0%nat in Hle. lia.
  - cbn [fold_left]. apply IH; [| done].
    intros n Hn. specialize (Hle n Hn). rewrite occurrences_cons in Hle.
    unfold named in Hle. destruct (isDataAttr a) eqn:Ea.
    + destruct (String.eqb_spec (fst a) n) as [E|Hne].
      * rewrite E, removeAttribute_same. lia.
      * by rewrite removeAttribute_other.
    + destruct (String.eqb_spec (fst a) n) as [E|_]; [| done].
      unfold isDataAttr in Ea. congruence.
Qed.

Lemma removeDataAttributes_none (attrs : list Attr) :
  existsb isDataAttr (removeDataAttributes attrs) = false.
Proof.
  apply not_true_is_false. intros H. apply existsb_exists in H as (a & Hin & Ha).
  pose proof (occurrences_In a _ Hin) as Hpos.
  unfold removeDataAttributes in Hpos. rewrite data_loop in Hpos; [lia | | exact Ha].
  intros; lia.
Qed.

Lemma removePresentation_subset (attrs : list Attr) (a : Attr) :
  In a (removePresentation attrs) -> In a attrs.
Proof.
  unfold removePresentation, forEach. generalize attributesToRemove as names.
  intros names. revert attrs. induction names as [|n names IH]; intros attrs; [done |].
  cbn [fold_left]. intros H. apply IH in H. by apply removeAttribute_subset in H.
Qed.

Lemma cleaned_attributes_no_data (attrs : list Attr) :
  existsb isDataAttr (removePresentation (removeDataAttributes attrs)) = false.
Proof.
  apply not_true_is_false. intros H. apply existsb_exists in H as (a & Hin & Ha).
  apply removePresentation_subset in Hin.
  pose proof (removeDataAttributes_none attrs) as Hnone.
  apply not_true_iff_false in Hnone. apply Hnone, existsb_exists. eauto.
Qed.

Lemma cleanElement_keeps (P : Node -> bool) (n : Node) :
  nameOnly P -> everyNode P n = true -> everyNode P (cleanElement n) = true.
Proof.
  intros [HP HT]. induction n as [t a c IH|ta tc|d|d] using Node_ind; [| | done | done].
  2: { cbn [cleanElement everyNode].
       by rewrite (HT (removePresentation (removeDataAttributes ta)) ta tc tc). }
  cbn [cleanElement everyNode]. rewrite !andb_true_iff. intros [Hhere Hbelow].
  split; [by rewrite (HP t _ a _ c) |].
  rewrite forallb_forall in *. intros k Hk. apply in_map_iff in Hk as (k0 & <- & Hk0).
  rewrite Forall_forall in IH. apply IH; [| by apply Hbelow].
  by apply list_elem_of_In.
Qed.

Lemma cleanElement_no_data (n : Node) :
  everyNode (fun k => negb (carriesData k)) (cleanElement n) = true.
Proof.
  induction n as [t a c IH|ta tc|d|d] using Node_ind; [| | done | done].
  2: { cbn [cleanElement everyNode carriesData]. by rewrite cleaned_attributes_no_data. }
  cbn [cleanElement everyNode carriesData]. rewrite cleaned_attributes_no_data.
  cbn [negb andb]. rewrite forallb_forall. intros k Hk.
  apply in_map_iff in Hk as (k0 & <- & Hk0).
  rewrite Forall_forall in IH. apply IH. by apply list_elem_of_In.
Qed.

Lemma cleanAttributes_keeps (P : Node -> bool) (nodes : list Node) :
  nameOnly P ->
  forallb (everyNode P) nodes = true -> forallb (everyNode P) (cleanAttributes nodes) = true.
Proof.
  intros HP. unfold cleanAttributes. rewrite !forallb_forall. intros H k Hk.
  apply in_map_iff in Hk as (k0 & <- & Hk0). apply cleanElement_keeps; auto.
Qed.

Lemma cleanAttributes_no_data (nodes : list Node) :
  forallb (everyNode (fun k => negb (carriesData k))) (cleanAttributes nodes) = true.
Proof.
  unfold cleanAttributes. rewrite forallb_forall. intros k Hk.
  apply in_map_iff in Hk as (k0 & <- & _). apply cleanElement_no_data.
Qed.

Lemma everyNode_weaken (P Q : Node -> bool) (n : Node) :
  (forall k, P k = true -> Q k = true) -> everyNode P n = true -> everyNode Q n = true.
Proof.
  intros HPQ. induction n as [t a c IH|ta tc|d|d] using Node_ind; cbn [everyNode];
    rewrite !andb_true_iff; intros [Hhere Hbelow]; (split; [by apply HPQ |]);
    [| done | done | done].
  rewrite forallb_forall in *. rewrite Forall_forall in IH.
  intros k Hk. apply IH; [by apply list_elem_of_In | by apply Hbelow].
Qed.

Lemma claimedNames_removed (n : Node) :
  negb (isNonSemantic n) = true -> negb (isOneOf claimedNames n) = true.
Proof.
  destruct n as [t a c|ta tc|d|d]; [| done | done | done].
  unfold isNonSemantic, isOneOf, inList. rewrite !negb_true_iff.
  intros H. apply not_true_is_false. intros H'. apply not_true_iff_false in H. apply H.
  apply existsb_exists in H' as (x & Hx & Ht). apply String.eqb_eq in Ht. subst x.
  apply existsb_exists. exists t. split; [| apply String.eqb_refl].
  unfold claimedNames, elementsToRemove in *. simpl in *. tauto.
Qed.

(** The three properties of the cleaned tree, pass by pass. *)
Lemma sanitizeBody_no_removed_names (nodes : list Node) :
  forallb (everyNode (fun n => negb (isNonSemantic n))) (sanitizeBody nodes) = true.
Proof.
  assert (HP : nameOnly (fun n => negb (isNonSemantic n))) by (by split).
  unfold sanitizeBody, simplifyContainers, removeEmptyElements, removeComments.
  do 2 (apply removeAll_keeps; [by apply nameOnly_childBlind |]).
  apply cleanAttributes_keeps; [done |].
  apply removeAll_keeps; [by apply nameOnly_childBlind |].
  by apply (removeAll_removes isNonSemantic).
Qed.

Lemma sanitizeBody_no_comments (nodes : list Node) :
  forallb (everyNode (fun n => negb (isComment n))) (sanitizeBody nodes) = true.
Proof.
  assert (HP : nameOnly (fun n => negb (isComment n))) by (by split).
  unfold sanitizeBody, simplifyContainers, removeEmptyElements.
  do 2 (apply removeAll_keeps; [by apply nameOnly_childBlind |]).
  apply cleanAttributes_keeps; [done |].
  by apply (removeAll_removes isComment).
Qed.

Lemma sanitizeBody_no_data (nodes : list Node) :
  forallb (everyNode (fun n => negb (carriesData n))) (sanitizeBody nodes) = true.
Proof.
  assert (HP : childBlind (fun n => negb (carriesData n))) by done.
  unfold sanitizeBody, simplifyContainers, removeEmptyElements.
  do 2 (apply removeAll_keeps; [done |]).
  apply cleanAttributes_no_data.
Qed.



(** C1, on a body with a template: the passes do not reach the content of
    the template, and [innerHTML] writes it out.  The markup that the
    script returns still holds the comment, the script element, the image
    and its data attribute; the tree it spells out is the body as it was.
    The same nodes outside the template are removed. *)
Theorem template_content_not_cleaned :
  evaluate {| body := Some templateBody |} =
    Normal {| html := "<h1>Events</h1><template id=" +:+ DQ +:+ "row" +:+ DQ
                      +:+ "><!--row--><script>x</script><img data-x=" +:+ DQ +:+ "1" +:+ DQ
                      +:+ "></template>" |}
  /\ sanitizeBody templateBody = templateBody
  /\ existsb (written isComment) (sanitizeBody templateBody) = true
  /\ existsb (written (isOneOf ["script"])) (sanitizeBody templateBody) = true
  /\ existsb (written (isOneOf ["img"])) (sanitizeBody templateBody) = true
  /\ existsb (written carriesData) (sanitizeBody templateBody) = true
  /\ evaluate {| body := Some unwrappedBody |} = Normal {| html := "<h1>Events</h1>" |}.
Proof. repeat split. Qed.

(** The passes on small trees: text is escaped when it is written out; a
    div that is empty but for its id outlives the pass over the empty
    elements and goes with the containers; wrappers nested three deep go
    together. *)
Lemma sanitizer_examples :
  innerHTML "body" [Element "b" [("title", "a&b")] [Text "1 < 2"]; Element "br" [] []]
    = "<b title=" +:+ DQ +:+ "a&amp;b" +:+ DQ +:+ ">1 &lt; 2</b><br>"
  /\ removeEmptyElements [Element "div" [("id", "root")] []] = [Element "div" [("id", "root")] []]
  /\ sanitizeBody [Element "div" [("id", "root")] []] = []
  /\ sanitizeBody [Element "div" [] [Element "div" [] [Element "span" [] []]]] = []
  /\ sanitizeBody [Element "div" [] [Element "input" [("type", "text")] []]]
     = [Element "div" [] [Element "input" [("type", "text")] []]].
Proof. repeat split. Qed.

(** *** The example fragment *)

(** The fragment is the tree of the markup of the example. *)
Lemma exampleFragment_markup :
  innerHTML "body" exampleFragment =
    "<div><span></span><p>  </p><a href=" +:+ DQ +:+ "/x" +:+ DQ +:+ ">Go</a></div>".
Proof. reflexivity. Qed.

(** C4, as stated, fails: the script does not return the markup without
    the paragraph. *)
Lemma whitespace_paragraph_survives :
  evaluate {| body := Some exampleFragment |} <>
    Normal {| html := "<div><a href=" +:+ DQ +:+ "/x" +:+ DQ +:+ ">Go</a></div>" |}.
Proof. vm_compute. discriminate. Qed.

(** C4, amended: on the fragment of the example the script returns the
    div with the paragraph of two spaces and the link: the empty span is
    removed by the pass over the empty elements, which leaves the paragraph
    because it has a text child, and the last pass removes nothing. *)
Theorem example_fragment_sanitized :
  evaluate {| body := Some exampleFragment |} =
    Normal {| html := "<div><p>  </p><a href=" +:+ DQ +:+ "/x" +:+ DQ +:+ ">Go</a></div>" |}
  /\ cleanAttributes (removeComments (removeNonSemantic exampleFragment)) = exampleFragment
  /\ removeEmptyElements exampleFragment =
       [Element "div" []
          [Element "p" [] [Text "  "]; Element "a" [("href", "/x")] [Text "Go"]]]
  /\ simplifyContainers (removeEmptyElements exampleFragment) =
       removeEmptyElements exampleFragment
  /\ isEmptyElement (Element "p" [] [Text "  "]) = false.
Proof. repeat split. Qed.

End SanitizerFacts.

(** ** The request handler and the crawl *)

Module CrawlerFacts.
Import Dom Sanitizer Crawler.

Lemma toISOString_examples :
  Date.toISOString 0 = "1970-01-01T00:00:00.000Z"
  /\ Date.toISOString (-1) = "1969-12-31T23:59:59.999Z"
  /\ Date.toISOString 951782400000 = "2000-02-29T00:00:00.000Z"
  /\ Date.toISOString 1762110000123 = "2025-11-02T19:00:00.123Z"
  /\ Date.toISOString 253402300800000 = "+010000-01-01T00:00:00.000Z".
Proof. repeat split. Qed.

Lemma includes_nonempty (u p : string) : p <> "" -> includes u p = true -> truthy u = true.
Proof.
  intros Hp H. destruct u; [| done].
  cbn [includes] in H. rewrite orb_false_r in H. by destruct p.
Qed.

Lemma isEventPage_iff (page : Page) (u : string) :
  loadedUrl page = Some u -> isEventPage page = includes u "/e/".
Proof.
  intros Hu. unfold isEventPage. rewrite Hu.
  destruct (includes u "/e/") eqn:E; [| apply andb_false_r].
  by rewrite (includes_nonempty u "/e/").
Qed.

(** A URL that the exclude pattern matches holds the event segment. *)
Lemma excluded_includes (u : string) : excluded u = true -> includes u "/e/" = true.
Proof.
  unfold excluded, excludePattern. intros H.
  apply includes_split in H as (a & b & ->).
  change "https://qrticket.app/e/" with ("https://qrticket.app" +:+ "/e/").
  rewrite <- (append_assoc "https://qrticket.app" "/e/" b), (append_assoc a).
  apply includes_intro.
Qed.

Lemma enqueueLinks_excluded (page : Page) (u : string) :
  In u (enqueueLinks page) <-> In u (links page) /\ excluded u = false.
Proof.
  unfold enqueueLinks. rewrite List.filter_In. by rewrite negb_true_iff.
Qed.

Lemma requestHandler_allowed (now : Z) (page : Page) :
  Forall allowed (fst (requestHandler now page)).
Proof.
  unfold requestHandler. destruct (isEventPage page) eqn:Ev.
  - by repeat constructor.
  - destruct (networkidle page); [| by repeat constructor].
    destruct (evaluate (document page)) as [pageData|e]; [| by repeat constructor].
    repeat constructor; simpl.
    + intros u Hu. by rewrite <- (isEventPage_iff page u Hu).
    + intros u Hu. apply enqueueLinks_excluded in Hu. tauto.
Qed.

Lemma addRequest_clean (st : Crawl) (u : string) :
  clean st -> excluded u = false -> clean (addRequest st u).
Proof.
  intros [Hd Hq] Hu. unfold addRequest. destruct (decide _); [done |].
  split; [done |]. cbn [queue]. intros v Hv. apply in_app_or in Hv as [Hv|[<-|[]]]; auto.
Qed.

Lemma addRequests_clean (urls : list string) (st : Crawl) :
  clean st -> (forall u, In u urls -> excluded u = false) ->
  clean (fold_left addRequest urls st).
Proof.
  revert st. induction urls as [|u urls IH]; intros st Hst Hu; [done |].
  cbn [fold_left]. apply IH.
  - apply addRequest_clean; [done |]. apply Hu. by left.
  - intros v Hv. apply Hu. by right.
Qed.

Lemma perform_clean (st : Crawl) (e : Effect) :
  clean st -> allowed e -> clean (perform st e).
Proof.
  intros Hst He. destruct e as [m|r|urls]; cbn [perform].
  - exact Hst.
  - destruct Hst as [Hd Hq]. split; [| done]. cbn [dataset].
    intros r' u Hr. apply in_app_or in Hr as [Hr|[<-|[]]]; eauto.
  - by apply addRequests_clean.
Qed.

Lemma effects_clean (es : list Effect) (st : Crawl) :
  clean st -> Forall allowed es -> clean (fold_left perform es st).
Proof.
  intros Hst Hes. revert st Hst. induction Hes as [|e es He _ IH]; intros st Hst; [done |].
  cbn [fold_left]. by apply IH, perform_clean.
Qed.

Section RunFacts.
Variable navigate : string -> option Page.
Variable clock : nat -> Z.

Lemma step_clean (st st' : Crawl) :
  clean st -> step navigate clock st = Some st' -> clean st'.
Proof.
  intros [Hd Hq]. unfold step.
  destruct (maxRequestsPerCrawl <=? handled st)%nat; [done |].
  destruct (queue st) as [|u rest] eqn:Eq; [done |].
  assert (Hrest : clean {| queue := rest; known := known st; handled := S (handled st);
                           dataset := dataset st; infoLog := infoLog st |}).
  { split; [done |]. cbn [queue]. intros v Hv. apply Hq. by right. }
  destruct (navigate u) as [page|]; intros [= <-]; [| done].
  apply effects_clean; [done | apply requestHandler_allowed].
Qed.

Lemma run_clean (fuel : nat) (st : Crawl) :
  clean st -> clean (run navigate clock fuel st).
Proof.
  revert st. induction fuel as [|fuel IH]; intros st Hst; [done |].
  cbn [run]. destruct (step navigate clock st) as [st'|] eqn:E; [| done].
  by apply IH, (step_clean st).
Qed.

End RunFacts.

Lemma start_clean : clean start.
Proof.
  apply addRequest_clean; [| done]. split; intros; by exfalso.
Qed.

(** On the small site the crawl extracts the dashboard and the page of
    events; the page with the event segment in its path and the page that
    redirects to an event page are loaded and skipped; the event page
    itself is never put in the queue. *)
Lemma sample_crawl :
  let st := run sampleSite (fun n => 2000 * Z.of_nat n) 10 start in
  map DatasetRecord.url (dataset st) =
    [Some "https://qrticket.app/dashboard"; Some "https://qrticket.app/dashboard/events"]
  /\ infoLog st =
       ["Title of https://qrticket.app/dashboard is 'Dashboard'";
        "Title of https://qrticket.app/dashboard/events is 'Events'";
        "Skipping event page: https://qrticket.app/dashboard/e/7";
        "Skipping event page: https://qrticket.app/e/9"]
  /\ handled st = 4%nat /\ queue st = [].
Proof. vm_compute. repeat split. Qed.

(** C2: at any point of any crawl, whatever the site and the clock, no
    record of the dataset carries a URL that the exclude pattern matches
    (nor one that holds the event segment), and no URL in the queue matches
    it.  Both checks are there: the handler, given a page whose loaded URL
    matches, logs the skip and returns without pushing; and the URLs it
    hands to the queue are the links of the page that do not match. *)
Theorem excluded_urls_never_extracted
    (navigate : string -> option Page) (clock : nat -> Z) (fuel : nat) :
  let st := run navigate clock fuel start in
  (forall r u, In r (dataset st) -> DatasetRecord.url r = Some u ->
     excluded u = false /\ includes u "/e/" = false)
  /\ (forall u, In u (queue st) -> excluded u = false)
  /\ (forall now page u, loadedUrl page = Some u -> excluded u = true ->
        requestHandler now page = ([LogInfo ("Skipping event page: " +:+ u)], Normal ()))
  /\ (forall page u, In u (enqueueLinks page) <-> In u (links page) /\ excluded u = false).
Proof.
  intros st. destruct (run_clean navigate clock fuel start start_clean) as [Hd Hq].
  fold st in Hd, Hq. split; [| split; [exact Hq | split]].
  - intros r u Hr Hu. pose proof (Hd r u Hr Hu) as Hno. split; [| done].
    apply not_true_is_false. intros He. apply excluded_includes in He. congruence.
  - intros now page u Hu He. unfold requestHandler.
    rewrite (isEventPage_iff page u Hu), (excluded_includes u He).
    by rewrite Hu.
  - apply enqueueLinks_excluded.
Qed.

(** *** The two checks *)

(** C10, as stated, fails: the exclude pattern has no anchor, so it also
    matches a URL that holds the text further in, not only at its start. *)
Lemma exclude_matches_inside_url :
  excluded "https://qrticket.app/go?next=https://qrticket.app/e/1" = true
  /\ startsWith "https://qrticket.app/go?next=https://qrticket.app/e/1"
       "https://qrticket.app/e/" = false.
Proof. split; reflexivity. Qed.

(** C10, amended: the handler skips a page exactly when its loaded URL
    holds the event segment somewhere; the exclude pattern matches exactly
    the URLs that hold the text https://qrticket.app/e/ somewhere; every
    URL the pattern matches would also be skipped, and the converse fails:
    a URL of the site with the segment deeper in its path is enqueued and
    then skipped once loaded. *)
Theorem exclusion_checks_differ :
  (forall page u, loadedUrl page = Some u ->
     (isEventPage page = true <-> exists a b, u = a +:+ "/e/" +:+ b))
  /\ (forall u, excluded u = true <-> exists a b, u = a +:+ "https://qrticket.app/e/" +:+ b)
  /\ (forall page u, loadedUrl page = Some u -> excluded u = true -> isEventPage page = true)
  /\ (let u := "https://qrticket.app/dashboard/e/7" in
      In u (enqueueLinks dashboard)
      /\ excluded u = false
      /\ forall page, loadedUrl page = Some u -> isEventPage page = true).
Proof.
  split; [| split; [| split]].
  - intros page u Hu. rewrite (isEventPage_iff page u Hu). apply includes_iff.
  - intros u. apply includes_iff.
  - intros page u Hu He. rewrite (isEventPage_iff page u Hu). by apply excluded_includes.
  - split; [| split]; [simpl; tauto | done |].
    intros page Hu. by rewrite (isEventPage_iff page _ Hu).
Qed.

(** *** What reaches the dataset *)




End CrawlerFacts.

(** * Further properties of the code *)

(** ** The formatter: exceptions and layout *)

Module FormatMore.
Import Format Rendering Samples FormatFacts.

Lemma forEachC_throws (hs : list Heading.t) (formatted : string) :
  Exists (fun h => Heading.level h < 1) hs ->
  forEachC hs addHeading formatted = Throw RangeError.
Proof.
  intros H. revert formatted. induction hs as [|h hs IH]; intros formatted.
  - by apply Exists_nil in H.
  - cbn [forEachC]. destruct (Z.lt_ge_cases (Heading.level h) 1) as [Hlt|Hge].
    + by rewrite (addHeading_throws _ _ Hlt).
    + rewrite (addHeading_line _ _ Hge). cbn [Js.bind]. apply IH.
      apply Exists_cons in H as [H|H]; [lia | done].
Qed.

Lemma levels_cases (hs : list Heading.t) :
  Forall (fun h => 1 <= Heading.level h) hs \/ Exists (fun h => Heading.level h < 1) hs.
Proof.
  induction hs as [|h hs [IH|IH]].
  - left. constructor.
  - destruct (Z.lt_ge_cases (Heading.level h) 1); [right; by left | left; by constructor].
  - right. by right.
Qed.

(** X1: on a record whose heading levels are integers of at most six, the
    formatter throws when, and only when, some heading has a level of zero
    or less: the count handed to [repeat] is then negative and the
    exception is a range error.  A single heading of level zero among
    regular ones is enough to lose the whole rendering.  (The bound of six
    keeps every count within what a string can hold.) *)
Theorem formatForLLM_throws_on_level_zero (data : PageData) :
  Forall (fun h => Heading.level h <= 6) (headings data) ->
  (formatForLLM data = Throw RangeError <->
     Exists (fun h => Heading.level h <= 0) (headings data))
  /\ (forall e, formatForLLM data = Throw e -> e = RangeError).
Proof.
  intros Hsix.
  assert (Hthrow : Exists (fun h => Heading.level h <= 0) (headings data) ->
                   formatForLLM data = Throw RangeError).
  { intros H. unfold formatForLLM, addPageStructure.
    destruct (headings data) as [|h hs] eqn:E; [by apply Exists_nil in H |].
    cbn [nonEmpty length Nat.ltb Nat.leb]. rewrite forEachC_throws; [done |].
    eapply Exists_impl; [exact H |]. intros x Hx. simpl in Hx. lia. }
  assert (Hbelow : Exists (fun h => Heading.level h < 1) (headings data) ->
                   Exists (fun h => Heading.level h <= 0) (headings data)).
  { intros H. eapply Exists_impl; [exact H |]. intros x Hx. simpl in Hx. lia. }
  split; [split; [| exact Hthrow] |].
  - intros Ht. destruct (levels_cases (headings data)) as [Hok|Hbad]; [| by apply Hbelow].
    rewrite (formatForLLM_text data Hok) in Ht. discriminate.
  - intros e He. destruct (levels_cases (headings data)) as [Hok|Hbad].
    + rewrite (formatForLLM_text data Hok) in He. discriminate.
    + rewrite (Hthrow (Hbelow Hbad)) in He. by injection He.
Qed.



Lemma filter_none {A} (keep : A -> bool) (xs : list A) :
  Forall (fun x => keep x = false) xs -> List.filter keep xs = [].
Proof.
  induction 1 as [|x xs Hx _ IH]; [done |]. simpl. by rewrite Hx.
Qed.

(** X3: a record with links still gets the navigation heading when none of
    its links has a text: the section is then the heading followed by two
    blank lines and no line at all; the same holds of the interactive
    elements. *)
Theorem headed_section_without_lines (data : PageData) (formatted : string) :
  (linkElements data <> [] ->
   Forall (fun l => LinkElement.text l = "") (linkElements data) ->
   addNavigation data formatted =
     formatted +:+ "## Available Navigation" +:+ LF +:+ LF +:+ LF)
  /\ (interactiveElements data <> [] ->
      Forall (fun e => InteractiveElement.text e = "") (interactiveElements data) ->
      addInteractive data formatted =
        formatted +:+ "## Interactive Elements" +:+ LF +:+ LF +:+ LF).
Proof.
  split; intros Hne Hall.
  - rewrite addNavigation_text. unfold navigationText. rewrite (nonEmpty_true _ Hne).
    rewrite filter_none; [done |].
    eapply Forall_impl; [exact Hall |]. intros l Hl. unfold hasText. by rewrite Hl.
  - rewrite addInteractive_text. unfold interactiveText. rewrite (nonEmpty_true _ Hne).
    rewrite filter_none; [done |].
    eapply Forall_impl; [exact Hall |]. intros e He. unfold hasLabel. by rewrite He.
Qed.

Lemma headed_section_without_lines_witness :
  addNavigation iconsOnly "" = "## Available Navigation" +:+ LF +:+ LF +:+ LF
  /\ addInteractive iconsOnly "" = "## Interactive Elements" +:+ LF +:+ LF +:+ LF.
Proof.
  destruct (headed_section_without_lines iconsOnly "") as [Hn Hi]. split.
  - apply Hn; [done | by repeat constructor].
  - apply Hi; [done | by repeat constructor].
Defined.

Lemma formatForLLM_throws_on_level_zero_witness :
  formatForLLM levelZero = Throw RangeError.
Proof.
  assert (Hsix : Forall (fun h => Heading.level h <= 6) (headings levelZero)).
  { repeat constructor; simpl; lia. }
  apply (proj1 (formatForLLM_throws_on_level_zero levelZero Hsix)).
  right. left. simpl. lia.
Defined.

End FormatMore.

(** ** The clean-up pass: what it keeps *)

Module SanitizerMore.
Import Dom Sanitizer SanitizerFacts.

(** *** Text *)

Lemma textContent_texts (n : Node) : textContent n = String.concat "" (texts n).
Proof.
  induction n as [t a c IH|ta tc|d|d] using Node_ind; [| done | done | done].
  cbn [textContent texts]. induction IH as [|k c Hk _ IHc]; [done |].
  cbn [map flat_map]. by rewrite concat_cons, concat_app, Hk, IHc.
Qed.

Lemma filter_visible_blank (l : list string) :
  forallb allSpaces l = true -> List.filter visible l = [].
Proof.
  induction l as [|x l IH]; [done |].
  cbn [forallb List.filter]. rewrite andb_true_iff. intros [Hx Hl].
  unfold visible at 1. rewrite Hx. cbn [negb]. auto.
Qed.

(** Taking out nodes without visible text keeps the visible text. *)
Lemma removeWhere_visible (drop : Node -> bool) (n : Node) :
  (forall k, drop k = true -> List.filter visible (texts k) = []) ->
  List.filter visible (flat_map texts (removeWhere drop n)) = List.filter visible (texts n).
Proof.
  intros Hdrop. induction n as [t a c IH|ta tc|d|d] using Node_ind.
  - cbn [removeWhere]. destruct (drop (Element t a c)) eqn:E.
    + by rewrite (Hdrop _ E).
    + cbn [flat_map texts]. rewrite app_nil_r. clear E.
      induction IH as [|k c Hk _ IHc]; [done |].
      cbn [flat_map]. by rewrite flat_map_app, !List.filter_app, Hk, IHc.
  - cbn [removeWhere]. by destruct (drop (Template ta tc)).
  - cbn [removeWhere]. destruct (drop (Text d)) eqn:E; [by rewrite (Hdrop _ E) |].
    cbn [flat_map]. by rewrite app_nil_r.
  - cbn [removeWhere]. by destruct (drop (Comment d)).
Qed.

(** Taking nodes out leaves text nodes that were there. *)
Lemma removeWhere_texts (q : string -> bool) (drop : Node -> bool) (n : Node) :
  forallb q (texts n) = true -> forallb q (flat_map texts (removeWhere drop n)) = true.
Proof.
  induction n as [t a c IH|ta tc|d|d] using Node_ind; intros H.
  - cbn [removeWhere]. destruct (drop _); [done |].
    cbn [flat_map texts] in *. rewrite app_nil_r.
    induction IH as [|k c Hk _ IHc]; [done |].
    cbn [flat_map] in *. rewrite forallb_app in H. apply andb_true_iff in H as [H1 H2].
    by rewrite flat_map_app, forallb_app, (Hk H1), (IHc H2).
  - cbn [removeWhere]. by destruct (drop _).
  - cbn [removeWhere]. destruct (drop _); [done |]. cbn [flat_map]. by rewrite app_nil_r.
  - cbn [removeWhere]. by destruct (drop _).
Qed.

Lemma removeAll_texts (q : string -> bool) (drop : Node -> bool) (nodes : list Node) :
  forallb q (flat_map texts nodes) = true ->
  forallb q (flat_map texts (removeAll drop nodes)) = true.
Proof.
  unfold removeAll. induction nodes as [|n nodes IH]; [done |].
  cbn [flat_map]. rewrite forallb_app. intros H. apply andb_true_iff in H as [H1 H2].
  by rewrite flat_map_app, forallb_app, (removeWhere_texts q drop n H1), (IH H2).
Qed.

(** The same as [removeWhere_visible], for a test that needs the text to
    be well formed. *)
Lemma removeWhere_visible_wf (drop : Node -> bool) (n : Node) :
  (forall k, drop k = true -> forallb wellFormed (texts k) = true ->
             List.filter visible (texts k) = []) ->
  forallb wellFormed (texts n) = true ->
  List.filter visible (flat_map texts (removeWhere drop n)) = List.filter visible (texts n).
Proof.
  intros Hdrop. induction n as [t a c IH|ta tc|d|d] using Node_ind; intros Hw.
  - cbn [removeWhere]. destruct (drop (Element t a c)) eqn:E.
    + by rewrite (Hdrop _ E Hw).
    + cbn [flat_map texts] in *. rewrite app_nil_r. clear E.
      induction IH as [|k c Hk _ IHc]; [done |].
      cbn [flat_map] in *. rewrite forallb_app in Hw. apply andb_true_iff in Hw as [H1 H2].
      by rewrite flat_map_app, !List.filter_app, (Hk H1), (IHc H2).
  - cbn [removeWhere]. by destruct (drop (Template ta tc)).
  - cbn [removeWhere]. destruct (drop (Text d)) eqn:E; [by rewrite (Hdrop _ E Hw) |].
    cbn [flat_map]. by rewrite app_nil_r.
  - cbn [removeWhere]. by destruct (drop (Comment d)).
Qed.

Lemma removeAll_visible_wf (drop : Node -> bool) (nodes : list Node) :
  (forall k, drop k = true -> forallb wellFormed (texts k) = true ->
             List.filter visible (texts k) = []) ->
  forallb wellFormed (flat_map texts nodes) = true ->
  visibleTexts (removeAll drop nodes) = visibleTexts nodes.
Proof.
  intros Hdrop. unfold visibleTexts, removeAll.
  induction nodes as [|n nodes IH]; [done |].
  cbn [flat_map]. rewrite forallb_app. intros Hw. apply andb_true_iff in Hw as [H1 H2].
  by rewrite flat_map_app, !List.filter_app, (IH H2), (removeWhere_visible_wf drop n Hdrop H1).
Qed.

Lemma removeAll_visible (drop : Node -> bool) (nodes : list Node) :
  (forall k, drop k = true -> List.filter visible (texts k) = []) ->
  visibleTexts (removeAll drop nodes) = visibleTexts nodes.
Proof.
  intros Hdrop. unfold visibleTexts, removeAll.
  induction nodes as [|n nodes IH]; [done |].
  cbn [flat_map]. rewrite flat_map_app, !List.filter_app, IH.
  by rewrite (removeWhere_visible drop n Hdrop).
Qed.

Lemma cleanElement_texts (n : Node) : texts (cleanElement n) = texts n.
Proof.
  induction n as [t a c IH|ta tc|d|d] using Node_ind; [| done | done | done].
  cbn [cleanElement texts]. induction IH as [|k c Hk _ IHc]; [done |].
  cbn [map flat_map]. by rewrite Hk, IHc.
Qed.

Lemma cleanAttributes_texts (nodes : list Node) :
  flat_map texts (cleanAttributes nodes) = flat_map texts nodes.
Proof.
  unfold cleanAttributes. induction nodes as [|n nodes IH]; [done |].
  cbn [map flat_map]. by rewrite cleanElement_texts, IH.
Qed.

Lemma cleanAttributes_visible (nodes : list Node) :
  visibleTexts (cleanAttributes nodes) = visibleTexts nodes.
Proof. unfold visibleTexts. by rewrite cleanAttributes_texts. Qed.

Lemma isComment_no_text (k : Node) :
  isComment k = true -> List.filter visible (texts k) = [].
Proof. by destruct k. Qed.

Lemma isEmptyElement_no_text (k : Node) :
  isEmptyElement k = true -> List.filter visible (texts k) = [].
Proof.
  destruct k as [t a c|ta tc|d|d]; [| done | done | done].
  cbn [isEmptyElement texts]. rewrite !andb_true_iff. intros [[[[_ He] _] _] _].
  unfold emptyPseudo in He. induction c as [|k c IH]; [done |].
  cbn [forallb] in He. apply andb_true_iff in He as [Hk Hc].
  cbn [flat_map]. rewrite List.filter_app, (IH Hc), app_nil_r.
  destruct k as [t' a' c'|ta tc|d|d]; [done | done | | done].
  apply String.eqb_eq in Hk. by subst d.
Qed.

Lemma isEmptyContainer_no_text (k : Node) :
  isEmptyContainer k = true -> forallb wellFormed (texts k) = true ->
  List.filter visible (texts k) = [].
Proof.
  destruct k as [t a c|ta tc|d|d]; [| done | done | done].
  unfold isEmptyContainer. rewrite !andb_true_iff. intros [_ Hb] Hw.
  unfold blank in Hb. rewrite trim_empty, textContent_texts, (allSpaces_concat _ Hw) in Hb.
  by apply filter_visible_blank.
Qed.

Lemma removeWhere_nothing (drop : Node -> bool) (n : Node) :
  everyNode (fun k => negb (drop k)) n = true -> removeWhere drop n = [n].
Proof.
  induction n as [t a c IH|ta tc|d|d] using Node_ind; cbn [everyNode removeWhere];
    rewrite andb_true_iff, negb_true_iff; intros [-> Hc]; [| done | done | done].
  do 2 f_equal. induction IH as [|k c Hk _ IHc]; [done |].
  cbn [forallb] in Hc. apply andb_true_iff in Hc as [Hk' Hc].
  cbn [flat_map]. by rewrite (Hk Hk'), (IHc Hc).
Qed.

Lemma removeAll_nothing (drop : Node -> bool) (nodes : list Node) :
  forallb (everyNode (fun k => negb (drop k))) nodes = true -> removeAll drop nodes = nodes.
Proof.
  unfold removeAll. induction nodes as [|n nodes IH]; [done |].
  cbn [forallb flat_map]. rewrite andb_true_iff. intros [Hn Hr].
  by rewrite (removeWhere_nothing drop n Hn), (IH Hr).
Qed.

(** X4: once the elements of the removed names are out, the four later
    passes lose no visible text: on a body whose text nodes hold well-formed
    text, the text nodes that hold a character other than white space (the
    white space that [trim] strips, of the whole of Unicode) are the same,
    with the same data and in the same order, before and after them.  For
    such a body without any element of the removed names the whole pass
    keeps the visible text. *)
Theorem sanitizeBody_keeps_visible_text (nodes : list Node) :
  forallb wellFormed (flat_map texts nodes) = true ->
  visibleTexts (sanitizeBody nodes) = visibleTexts (removeNonSemantic nodes)
  /\ (forallb (everyNode (fun n => negb (isNonSemantic n))) nodes = true ->
      visibleTexts (sanitizeBody nodes) = visibleTexts nodes).
Proof.
  intros Hw.
  assert (H : visibleTexts (sanitizeBody nodes) = visibleTexts (removeNonSemantic nodes)).
  { unfold sanitizeBody, simplifyContainers, removeEmptyElements, removeComments,
      removeNonSemantic.
    rewrite (removeAll_visible_wf _ _ isEmptyContainer_no_text).
    - rewrite (removeAll_visible _ _ isEmptyElement_no_text).
      rewrite cleanAttributes_visible.
      by rewrite (removeAll_visible _ _ isComment_no_text).
    - apply removeAll_texts. rewrite cleanAttributes_texts.
      by do 2 apply removeAll_texts. }
  split; [exact H |]. intros Hno. rewrite H.
  unfold removeNonSemantic. by rewrite removeAll_nothing.
Qed.

Lemma sanitizeBody_keeps_visible_text_witness :
  visibleTexts (sanitizeBody spacedBody) = ["Café"; NBSP +:+ "x"].
Proof.
  rewrite (proj2 (sanitizeBody_keeps_visible_text spacedBody eq_refl) eq_refl).
  reflexivity.
Defined.

(** *** Attributes *)

Lemma removeAttribute_sublist (attrs : list Attr) (name : string) :
  sublist (removeAttribute attrs name) attrs.
Proof.
  induction attrs as [|a r IH]; [done |].
  cbn [removeAttribute]. destruct (named name a).
  - by apply sublist_cons.
  - by apply sublist_skip.
Qed.

Lemma removeAttribute_keeps (attrs : list Attr) (name : string) (a : Attr) :
  In a attrs -> named name a = false -> In a (removeAttribute attrs name).
Proof.
  intros Hin Hn. induction attrs as [|b r IH]; [done |].
  cbn [removeAttribute]. destruct (named name b) eqn:E.
  - destruct Hin as [->|Hin]; [congruence | done].
  - destruct Hin as [->|Hin]; [by left | right; auto].
Qed.

Lemma removeDataAttributes_loop (copy el : list Attr) :
  let result := forEach copy
    (fun el attr => if isDataAttr attr then removeAttribute el (fst attr) else el) el in
  sublist result el
  /\ forall a, In a el -> isDataAttr a = false -> In a result.
Proof.
  unfold forEach. revert el. induction copy as [|c copy IH]; intros el; [done |].
  cbn [fold_left]. destruct (isDataAttr c) eqn:Ec; [| apply IH].
  destruct (IH (removeAttribute el (fst c))) as [Hsub Hkeep]. split.
  - etrans; [exact Hsub | apply removeAttribute_sublist].
  - intros a Hin Ha. apply Hkeep; [| done]. apply removeAttribute_keeps; [done |].
    unfold named. apply String.eqb_neq. intros Heq.
    unfold isDataAttr in *. rewrite Heq in Ha. congruence.
Qed.

Lemma removePresentation_loop (names : list string) (el : list Attr) :
  sublist (forEach names removeAttribute el) el
  /\ forall a, In a el -> inList (fst a) names = false ->
       In a (forEach names removeAttribute el).
Proof.
  unfold forEach. revert el. induction names as [|n names IH]; intros el; [done |].
  cbn [fold_left]. destruct (IH (removeAttribute el n)) as [Hsub Hkeep]. split.
  - etrans; [exact Hsub | apply removeAttribute_sublist].
  - intros a Hin Ha. unfold inList in Ha. cbn [existsb] in Ha.
    apply orb_false_iff in Ha as [Hn Hrest]. apply Hkeep; [| exact Hrest].
    by apply removeAttribute_keeps.
Qed.

(** X5: the attribute pass only takes attributes away: what is left of an
    element's attributes is a sublist of what it had (same names, same
    values, same order), and an attribute whose name neither starts with the
    data prefix nor is one of the fifteen listed names (an id, an href, a
    type, a src, a name, a role) is always left. *)
Theorem cleaned_attributes_kept (attrs : list Attr) :
  sublist (removePresentation (removeDataAttributes attrs)) attrs
  /\ (forall a, In a attrs -> keptAttr a = true ->
        In a (removePresentation (removeDataAttributes attrs)))
  /\ keptAttr ("id", "x") = true /\ keptAttr ("href", "x") = true
  /\ keptAttr ("type", "x") = true /\ keptAttr ("src", "x") = true
  /\ keptAttr ("name", "x") = true /\ keptAttr ("role", "x") = true.
Proof.
  destruct (removeDataAttributes_loop attrs attrs) as [Hs1 Hk1].
  destruct (removePresentation_loop attributesToRemove (removeDataAttributes attrs))
    as [Hs2 Hk2].
  split; [| split; [| done]].
  - etrans; [exact Hs2 | exact Hs1].
  - intros a Hin Hkept. unfold keptAttr in Hkept.
    apply andb_true_iff in Hkept as [Hd Hp]. rewrite negb_true_iff in Hd, Hp.
    apply Hk2; [| exact Hp]. by apply Hk1.
Qed.

Lemma filter_all {A} (keep : A -> bool) (l : list A) :
  (forall x, In x l -> keep x = true) -> List.filter keep l = l.
Proof.
  induction l as [|x l IH]; [done |]. intros H. cbn [List.filter].
  rewrite (H x) by (by left). f_equal. apply IH. intros y Hy. apply H. by right.
Qed.

Lemma filter_filter {A} (f g : A -> bool) (l : list A) :
  List.filter f (List.filter g l) = List.filter (fun x => g x && f x) l.
Proof.
  induction l as [|x l IH]; [done |]. cbn [List.filter].
  destruct (g x); cbn [List.filter andb]; [destruct (f x) |]; by rewrite IH.
Qed.

Lemma filter_names_NoDup (f : Attr -> bool) (l : list Attr) :
  NoDup (map fst l) -> NoDup (map fst (List.filter f l)).
Proof.
  induction l as [|a l IH]; [done |]. cbn [map List.filter].
  rewrite NoDup_cons. intros [Hnotin Hnd]. destruct (f a); [| auto].
  cbn [map]. apply NoDup_cons. split; [| auto].
  intros Hin. apply Hnotin. apply list_elem_of_In in Hin. apply list_elem_of_In.
  apply in_map_iff in Hin as (b & Hb & Hin). apply in_map_iff. exists b.
  apply List.filter_In in Hin. tauto.
Qed.

(** With distinct names, removing a name is filtering it out. *)
Lemma removeAttribute_filter (attrs : list Attr) (name : string) :
  NoDup (map fst attrs) ->
  removeAttribute attrs name = List.filter (fun a => negb (named name a)) attrs.
Proof.
  induction attrs as [|a r IH]; [done |]. cbn [map removeAttribute List.filter].
  rewrite NoDup_cons. intros [Hnotin Hnd]. destruct (named name a) eqn:E; cbn [negb].
  - symmetry. apply filter_all. intros b Hb. apply negb_true_iff, String.eqb_neq.
    intros Heq. apply Hnotin. unfold named in E. apply String.eqb_eq in E.
    apply list_elem_of_In, in_map_iff. exists b. split; [congruence | done].
  - f_equal. by apply IH.
Qed.

Lemma removePresentation_filter (names : list string) (el : list Attr) :
  NoDup (map fst el) ->
  forEach names removeAttribute el =
    List.filter (fun a => negb (inList (fst a) names)) el.
Proof.
  unfold forEach. revert el. induction names as [|n names IH]; intros el Hnd.
  - cbn [fold_left]. symmetry. by apply filter_all.
  - cbn [fold_left]. rewrite (removeAttribute_filter el n Hnd).
    rewrite IH by (by apply filter_names_NoDup). rewrite filter_filter.
    apply List.filter_ext. intros a. unfold inList, named. cbn [existsb].
    by rewrite negb_orb.
Qed.

Lemma removeDataAttributes_filter (copy el : list Attr) :
  NoDup (map fst el) ->
  forEach copy (fun el attr => if isDataAttr attr then removeAttribute el (fst attr) else el) el =
    List.filter (fun a => negb (hit copy a)) el.
Proof.
  unfold forEach. revert el. induction copy as [|c copy IH]; intros el Hnd.
  - cbn [fold_left]. symmetry. by apply filter_all.
  - cbn [fold_left]. destruct (isDataAttr c) eqn:Ec.
    + rewrite (removeAttribute_filter el (fst c) Hnd).
      rewrite IH by (by apply filter_names_NoDup). rewrite filter_filter.
      apply List.filter_ext. intros a. unfold hit, named. cbn [existsb].
      by rewrite Ec, negb_orb.
    + rewrite (IH el Hnd). apply List.filter_ext. intros a.
      unfold hit. cbn [existsb]. by rewrite Ec.
Qed.

Lemma hit_self (attrs : list Attr) (a : Attr) :
  In a attrs -> hit attrs a = isDataAttr a.
Proof.
  intros Hin. unfold hit. destruct (isDataAttr a) eqn:Ea.
  - apply existsb_exists. exists a. by rewrite Ea, String.eqb_refl.
  - apply not_true_is_false. intros H. apply existsb_exists in H as (c & _ & Hc).
    apply andb_true_iff in Hc as [Hd Heq]. apply String.eqb_eq in Heq.
    unfold isDataAttr in *. rewrite Heq in Ea. congruence.
Qed.



(** *** Empty wrappers *)

Lemma blankLeaf_pass1 (c : list Node) :
  forallb blankLeaf c = true -> removeNonSemantic c = c.
Proof.
  intros H. apply removeAll_nothing. rewrite forallb_forall in *.
  intros k Hk. specialize (H k Hk). by destruct k.
Qed.

Lemma blankLeaf_pass2 (c : list Node) :
  forallb blankLeaf c = true -> forallb blankText (removeComments c) = true.
Proof.
  unfold removeComments, removeAll. induction c as [|k c IH]; [done |].
  cbn [forallb flat_map]. rewrite andb_true_iff. intros [Hk Hc].
  rewrite forallb_app, (IH Hc), andb_true_r.
  destruct k as [t a c'|ta tc|d|d]; [done | done | | done].
  cbn [removeWhere isComment forallb blankText]. cbn [blankLeaf] in Hk. by rewrite Hk.
Qed.

Lemma blankText_fixed (c : list Node) :
  forallb blankText c = true ->
  cleanAttributes c = c /\ removeEmptyElements c = c /\ children c = []
  /\ allSpaces (String.concat "" (map textContent c)) = true.
Proof.
  unfold cleanAttributes, removeEmptyElements, removeAll, children.
  induction c as [|k c IH]; [done |].
  cbn [forallb]. rewrite andb_true_iff. intros [Hk Hc].
  destruct (IH Hc) as (H1 & H2 & H3 & H4).
  destruct k as [t a c'|ta tc|d|d]; [done | done | | done].
  cbn [map flat_map List.filter isElement removeWhere isEmptyElement cleanElement].
  rewrite H1, H2, H3, concat_cons. cbn [blankText textContent] in Hk |- *.
  repeat split. by apply allSpaces_app_intro.
Qed.

(** X7: the last pass does not look at the attributes of the container it
    removes: a div or a span that holds nothing but white space and
    comments is removed whatever attributes it has, an id, an href or a type
    included, although the pass before it keeps such an element for the
    sake of these attributes. *)
Theorem blank_container_removed (t : string) (attrs : list Attr) (c : list Node) :
  t = "div" \/ t = "span" ->
  forallb blankLeaf c = true ->
  sanitizeBody [Element t attrs c] = [].
Proof.
  intros Ht Hc. unfold sanitizeBody.
  assert (H1 : removeNonSemantic [Element t attrs c] = [Element t attrs c]).
  { unfold removeNonSemantic, removeAll. cbn [flat_map removeWhere].
    replace (isNonSemantic (Element t attrs c)) with false by (by destruct Ht as [->| ->]).
    fold (removeAll isNonSemantic c). fold (removeNonSemantic c).
    by rewrite (blankLeaf_pass1 c Hc). }
  rewrite H1. unfold removeComments at 1, removeAll. cbn [flat_map removeWhere isComment].
  fold (removeAll isComment c). fold (removeComments c). rewrite app_nil_r.
  pose proof (blankLeaf_pass2 c Hc) as Hc2.
  destruct (blankText_fixed _ Hc2) as (Hclean & Hempty & Hchildren & Hblank).
  set (c2 := removeComments c) in *.
  cbn [cleanAttributes map cleanElement]. fold (cleanAttributes c2). rewrite Hclean.
  set (attrs' := removePresentation (removeDataAttributes attrs)).
  unfold removeEmptyElements at 1, removeAll. cbn [flat_map removeWhere].
  destruct (isEmptyElement (Element t attrs' c2)); [done |].
  fold (removeAll isEmptyElement c2). fold (removeEmptyElements c2).
  rewrite Hempty, app_nil_r.
  unfold simplifyContainers, removeAll. cbn [flat_map removeWhere].
  replace (isEmptyContainer (Element t attrs' c2)) with true; [done |].
  symmetry. unfold isEmptyContainer, hasOnlyEmptyChildren, blank.
  rewrite Hchildren, trim_empty. cbn [forallb textContent]. rewrite Hblank.
  by destruct Ht as [->| ->].
Qed.

Lemma blank_container_removed_witness :
  sanitizeBody [Element "div" [("id", "app"); ("href", "/x"); ("type", "button")]
                  [Text " "; Comment "mount point"; Text (LF +:+ "  ")]] = [].
Proof.
  apply blank_container_removed; [by left | reflexivity].
Defined.

Lemma flat_map_replicate_same (f : Node -> list Node) (x : Node) (n : nat) :
  f x = [x] -> flat_map f (replicate n x) = replicate n x.
Proof.
  intros Hf. induction n as [|n IH]; [done |].
  cbn [replicate flat_map]. by rewrite Hf, IH.
Qed.

Lemma flat_map_replicate_gone (f : Node -> list Node) (x : Node) (n : nat) :
  f x = [] -> flat_map f (replicate n x) = [].
Proof.
  intros Hf. induction n as [|n IH]; [done |].
  cbn [replicate flat_map]. by rewrite Hf, IH.
Qed.

Lemma map_replicate_same (f : Node -> Node) (x : Node) (n : nat) :
  f x = x -> map f (replicate n x) = replicate n x.
Proof.
  intros Hf. induction n as [|n IH]; [done |].
  cbn [replicate map]. by rewrite Hf, IH.
Qed.

Lemma filter_visible_nil (l : list string) :
  List.filter visible l = [] -> forallb allSpaces l = true.
Proof.
  induction l as [|x l IH]; [done |]. cbn [List.filter forallb]. unfold visible at 1.
  destruct (allSpaces x); cbn [negb andb]; [exact IH | done].
Qed.

(** Taking nodes out of a tree without visible text leaves none. *)
Lemma removeWhere_blank (drop : Node -> bool) (n : Node) :
  List.filter visible (texts n) = [] ->
  List.filter visible (flat_map texts (removeWhere drop n)) = [].
Proof.
  induction n as [t a c IH|ta tc|d|d] using Node_ind; intros H.
  - cbn [removeWhere]. destruct (drop _); [done |].
    cbn [flat_map texts] in *. rewrite app_nil_r.
    induction IH as [|k c Hk _ IHc]; [done |].
    cbn [flat_map] in *. rewrite List.filter_app in H. apply app_eq_nil in H as [H1 H2].
    by rewrite flat_map_app, List.filter_app, (Hk H1), (IHc H2).
  - cbn [removeWhere]. by destruct (drop _).
  - cbn [removeWhere]. destruct (drop _); [done |]. cbn [flat_map]. by rewrite app_nil_r.
  - cbn [removeWhere]. by destruct (drop _).
Qed.

Lemma removeAll_blank (drop : Node -> bool) (nodes : list Node) :
  visibleTexts nodes = [] -> visibleTexts (removeAll drop nodes) = [].
Proof.
  unfold visibleTexts, removeAll. induction nodes as [|n nodes IH]; [done |].
  cbn [flat_map]. rewrite List.filter_app. intros H. apply app_eq_nil in H as [H1 H2].
  by rewrite flat_map_app, List.filter_app, (removeWhere_blank drop n H1), (IH H2).
Qed.

Lemma existsb_sublist {A} (f : A -> bool) (l1 l2 : list A) :
  sublist l1 l2 -> existsb f l2 = false -> existsb f l1 = false.
Proof.
  induction 1 as [|x l1 l2 _ IH|x l1 l2 _ IH]; [done | |]; cbn [existsb];
    rewrite !orb_false_iff; intros [Hx Hl]; auto.
Qed.

Lemma cleaned_hasAttribute (attrs : list Attr) (name : string) :
  hasAttribute attrs name = false ->
  hasAttribute (removePresentation (removeDataAttributes attrs)) name = false.
Proof.
  unfold hasAttribute. apply existsb_sublist.
  destruct (removeDataAttributes_loop attrs attrs) as [Hs1 _].
  destruct (removePresentation_loop attributesToRemove (removeDataAttributes attrs)) as [Hs2 _].
  etrans; [exact Hs2 | exact Hs1].
Qed.

(** X12: two div or span wrappers around content without visible text are
    removed together with that content, whatever it is: the last pass asks
    of the inner wrapper only that it is a div or a span without text,
    without href and without type, not what it holds.  A text field or an
    icon button wrapped twice is lost this way. *)
Theorem wrapped_content_without_text_removed
    (t t' : string) (a a' : list Attr) (c : list Node) :
  t = "div" \/ t = "span" ->
  t' = "div" \/ t' = "span" ->
  hasAttribute a' "href" = false ->
  hasAttribute a' "type" = false ->
  visibleTexts c = [] ->
  sanitizeBody [Element t a [Element t' a' c]] = [].
Proof.
  intros Ht Ht' Hhref Htype Hc. unfold sanitizeBody.
  set (c1 := removeNonSemantic c).
  assert (H1 : removeNonSemantic [Element t a [Element t' a' c]]
               = [Element t a [Element t' a' c1]]).
  { unfold removeNonSemantic, removeAll. cbn [flat_map removeWhere].
    replace (isNonSemantic (Element t a [Element t' a' c])) with false
      by (by destruct Ht as [->| ->]).
    cbn [flat_map removeWhere].
    replace (isNonSemantic (Element t' a' c)) with false by (by destruct Ht' as [->| ->]).
    by rewrite !app_nil_r. }
  rewrite H1. set (c2 := removeComments c1).
  assert (H2 : removeComments [Element t a [Element t' a' c1]]
               = [Element t a [Element t' a' c2]]).
  { unfold removeComments, removeAll. cbn [flat_map removeWhere isComment].
    by rewrite !app_nil_r. }
  rewrite H2. cbn [cleanAttributes map cleanElement].
  set (A := removePresentation (removeDataAttributes a)).
  set (A' := removePresentation (removeDataAttributes a')).
  fold (cleanAttributes c2). set (c3 := cleanAttributes c2).
  set (c4 := removeEmptyElements c3).
  assert (Hvis : List.filter visible (flat_map texts c4) = []).
  { fold (visibleTexts c4). unfold c4, removeEmptyElements.
    rewrite (removeAll_visible _ _ isEmptyElement_no_text). unfold c3.
    rewrite cleanAttributes_visible. unfold c2, removeComments.
    rewrite (removeAll_visible _ _ isComment_no_text). by apply removeAll_blank. }
  assert (Hblank : allSpaces (String.concat "" (flat_map texts c4)) = true).
  { by apply allSpaces_concat_intro, filter_visible_nil. }
  unfold removeEmptyElements at 1, removeAll. cbn [flat_map removeWhere].
  replace (isEmptyElement (Element t A [Element t' A' c3])) with false
    by (unfold isEmptyElement; cbn [emptyPseudo forallb]; by rewrite andb_false_r).
  cbn [flat_map removeWhere]. fold (removeAll isEmptyElement c3).
  fold (removeEmptyElements c3). fold c4. rewrite !app_nil_r.
  unfold simplifyContainers, removeAll.
  destruct (isEmptyElement (Element t' A' c3)).
  - cbn [flat_map removeWhere app].
    replace (isEmptyContainer (Element t A [])) with true
      by (by destruct Ht as [->| ->]).
    done.
  - cbn [flat_map removeWhere app].
    replace (isEmptyContainer (Element t A [Element t' A' c4])) with true; [done |].
    symmetry. unfold isEmptyContainer, hasOnlyEmptyChildren, blank.
    rewrite trim_empty, textContent_texts.
    cbn [children List.filter isElement forallb emptyChild texts flat_map].
    unfold blank. rewrite trim_empty, textContent_texts. cbn [texts].
    rewrite app_nil_r, Hblank.
    unfold A'.
    rewrite (cleaned_hasAttribute a' "href" Hhref), (cleaned_hasAttribute a' "type" Htype).
    destruct Ht as [->| ->], Ht' as [->| ->]; reflexivity.
Qed.

Lemma wrapped_content_without_text_removed_witness :
  sanitizeBody
    [Element "div" [("id", "search")]
       [Element "div" [("class", "field")]
          [Element "input" [("type", "text"); ("name", "q")] []]]] = [].
Proof.
  apply wrapped_content_without_text_removed; (by left) || reflexivity.
Defined.



(** *** Bodies without templates *)

Lemma written_none (P : Node -> bool) (n : Node) :
  everyNode (fun k => negb (isTemplate k)) n = true ->
  everyNode (fun k => negb (P k)) n = true ->
  written P n = false.
Proof.
  induction n as [t a c IH|ta tc|d|d] using Node_ind; cbn [everyNode written];
    rewrite ?andb_true_iff, ?negb_true_iff.
  - intros [_ Ht] [-> Hc]. cbn [orb].
    induction c as [|k c IHc]; [done |].
    cbn [forallb existsb] in *. apply andb_true_iff in Ht as [Htk Htc].
    apply andb_true_iff in Hc as [Hck Hcc].
    apply Forall_cons in IH as [IHk IHr].
    by rewrite (IHk Htk Hck), (IHc IHr Htc Hcc).
  - by intros [Ht _].
  - by intros _ [-> _].
  - by intros _ [-> _].
Qed.

Lemma written_none_all (P : Node -> bool) (nodes : list Node) :
  forallb (everyNode (fun k => negb (isTemplate k))) nodes = true ->
  forallb (everyNode (fun k => negb (P k))) nodes = true ->
  existsb (written P) nodes = false.
Proof.
  induction nodes as [|n nodes IH]; [done |]. cbn [forallb existsb].
  rewrite !andb_true_iff. intros [Htn Htr] [Hn Hr].
  by rewrite (written_none P n Htn Hn), (IH Htr Hr).
Qed.

Lemma sanitizeBody_no_template (nodes : list Node) :
  forallb (everyNode (fun k => negb (isTemplate k))) nodes = true ->
  forallb (everyNode (fun k => negb (isTemplate k))) (sanitizeBody nodes) = true.
Proof.
  intros H.
  assert (HP : nameOnly (fun k => negb (isTemplate k))) by (by split).
  unfold sanitizeBody, simplifyContainers, removeEmptyElements, removeComments,
    removeNonSemantic.
  do 2 (apply removeAll_keeps; [by apply nameOnly_childBlind |]).
  apply cleanAttributes_keeps; [done |].
  by do 2 (apply removeAll_keeps; [by apply nameOnly_childBlind |]).
Qed.



(** X8: one run of the pass is not a fixed point.  A paragraph that holds
    nothing but empty spans comes out as an empty paragraph, since the list
    of empty elements was drawn up before the spans were taken out and the
    last pass only looks at div and span; a second run removes it. *)
Theorem sanitizeBody_not_idempotent :
  (forall k : nat,
     sanitizeBody [Element "p" [] (replicate (S k) (Element "span" [] []))]
     = [Element "p" [] []])
  /\ sanitizeBody [Element "p" [] []] = []
  /\ ~ (forall nodes, sanitizeBody (sanitizeBody nodes) = sanitizeBody nodes).
Proof.
  assert (H : forall k : nat,
    sanitizeBody [Element "p" [] (replicate (S k) (Element "span" [] []))]
    = [Element "p" [] []]).
  { intros k.
    unfold sanitizeBody, removeNonSemantic, removeComments, cleanAttributes,
      removeEmptyElements, simplifyContainers, removeAll.
    cbn [flat_map removeWhere]. cbn [isNonSemantic isOneOf].
    change (inList "p" elementsToRemove) with false. cbv iota.
    rewrite (flat_map_replicate_same (removeWhere isNonSemantic)) by reflexivity.
    cbn [app flat_map removeWhere isComment].
    rewrite (flat_map_replicate_same (removeWhere isComment)) by reflexivity.
    cbn [app map cleanElement].
    rewrite (map_replicate_same cleanElement) by reflexivity.
    change (removePresentation (removeDataAttributes [])) with (@nil Attr).
    cbn [flat_map removeWhere].
    replace (isEmptyElement (Element "p" [] (replicate (S k) (Element "span" [] []))))
      with false by reflexivity.
    rewrite (flat_map_replicate_gone (removeWhere isEmptyElement)) by reflexivity.
    reflexivity. }
  split; [exact H |]. split; [done |].
  intros Hidem. specialize (Hidem [Element "p" [] [Element "span" [] []]]).
  pose proof (H 0%nat) as H0. cbn [replicate] in H0. rewrite H0 in Hidem. discriminate.
Qed.

End SanitizerMore.

(** ** The crawl: provenance of the records and of the queued URLs *)

Module CrawlerMore.
Import Dom Sanitizer Crawler SanitizerFacts CrawlerFacts.

(** A page is extracted when it is not skipped, reaches network idle and
    has a body. *)
Lemma requestHandler_outcomes (now : Z) (page : Page) :
  let es := fst (requestHandler now page) in
  (exists nodes,
     isEventPage page = false /\ networkidle page = true
     /\ body (document page) = Some nodes
     /\ pushed es =
          [{| DatasetRecord.title := pageTitle page;
              DatasetRecord.url := loadedUrl page;
              DatasetRecord.timestamp := Date.toISOString now;
              DatasetRecord.html := innerHTML "body" (sanitizeBody nodes) |}]
     /\ enqueued es = enqueueLinks page)
  \/ (pushed es = [] /\ enqueued es = []).
Proof.
  unfold requestHandler. destruct (isEventPage page) eqn:Ev; [by right |].
  destruct (networkidle page) eqn:Ei; [| by right].
  unfold evaluate. destruct (body (document page)) as [nodes|] eqn:Eb; [| by right].
  left. exists nodes. cbn [negb fst pushed enqueued flat_map app html].
  by rewrite app_nil_r.
Qed.

Lemma addRequests_dataset (urls : list string) (st : Crawl) :
  dataset (fold_left addRequest urls st) = dataset st
  /\ handled (fold_left addRequest urls st) = handled st.
Proof.
  revert st. induction urls as [|u urls IH]; intros st; [done |].
  cbn [fold_left]. destruct (IH (addRequest st u)) as [-> ->].
  unfold addRequest. by destruct (decide _).
Qed.

Lemma effects_dataset (es : list Effect) (st : Crawl) :
  dataset (fold_left perform es st) = (dataset st ++ pushed es)%list
  /\ handled (fold_left perform es st) = handled st.
Proof.
  revert st. induction es as [|e es IH]; intros st.
  - cbn [fold_left pushed flat_map]. by rewrite app_nil_r.
  - cbn [fold_left pushed flat_map]. fold (pushed es).
    destruct (IH (perform st e)) as [-> ->].
    destruct e as [m|r|urls]; cbn [perform dataset handled].
    + done.
    + by rewrite <- app_assoc.
    + by destruct (addRequests_dataset urls st) as [-> ->].
Qed.

Section Runs.
Variable navigate : string -> option Page.
Variable clock : nat -> Z.

Local Abbreviation served := (Crawler.served navigate clock).
Local Abbreviation found := (Crawler.found navigate).
Local Abbreviation traced := (Crawler.traced navigate).

(** What a step does to the dataset and to the count of requests. *)
Lemma step_dataset (st st' : Crawl) :
  step navigate clock st = Some st' ->
  (handled st < maxRequestsPerCrawl)%nat
  /\ handled st' = S (handled st)
  /\ exists u, In u (queue st)
     /\ dataset st' =
          (dataset st ++
           match navigate u with
           | Some page => pushed (fst (requestHandler (clock (handled st)) page))
           | None => []
           end)%list.
Proof.
  unfold step. destruct (Nat.leb_spec maxRequestsPerCrawl (handled st)) as [|Hlt]; [done |].
  destruct (queue st) as [|u rest] eqn:Eq; [done |].
  intros H. split; [done |].
  destruct (navigate u) as [page|] eqn:En; injection H as <-.
  - destruct (effects_dataset (fst (requestHandler (clock (handled st)) page))
      {| queue := rest; known := known st; handled := S (handled st);
         dataset := dataset st; infoLog := infoLog st |}) as [-> ->].
    split; [done |]. exists u. split; [by left |]. by rewrite En.
  - split; [done |]. exists u. split; [by left |]. rewrite En. cbn [dataset].
    by rewrite app_nil_r.
Qed.

Lemma pushed_at_most_one (now : Z) (page : Page) :
  (length (pushed (fst (requestHandler now page))) <= 1)%nat.
Proof.
  destruct (requestHandler_outcomes now page) as [(nodes & _ & _ & _ & -> & _)|[-> _]];
    simpl; lia.
Qed.

Lemma step_served (st st' : Crawl) :
  step navigate clock st = Some st' ->
  (forall r, In r (dataset st) -> served st r) ->
  forall r, In r (dataset st') -> served st' r.
Proof.
  intros Hstep Hinv r Hr.
  destruct (step_dataset st st' Hstep) as (_ & Hs & u & _ & Hds).
  rewrite Hds in Hr. apply in_app_or in Hr as [Hr|Hr].
  - destruct (Hinv r Hr) as (v & page & k & nodes & Hn & Hk & Hrest).
    exists v, page, k, nodes. split; [done |]. split; [lia | done].
  - destruct (navigate u) as [page|] eqn:En; [| done].
    destruct (requestHandler_outcomes (clock (handled st)) page)
      as [(nodes & Hev & Hi & Hb & Hp & _)|[Hp _]]; rewrite Hp in Hr; [| done].
    destruct Hr as [<-|[]]. exists u, page, (handled st), nodes.
    repeat split; try done. lia.
Qed.

Lemma run_served (fuel : nat) (st : Crawl) :
  (forall r, In r (dataset st) -> served st r) ->
  forall r, In r (dataset (run navigate clock fuel st)) ->
            served (run navigate clock fuel st) r.
Proof.
  revert st. induction fuel as [|fuel IH]; intros st Hinv; [done |].
  cbn [run]. destruct (step navigate clock st) as [st1|] eqn:E; [| done].
  apply IH. by apply (step_served st).
Qed.

Lemma addRequests_traced (urls : list string) (st : Crawl) :
  traced st -> (forall u, In u urls -> found u) -> traced (fold_left addRequest urls st).
Proof.
  revert st. induction urls as [|u urls IH]; intros st Hst Hu; [done |].
  cbn [fold_left]. apply IH; [| intros v Hv; apply Hu; by right].
  unfold addRequest. destruct (decide _); [done |].
  intros v [Hv|Hv]; cbn [queue known] in Hv.
  - apply in_app_or in Hv as [Hv|[<-|[]]]; [apply Hst; by left | apply Hu; by left].
  - apply elem_of_union in Hv as [Hv|Hv]; [| apply Hst; by right].
    apply elem_of_singleton in Hv as ->. apply Hu. by left.
Qed.

Lemma effects_traced (es : list Effect) (st : Crawl) :
  traced st -> (forall u, In u (enqueued es) -> found u) -> traced (fold_left perform es st).
Proof.
  revert st. induction es as [|e es IH]; intros st Hst Hu; [done |].
  cbn [fold_left]. cbn [enqueued flat_map] in Hu. fold (enqueued es) in Hu.
  apply IH; [| intros u Hin; apply Hu, in_or_app; by right].
  destruct e as [m|r|urls]; cbn [perform]; [done | done |].
  apply addRequests_traced; [done |]. intros u Hin. apply Hu, in_or_app. by left.
Qed.

Lemma step_traced (st st' : Crawl) :
  step navigate clock st = Some st' -> traced st -> traced st'.
Proof.
  unfold step. destruct (maxRequestsPerCrawl <=? handled st)%nat; [done |].
  destruct (queue st) as [|u rest] eqn:Eq; [done |]. intros H Hst.
  assert (Hrest : traced {| queue := rest; known := known st; handled := S (handled st);
                            dataset := dataset st; infoLog := infoLog st |}).
  { intros v [Hv|Hv]; cbn [queue known] in Hv; apply Hst; [left | by right].
    rewrite Eq. by right. }
  destruct (navigate u) as [page|] eqn:En; injection H as <-; [| done].
  apply effects_traced; [done |]. intros v Hv.
  destruct (requestHandler_outcomes (clock (handled st)) page)
    as [(nodes & Hev & Hi & Hb & _ & He)|[_ He]]; rewrite He in Hv; [| done].
  apply enqueueLinks_excluded in Hv as [Hl Hx].
  right. by exists u, page, nodes.
Qed.

Lemma run_traced (fuel : nat) (st : Crawl) :
  traced st -> traced (run navigate clock fuel st).
Proof.
  revert st. induction fuel as [|fuel IH]; intros st Hst; [done |].
  cbn [run]. destruct (step navigate clock st) as [st1|] eqn:E; [| done].
  by apply IH, (step_traced st).
Qed.

End Runs.

Lemma start_traced (navigate : string -> option Page) : traced navigate start.
Proof.
  unfold start, addRequest. destruct (decide _); intros u [Hu|Hu]; cbn in Hu.
  - done.
  - by apply not_elem_of_empty in Hu.
  - destruct Hu as [<-|[]]. by left.
  - apply elem_of_union in Hu as [Hu|Hu]; [| by apply not_elem_of_empty in Hu].
    apply elem_of_singleton in Hu as ->. by left.
Qed.



End CrawlerMore.
